(** * Verification decision engine of the Aadhaar detection backend

    Shallow embedding of
    - [backend/main_stateless.py]: [StatelessAadhaarDetector] and the
      [/detect] endpoint with its manual review queue,
    - [backend/main.py]: [AadhaarCardDetector.detect_cards],
    - [backend/onnx_detector.py]: [AadhaarDetector.detect].

    Confidences are Python floats that the code only compares with each
    other, with the thresholds and with [0.0].  They are modelled by the
    rational numbers they denote ([Q]); the model's scores are finite, so
    the order of the floats is the order of [Q].  Dictionaries with a fixed
    set of keys are records, [card_classes] is a finite map, the review
    queue is a list that grows at its end. *)

From Stdlib Require Import QArith ZArith Ascii String List Bool Lia Lqa.
From stdpp Require Import base option list gmap strings.

Local Open Scope string_scope.
Local Open Scope Q_scope.
Local Open Scope list_scope.

(** ** Python values the code relies on *)

(** [a < b] on floats. *)
Definition Qltb (a b : Q) : bool := negb (Qle_bool b a).

(** Truth value of a float: [0.0] is false. *)
Definition Qtruthy (a : Q) : bool := negb (Qeq_bool a 0).

(** [a or b] on floats. *)
Definition Qor (a b : Q) : Q := if Qtruthy a then a else b.

(** Truth value of an optional string: [None] and the empty string are
    false. *)
Definition str_truthy (s : option string) : bool :=
  match s with
  | Some (String _ _) => true
  | _ => false
  end.

(** The values an [and] chain over booleans and optional strings can
    yield. *)
Inductive pyval :=
| PyBool (b : bool)
| PyStr (s : string)
| PyNone.

Definition py_truthy (v : pyval) : bool :=
  match v with
  | PyBool b => b
  | PyStr s => str_truthy (Some s)
  | PyNone => false
  end.

Definition py_of_str (s : option string) : pyval :=
  match s with
  | Some x => PyStr x
  | None => PyNone
  end.

(** [sep.join(parts)]. *)
Fixpoint join (sep : string) (parts : list string) : string :=
  match parts with
  | [] => ""
  | [x] => x
  | x :: rest => x ++ sep ++ join sep rest
  end.

(** [',' in s]. *)
Fixpoint has_comma (s : string) : bool :=
  match s with
  | EmptyString => false
  | String c rest => if Ascii.eqb c ","%char then true else has_comma rest
  end.

(** The text before the first comma (all of it when there is none). *)
Fixpoint upto_comma (s : string) : string :=
  match s with
  | EmptyString => EmptyString
  | String c rest => if Ascii.eqb c ","%char then EmptyString else String c (upto_comma rest)
  end.

(** The text after the first comma. *)
Fixpoint after_comma (s : string) : string :=
  match s with
  | EmptyString => EmptyString
  | String c rest => if Ascii.eqb c ","%char then rest else after_comma rest
  end.

(** [s.split(',')[1]] for a string that has a comma. *)
Definition split_comma_1 (s : string) : string := upto_comma (after_comma s).

(** ** The stateless backend: [main_stateless.py] *)

Module Stateless.

Inductive VerificationStatus := APPROVED | REJECTED | PENDING_REVIEW.

(** One box of [predictions[0].boxes]: [box.conf[0]] and [box.cls[0]]. *)
Record Box := { conf : Q; cls : Z }.

(** An entry of [all_detections] or of [details]: either a
    class/confidence pair or an error note. *)
Inductive Detail :=
| Seen (class_name : string) (confidence : Q)
| Error (msg : string).

(** The dictionary built by [detect_from_bytes]. *)
Module Side.
Record t := {
  detected : bool;
  class : option string;
  confidence : Q;
  print_aadhar_detected : bool;
  all_detections : list Detail;
  error : option string
}.
End Side.

(** The dictionary built by [detect_cards_from_base64]. *)
Module Cards.
Record t := {
  front_detected : bool;
  back_detected : bool;
  front_confidence : Q;
  back_confidence : Q;
  print_aadhar_detected : bool;
  details_front : list Detail;
  details_back : list Detail;
  status : VerificationStatus
}.
End Cards.

(** [DetectionRequestBase64]. *)
Module Request.
Record t := {
  user_id : string;
  front_image : option string;
  back_image : option string;
  confidence_threshold : Q;
  force_upload : bool
}.
End Request.

(** [ManualReviewItem]. *)
Module Item.
Record t := {
  user_id : string;
  timestamp : string;
  front_confidence : Q;
  back_confidence : Q;
  reason : string
}.
End Item.

(** The [data] object of a 200 response; the forced-upload response has no
    [status] and no [details] in it. *)
Module Data.
Record t := {
  user_id : string;
  front_detected : bool;
  back_detected : bool;
  front_confidence : Q;
  back_confidence : Q;
  both_detected : pyval;
  status : option VerificationStatus;
  details : option (list Detail * list Detail)
}.
End Data.

(** The JSON bodies the endpoint sends. *)
Inductive Content :=
| Failure (message : string)
| Violation (message : string) (print_aadhar_detected : bool)
| Review (status : VerificationStatus) (message : string) (data : Data.t)
| Complete (detected : bool) (message : string) (data : Data.t).

Record JSONResponse := { status_code : Z; content : Content }.

(** The ["success"] field of a body. *)
Definition success (c : Content) : bool :=
  match c with
  | Failure _ | Violation _ _ => false
  | Review _ _ _ | Complete _ _ _ => true
  end.

(** The verification status a body carries, if any: at top level in the
    forced-upload body, inside [data] otherwise. *)
Definition reported_status (c : Content) : option VerificationStatus :=
  match c with
  | Failure _ | Violation _ _ => None
  | Review st _ _ => Some st
  | Complete _ _ d => Data.status d
  end.

(** The module constants read from the environment. *)
Record Settings := {
  CONFIDENCE_THRESHOLD : Q;
  LOW_CONFIDENCE_THRESHOLD : Q
}.

Definition initial_side : Side.t :=
  {| Side.detected := false; Side.class := None; Side.confidence := 0;
     Side.print_aadhar_detected := false; Side.all_detections := [];
     Side.error := None |}.

Definition card_labels : list string := ["aadhar_front"; "aadhar_back"].

Definition is_card_label (class_name : string) : bool :=
  existsb (String.eqb class_name) card_labels.

(** Body of the [for box in predictions[0].boxes] loop. *)
Definition scan_box (card_classes : gmap Z string) (confidence_threshold : Q)
    (result : Side.t) (box : Box) : Side.t :=
  let c := conf box in
  let class_name := default "unknown" (card_classes !! cls box) in
  let dets := Side.all_detections result ++ [Seen class_name c] in
  let print :=
    if String.eqb class_name "print_aadhar" && Qltb confidence_threshold c
    then true else Side.print_aadhar_detected result in
  let unchanged :=
    {| Side.detected := Side.detected result; Side.class := Side.class result;
       Side.confidence := Side.confidence result;
       Side.print_aadhar_detected := print; Side.all_detections := dets;
       Side.error := Side.error result |} in
  if Qle_bool confidence_threshold c then
    if is_card_label class_name then
      if Qltb (Side.confidence result) c then
        {| Side.detected := true; Side.class := Some class_name;
           Side.confidence := c;
           Side.print_aadhar_detected := print; Side.all_detections := dets;
           Side.error := Side.error result |}
      else unchanged
    else unchanged
  else unchanged.

Definition scan_boxes (card_classes : gmap Z string) (confidence_threshold : Q)
    (result : Side.t) (boxes : list Box) : Side.t :=
  fold_left (scan_box card_classes confidence_threshold) boxes result.

(** Vocabulary for the properties of the scan. *)

(** The class name the detector gives a box. *)
Definition label (card_classes : gmap Z string) (b : Box) : string :=
  default "unknown" (card_classes !! cls b).

(** A box the matching stage can see: at or above the threshold, with one
    of the two card labels. *)
Definition visible (card_classes : gmap Z string) (confidence_threshold : Q)
    (b : Box) : bool :=
  Qle_bool confidence_threshold (conf b)
  && is_card_label (label card_classes b).

(** The three fields the matching stage writes. *)
Definition same_match (r r' : Side.t) : Prop :=
  Side.detected r' = Side.detected r /\
  Side.class r' = Side.class r /\
  Side.confidence r' = Side.confidence r.

(** The loaded YOLO model: its class names and its inference, which gives
    the boxes of an image or the text of the exception it raises. *)
Record YOLO {Image : Type} := {
  names : gmap Z string;
  predict : Image -> string + list Box
}.
Arguments YOLO : clear implicits.

(** [StatelessAadhaarDetector]. *)
Record Detector {Image : Type} := {
  device : string;
  model : YOLO Image;
  card_classes : gmap Z string
}.
Arguments Detector : clear implicits.

(** What [startup_event] and the detector's constructor ask of the
    machine. *)
Record Host {Image : Type} := {
  cuda_is_available : bool;
  path_exists : string -> bool;
  load_yolo : string -> string + YOLO Image
}.
Arguments Host : clear implicits.

(** The process-wide state: the constants, the global [detector] and the
    global [manual_review_queue]. *)
Record App {Image : Type} := {
  settings : Settings;
  MODEL_PATH : string;
  detector : option (Detector Image);
  manual_review_queue : list Item.t
}.
Arguments App : clear implicits.

Section Engine.
(** A decoded image ([np.ndarray]) is opaque to the decision engine;
    [imdecode] stands for [base64.b64decode], [np.frombuffer] and
    [cv2.imdecode] in a row, [None] when one of them raises or the last
    returns [None]. *)
Context {Image : Type} (imdecode : string -> option Image).

(** [StatelessAadhaarDetector.__init__]: the detector, or the text of the
    exception. *)
Definition init (host : Host Image) (model_path : string)
    : string + Detector Image :=
  let device := if cuda_is_available host then "cuda" else "cpu" in
  if path_exists host model_path then
    match load_yolo host model_path with
    | inr m => inr {| device := device; model := m; card_classes := names m |}
    | inl e => inl e
    end
  else inl ("Model not found at " ++ model_path)%string.

(** [decode_base64_image]. *)
Definition decode_base64_image (base64_string : string) : option Image :=
  let base64_string :=
    if has_comma base64_string then split_comma_1 base64_string
    else base64_string in
  imdecode base64_string.

(** [detect_from_bytes]: the [try] block catches what the model raises
    and records it under ["error"]. *)
Definition detect_from_bytes (self : Detector Image) (image : Image)
    (confidence_threshold : Q) : Side.t :=
  match predict (model self) image with
  | inr boxes =>
      scan_boxes (card_classes self) confidence_threshold initial_side boxes
  | inl e =>
      {| Side.detected := false; Side.class := None; Side.confidence := 0;
         Side.print_aadhar_detected := false; Side.all_detections := [];
         Side.error := Some e |}
  end.

(** What one image slot contributes to the result of
    [detect_cards_from_base64]. *)
Record Slot := {
  slot_print : bool;
  slot_detected : bool;
  slot_confidence : Q;
  slot_details : list Detail
}.

(** The [# Process front image] and [# Process back image] blocks, which
    differ in the expected class and in the side named in the error. *)
Definition process_slot (self : Detector Image) (expected side : string)
    (image_base64 : option string) (confidence_threshold : Q) : Slot :=
  match image_base64 with
  | Some (String _ _ as b64) =>
      match decode_base64_image b64 with
      | Some image =>
          let r := detect_from_bytes self image confidence_threshold in
          if Side.detected r
             && bool_decide (Side.class r = Some expected)
          then {| slot_print := Side.print_aadhar_detected r;
                  slot_detected := true;
                  slot_confidence := Side.confidence r;
                  slot_details := Side.all_detections r |}
          else {| slot_print := Side.print_aadhar_detected r;
                  slot_detected := false;
                  slot_confidence := 0;
                  slot_details := Side.all_detections r |}
      | None =>
          {| slot_print := false; slot_detected := false; slot_confidence := 0;
             slot_details :=
               [Error ("Failed to decode " ++ side ++ " image")%string] |}
      end
  | _ =>
      {| slot_print := false; slot_detected := false; slot_confidence := 0;
         slot_details := [] |}
  end.

(** The [# Determine verification status] block. *)
Definition determine_status (cfg : Settings) (print front_detected
    back_detected : bool) (front_confidence back_confidence : Q)
    : VerificationStatus :=
  if print then REJECTED
  else if front_detected && back_detected then
    if Qltb front_confidence (LOW_CONFIDENCE_THRESHOLD cfg)
       || Qltb back_confidence (LOW_CONFIDENCE_THRESHOLD cfg)
    then PENDING_REVIEW
    else APPROVED
  else if front_detected || back_detected then
    let conf := Qor front_confidence back_confidence in
    if Qltb conf (LOW_CONFIDENCE_THRESHOLD cfg) then PENDING_REVIEW
    else REJECTED
  else REJECTED.

(** [detect_cards_from_base64]. *)
Definition detect_cards_from_base64 (cfg : Settings) (self : Detector Image)
    (front_base64 back_base64 : option string) (confidence_threshold : Q)
    : Cards.t :=
  let f := process_slot self "aadhar_front" "front" front_base64
             confidence_threshold in
  let b := process_slot self "aadhar_back" "back" back_base64
             confidence_threshold in
  let print := slot_print f || slot_print b in
  {| Cards.front_detected := slot_detected f;
     Cards.back_detected := slot_detected b;
     Cards.front_confidence := slot_confidence f;
     Cards.back_confidence := slot_confidence b;
     Cards.print_aadhar_detected := print;
     Cards.details_front := slot_details f;
     Cards.details_back := slot_details b;
     Cards.status :=
       determine_status cfg print (slot_detected f) (slot_detected b)
         (slot_confidence f) (slot_confidence b) |}.

(** The state of the process once the module is imported. *)
Definition imported (cfg : Settings) (model_path : string) : App Image :=
  {| settings := cfg; MODEL_PATH := model_path; detector := None;
     manual_review_queue := [] |}.

(** [startup_event]: the state with the detector in place, or [None] for
    [sys.exit(1)]. *)
Definition startup_event (host : Host Image) (app : App Image)
    : option (App Image) :=
  match init host (MODEL_PATH app) with
  | inr d =>
      Some {| settings := settings app; MODEL_PATH := MODEL_PATH app;
              detector := Some d;
              manual_review_queue := manual_review_queue app |}
  | inl _ => None
  end.

(** [add_to_review_queue]. *)
Definition add_to_review_queue (item : Item.t) (queue : list Item.t)
    : list Item.t :=
  queue ++ [item].

Definition forced_reason : string :=
  "Force upload - bypassed client-side checks".

Definition low_confidence_reason : string := "Low confidence detection".

Definition review_item (request : Request.t) (now : string) (r : Cards.t)
    (why : string) : Item.t :=
  {| Item.user_id := Request.user_id request;
     Item.timestamp := now;
     Item.front_confidence := Cards.front_confidence r;
     Item.back_confidence := Cards.back_confidence r;
     Item.reason := why |}.

(** [front_ok and back_ok and request.front_image and request.back_image]. *)
Definition both_provided_and_detected (front_ok back_ok : bool)
    (request : Request.t) : pyval :=
  if negb front_ok then PyBool false
  else if negb back_ok then PyBool false
  else if negb (str_truthy (Request.front_image request))
       then py_of_str (Request.front_image request)
  else py_of_str (Request.back_image request).

(** The [message] of the ordinary 200 response. *)
Definition compose_message (front_ok back_ok : bool) (request : Request.t)
    : string :=
  if py_truthy (both_provided_and_detected front_ok back_ok request) then
    "Both Aadhaar cards detected successfully."
  else if front_ok then "Aadhaar front card detected successfully."
  else if back_ok then "Aadhaar back card detected successfully."
  else
    let missing :=
      (if str_truthy (Request.front_image request) && negb front_ok
       then ["front"] else [])
      ++ (if str_truthy (Request.back_image request) && negb back_ok
          then ["back"] else []) in
    match missing with
    | [] => "No Aadhaar card detected in the provided image(s)."
    | _ => ("Could not detect Aadhaar card(s): " ++ join ", " missing ++ ".")%string
    end.

(** The handler's [detection_result]: the detection run on the request's
    images with the request's threshold. *)
Definition detection_result (app : App Image) (d : Detector Image)
    (request : Request.t) : Cards.t :=
  detect_cards_from_base64 (settings app) d
    (Request.front_image request) (Request.back_image request)
    (Request.confidence_threshold request).

(** The [/detect] handler [detect_aadhaar_cards_stateless]: the response
    and the review items handed to [background_tasks], in order.  [now] is
    [datetime.utcnow().isoformat()].  Nothing in the [try] block raises in
    this model, so the 500 response of its handler does not occur. *)
Definition detect_aadhaar_cards_stateless (app : App Image)
    (request : Request.t) (now : string) : JSONResponse * list Item.t :=
  match detector app with
  | None =>
      ({| status_code := 503; content := Failure "Detector not initialized" |},
       [])
  | Some d =>
      if negb (str_truthy (Request.front_image request))
         && negb (str_truthy (Request.back_image request))
      then
        ({| status_code := 400;
            content := Failure
              "At least one image (front_image or back_image) is required." |},
         [])
      else
        let detection_result := detection_result app d request in
        if Cards.print_aadhar_detected detection_result then
          ({| status_code := 400;
              content :=
                Violation "Print Aadhaar detected - security violation" true |},
           [])
        else if Request.force_upload request
                && negb (Cards.front_detected detection_result
                         && Cards.back_detected detection_result)
        then
          ({| status_code := 200;
              content :=
                Review PENDING_REVIEW "Document submitted for manual review"
                  {| Data.user_id := Request.user_id request;
                     Data.front_detected := Cards.front_detected detection_result;
                     Data.back_detected := Cards.back_detected detection_result;
                     Data.front_confidence :=
                       Cards.front_confidence detection_result;
                     Data.back_confidence :=
                       Cards.back_confidence detection_result;
                     Data.both_detected :=
                       PyBool (Cards.front_detected detection_result
                               && Cards.back_detected detection_result);
                     Data.status := None;
                     Data.details := None |} |},
           [review_item request now detection_result forced_reason])
        else
          let tasks :=
            match Cards.status detection_result with
            | PENDING_REVIEW =>
                [review_item request now detection_result low_confidence_reason]
            | _ => []
            end in
          let front_ok := Cards.front_detected detection_result in
          let back_ok := Cards.back_detected detection_result in
          ({| status_code := 200;
              content :=
                Complete (front_ok || back_ok)
                  (compose_message front_ok back_ok request)
                  {| Data.user_id := Request.user_id request;
                     Data.front_detected := front_ok;
                     Data.back_detected := back_ok;
                     Data.front_confidence :=
                       Cards.front_confidence detection_result;
                     Data.back_confidence :=
                       Cards.back_confidence detection_result;
                     Data.both_detected :=
                       both_provided_and_detected front_ok back_ok request;
                     Data.status := Some (Cards.status detection_result);
                     Data.details :=
                       Some (Cards.details_front detection_result,
                             Cards.details_back detection_result) |} |},
           tasks)
  end.

(** One request served: the handler answers, then the background tasks run
    against the global queue. *)
Definition serve (app : App Image) (request : Request.t) (now : string)
    : JSONResponse * App Image :=
  let '(response, tasks) := detect_aadhaar_cards_stateless app request now in
  (response,
   {| settings := settings app; MODEL_PATH := MODEL_PATH app;
      detector := detector app;
      manual_review_queue :=
        fold_left (fun q item => add_to_review_queue item q) tasks
          (manual_review_queue app) |}).

End Engine.

End Stateless.

(** ** The path-based backend: [main.py] *)

Module Main.

Import Stateless.

(** The dictionary built by [detect_cards]. *)
Module Result.
Record t := {
  front_detected : bool;
  back_detected : bool;
  front_confidence : Q;
  back_confidence : Q;
  print_aadhar_detected : bool;
  details_front : list Detail;
  details_back : list Detail
}.
End Result.

Definition initial : Result.t :=
  {| Result.front_detected := false; Result.back_detected := false;
     Result.front_confidence := 0; Result.back_confidence := 0;
     Result.print_aadhar_detected := false;
     Result.details_front := []; Result.details_back := [] |}.

(** [AadhaarCardDetector]: here the model is run on the path of an image
    file. *)
Record AadhaarCardDetector := {
  device : string;
  model : string -> string + list Box;
  card_classes : gmap Z string
}.

(** Body of [for box in front_results[0].boxes]. *)
Definition scan_front (card_classes : gmap Z string) (confidence_threshold : Q)
    (result : Result.t) (box : Box) : Result.t :=
  let confidence := conf box in
  if Qltb confidence confidence_threshold then result
  else
    let class_name := default "unknown" (card_classes !! cls box) in
    if String.eqb class_name "print_aadhar" then
      {| Result.front_detected := Result.front_detected result;
         Result.back_detected := Result.back_detected result;
         Result.front_confidence := Result.front_confidence result;
         Result.back_confidence := Result.back_confidence result;
         Result.print_aadhar_detected := true;
         Result.details_front := Result.details_front result;
         Result.details_back := Result.details_back result |}
    else if String.eqb class_name "aadhar_front" then
      {| Result.front_detected := true;
         Result.back_detected := Result.back_detected result;
         Result.front_confidence := confidence;
         Result.back_confidence := Result.back_confidence result;
         Result.print_aadhar_detected := Result.print_aadhar_detected result;
         Result.details_front :=
           Result.details_front result ++ [Seen class_name confidence];
         Result.details_back := Result.details_back result |}
    else result.

(** Body of [for box in back_results[0].boxes]. *)
Definition scan_back (card_classes : gmap Z string) (confidence_threshold : Q)
    (result : Result.t) (box : Box) : Result.t :=
  let confidence := conf box in
  if Qltb confidence confidence_threshold then result
  else
    let class_name := default "unknown" (card_classes !! cls box) in
    if String.eqb class_name "print_aadhar" then
      {| Result.front_detected := Result.front_detected result;
         Result.back_detected := Result.back_detected result;
         Result.front_confidence := Result.front_confidence result;
         Result.back_confidence := Result.back_confidence result;
         Result.print_aadhar_detected := true;
         Result.details_front := Result.details_front result;
         Result.details_back := Result.details_back result |}
    else if String.eqb class_name "aadhar_back" then
      {| Result.front_detected := Result.front_detected result;
         Result.back_detected := true;
         Result.front_confidence := Result.front_confidence result;
         Result.back_confidence := confidence;
         Result.print_aadhar_detected := Result.print_aadhar_detected result;
         Result.details_front := Result.details_front result;
         Result.details_back :=
           Result.details_back result ++ [Seen class_name confidence] |}
    else result.

Definition note_front (result : Result.t) (msg : string) : Result.t :=
  {| Result.front_detected := Result.front_detected result;
     Result.back_detected := Result.back_detected result;
     Result.front_confidence := Result.front_confidence result;
     Result.back_confidence := Result.back_confidence result;
     Result.print_aadhar_detected := Result.print_aadhar_detected result;
     Result.details_front := Result.details_front result ++ [Error msg];
     Result.details_back := Result.details_back result |}.

Definition note_back (result : Result.t) (msg : string) : Result.t :=
  {| Result.front_detected := Result.front_detected result;
     Result.back_detected := Result.back_detected result;
     Result.front_confidence := Result.front_confidence result;
     Result.back_confidence := Result.back_confidence result;
     Result.print_aadhar_detected := Result.print_aadhar_detected result;
     Result.details_front := Result.details_front result;
     Result.details_back := Result.details_back result ++ [Error msg] |}.

(** [# Detect in front image if path is provided]. *)
Definition detect_front (self : AadhaarCardDetector)
    (os_path_exists : string -> bool) (front_image_path : option string)
    (confidence_threshold : Q) (result : Result.t) : Result.t :=
  match front_image_path with
  | Some (String _ _ as path) =>
      if os_path_exists path then
        match model self path with
        | inr boxes =>
            fold_left (scan_front (card_classes self) confidence_threshold)
              boxes result
        | inl e => note_front result e
        end
      else note_front result "Front image not found at path"
  | _ => result
  end.

(** [# Detect in back image if path is provided]. *)
Definition detect_back (self : AadhaarCardDetector)
    (os_path_exists : string -> bool) (back_image_path : option string)
    (confidence_threshold : Q) (result : Result.t) : Result.t :=
  match back_image_path with
  | Some (String _ _ as path) =>
      if os_path_exists path then
        match model self path with
        | inr boxes =>
            fold_left (scan_back (card_classes self) confidence_threshold)
              boxes result
        | inl e => note_back result e
        end
      else note_back result "Back image not found at path"
  | _ => result
  end.

(** [detect_cards]. *)
Definition detect_cards (self : AadhaarCardDetector)
    (os_path_exists : string -> bool)
    (front_image_path back_image_path : option string)
    (confidence_threshold : Q) : Result.t :=
  detect_back self os_path_exists back_image_path confidence_threshold
    (detect_front self os_path_exists front_image_path confidence_threshold
       initial).

End Main.

(** ** The raw-tensor detector: [onnx_detector.py] *)

Module OnnxDetector.

Definition MODEL_INPUT_SIZE : Q := 640.

Definition CLASS_NAMES : list string :=
  ["aadhaar_back"; "aadhaar_front"; "print_aadhaar"].

Definition CONFIDENCE_THRESHOLD : Q := 0.25.

(** A rank-3 array: its shape and its entries.  [item] is read only inside
    the shape. *)
Record ndarray := {
  shape : nat * nat * nat;
  item : nat -> nat -> nat -> Q
}.

(** [output[b, c, i]]: [None] stands for the [IndexError] of an index
    outside the shape. *)
Definition get (output : ndarray) (b c i : nat) : option Q :=
  let '(d0, d1, d2) := shape output in
  if (b <? d0)%nat && (c <? d1)%nat && (i <? d2)%nat
  then Some (item output b c i) else None.

Record BBox := { x : Q; y : Q; width : Q; height : Q }.

(** The [best_detection] dictionary. *)
Record Detection := {
  detected : bool;
  card_type : option string;
  confidence : Q;
  bbox : option BBox
}.

(** An entry of the [all_detections] log. *)
Record Logged := { idx : nat; class : string; score : Q }.

Definition no_detection : Detection :=
  {| detected := false; card_type := None; confidence := 0; bbox := None |}.

(** [max(scores)]: the first of the largest elements; [None] for the
    [ValueError] on an empty list. *)
Definition py_max (scores : list Q) : option Q :=
  match scores with
  | [] => None
  | s :: rest => Some (fold_left (fun m v => if Qltb m v then v else m) rest s)
  end.

(** [scores.index(v)]: the first position holding a value equal to [v]. *)
Fixpoint py_index (scores : list Q) (v : Q) : option nat :=
  match scores with
  | [] => None
  | s :: rest =>
      if Qeq_bool s v then Some 0%nat
      else match py_index rest v with
           | Some k => Some (S k)
           | None => None
           end
  end.

(** The inner loop [for c in range(3)]. *)
Definition class_scores (output : ndarray) (i : nat) : option (list Q) :=
  mapM (fun c => get output 0 (4 + c) i) (seq 0 3).

(** The largest class score of candidate [i] and the first class index
    that holds it: [max_class_idx] and [max_score] of the loop body. *)
Definition best_class (output : ndarray) (i : nat) : option (nat * Q) :=
  scores ← class_scores output i;
  max_score ← py_max scores;
  max_class_idx ← py_index scores max_score;
  Some (max_class_idx, max_score).

(** [best] is what the loop must hold after the candidates [seen]: no
    detection when none of them has a class score above the threshold,
    else a candidate whose largest class score is the largest of all, with
    the name of the class that holds it. *)
Definition best_among (output : ndarray) (seen : list nat)
    (best : Detection) : Prop :=
  (best = no_detection /\
   forall j k m, In j seen -> best_class output j = Some (k, m) ->
     m <= CONFIDENCE_THRESHOLD)
  \/
  (exists i k name,
     In i seen /\
     best_class output i = Some (k, confidence best) /\
     CONFIDENCE_THRESHOLD < confidence best /\
     detected best = true /\
     CLASS_NAMES !! k = Some name /\
     card_type best = Some name /\
     forall j k' m', In j seen -> best_class output j = Some (k', m') ->
       m' <= confidence best).

(** Every logged entry carries the class and score of its candidate. *)
Definition log_sound (output : ndarray) (log : list Logged) : Prop :=
  forall e, In e log ->
    exists k, best_class output (idx e) = Some (k, score e) /\
              CLASS_NAMES !! k = Some (class e).

(** The loop state: [best_detection] and [all_detections]. *)
Definition State : Type := Detection * list Logged.

(** Body of [for i in range(num_detections)]; [None] when an index or a
    lookup raises.  The class name is looked up once, where the source
    looks it up in each of the two places that use it; the index comes
    from [py_index] on the three scores, so the lookup succeeds.  The box
    arithmetic is exact here, where the source rounds to floats. *)
Definition step (output : ndarray) (original_width original_height : Z)
    (st : State) (i : nat) : option State :=
  let '(best_detection, all_detections) := st in
  scores ← class_scores output i;
  max_score ← py_max scores;
  max_class_idx ← py_index scores max_score;
  name ← CLASS_NAMES !! max_class_idx;
  let all_detections :=
    if Qltb 0.1 max_score
    then all_detections
           ++ [{| idx := i; class := name; score := max_score |}]
    else all_detections in
  if Qltb CONFIDENCE_THRESHOLD max_score
     && Qltb (confidence best_detection) max_score
  then
    x_center ← get output 0 0 i;
    y_center ← get output 0 1 i;
    w ← get output 0 2 i;
    h ← get output 0 3 i;
    let scale_x := inject_Z original_width / MODEL_INPUT_SIZE in
    let scale_y := inject_Z original_height / MODEL_INPUT_SIZE in
    Some ({| detected := true; card_type := Some name;
             confidence := max_score;
             bbox := Some {| x := (x_center - w / 2) * scale_x;
                             y := (y_center - h / 2) * scale_y;
                             width := w * scale_x;
                             height := h * scale_y |} |},
          all_detections)
  else Some (best_detection, all_detections).

Fixpoint run (output : ndarray) (original_width original_height : Z)
    (st : State) (candidates : list nat) : option State :=
  match candidates with
  | [] => Some st
  | i :: rest =>
      st' ← step output original_width original_height st i;
      run output original_width original_height st' rest
  end.

(** The parsing part of [detect], from [num_detections = output.shape[2]]
    to the end of the loop, on the output of the session for an image of
    the given size. *)
Definition parse (output : ndarray) (original_width original_height : Z)
    : option State :=
  let num_detections := snd (shape output) in
  run output original_width original_height (no_detection, [])
    (seq 0 num_detections).

(** What [detect] returns. *)
Definition detect (output : ndarray) (original_width original_height : Z)
    : option Detection :=
  fst <$> parse output original_width original_height.

End OnnxDetector.

(** ** A small deployment to run the definitions on *)

Module Demo.
Import Stateless.

Definition class_names : gmap Z string :=
  {[ 0%Z := "aadhar_back"; 1%Z := "aadhar_front"; 2%Z := "print_aadhar" ]}.

Definition back (c : Q) : Box := {| conf := c; cls := 0 |}.
Definition front (c : Q) : Box := {| conf := c; cls := 1 |}.
Definition printed (c : Q) : Box := {| conf := c; cls := 2 |}.

(** A demo image is the list of boxes the model finds in it, or [None]
    for an image on which inference raises. *)
Definition yolo : YOLO (option (list Box)) :=
  {| names := class_names;
     predict := fun image =>
       match image with
       | Some boxes => inr boxes
       | None => inl "inference failed"
       end |}.

Definition the_detector : Detector (option (list Box)) :=
  {| device := "cpu"; model := yolo; card_classes := class_names |}.

(** Demo payloads, named by what they show. *)
Definition imdecode (payload : string) : option (option (list Box)) :=
  if String.eqb payload "front92" then Some (Some [front 0.92])
  else if String.eqb payload "back88" then Some (Some [back 0.88])
  else if String.eqb payload "back08" then Some (Some [back 0.08])
  else if String.eqb payload "print40front92"
       then Some (Some [printed 0.40; front 0.92])
  else if String.eqb payload "back90front80"
       then Some (Some [back 0.9; front 0.8])
  else if String.eqb payload "front50front90front70"
       then Some (Some [front 0.5; front 0.9; front 0.7])
  else if String.eqb payload "blank" then Some (Some [])
  else if String.eqb payload "crash" then Some None
  else None.

Definition host : Host (option (list Box)) :=
  {| cuda_is_available := false;
     path_exists := fun path => String.eqb path "models/best4.pt";
     load_yolo := fun _ => inr yolo |}.

Definition defaults : Settings :=
  {| CONFIDENCE_THRESHOLD := 0.15; LOW_CONFIDENCE_THRESHOLD := 0.10 |}.

(** Thresholds in the wrong order. *)
Definition inverted : Settings :=
  {| CONFIDENCE_THRESHOLD := 0.15; LOW_CONFIDENCE_THRESHOLD := 0.5 |}.

Definition running (cfg : Settings) (queue : list Item.t)
    : App (option (list Box)) :=
  {| settings := cfg; MODEL_PATH := "models/best4.pt";
     detector := Some the_detector; manual_review_queue := queue |}.

(** The detector of [main.py] over the same payloads, read as paths. *)
Definition path_detector : Main.AadhaarCardDetector :=
  {| Main.device := "cpu";
     Main.model := fun path =>
       match imdecode path with
       | Some (Some boxes) => inr boxes
       | _ => inl "cannot read image"
       end;
     Main.card_classes := class_names |}.

Definition on_disk (path : string) : bool :=
  negb (String.eqb path "missing").

(** A synthetic output of shape [1, 7, 3]: candidate 1 has 0.9 in the
    channel of class 2, every other class score is 0.05, every box is
    centred at (320, 320) with sides 100 and 50. *)
Definition tensor : OnnxDetector.ndarray :=
  {| OnnxDetector.shape := (1, 7, 3)%nat;
     OnnxDetector.item := fun _ c i =>
       if (c =? 6)%nat && (i =? 1)%nat then 0.9
       else if (c <? 2)%nat then 320
       else if (c =? 2)%nat then 100
       else if (c =? 3)%nat then 50
       else 0.05 |}.

Definition request (front_image back_image : option string)
    (threshold : Q) (force : bool) : Request.t :=
  {| Request.user_id := "u1"; Request.front_image := front_image;
     Request.back_image := back_image;
     Request.confidence_threshold := threshold;
     Request.force_upload := force |}.

End Demo.

(** ** The other endpoints of [main_stateless.py] *)

Module StatelessApi.
Import Stateless.

(** The claims of a decoded token that the code reads.  [jwt.decode]
    yields a dictionary; its ["iss"] is a string and its ["exp"] a number
    when they are present. *)
Record Payload := {
  iss : option string;
  exp : option Q;
  request_id : option string
}.

(** [HTTPException(status_code, detail)]. *)
Record HTTPException := { http_status : Z; detail : string }.

(** [verify_jwt_token]: [decode] is [jwt.decode] with the configured key
    and algorithm, [None] when it raises [JWTError]; [now] is
    [datetime.utcnow().timestamp()].  The two [HTTPException]s raised
    inside the [try] are not [JWTError]s and pass through. *)
Definition verify_jwt_token (JWT_ISSUER : string)
    (decode : string -> option Payload) (now : Q) (token : string)
    : HTTPException + Payload :=
  match decode token with
  | Some payload =>
      if negb (bool_decide (iss payload = Some JWT_ISSUER)) then
        inl {| http_status := 401; detail := "Invalid token issuer" |}
      else
        match exp payload with
        | Some e =>
            if Qtruthy e && Qltb e now then
              inl {| http_status := 401; detail := "Token has expired" |}
            else inr payload
        | None => inr payload
        end
  | None => inl {| http_status := 401; detail := "Invalid or expired token" |}
  end.


(** What the health endpoint asks of [torch]. *)
Record Torch := {
  torch_version : string;
  cuda_available : bool;
  cuda_device_count : nat;
  cuda_device_name : string
}.

(** The body of [GET /health]. *)
Inductive Health :=
| Healthy (device : string) (version : string) (cuda : bool)
    (device_count : nat) (device_name : string) (pending_reviews : nat)
| Unhealthy (detector_status error : string).

Section Api.
Context {Image : Type} (imdecode : string -> option Image).


(** [health_check]: the status code and the body. *)
Definition health_check (torch : Torch) (app : App Image) : Z * Health :=
  match detector app with
  | Some d =>
      (200%Z,
       Healthy (device d) (torch_version torch) (cuda_available torch)
         (if cuda_available torch then cuda_device_count torch else 0%nat)
         (if cuda_available torch then cuda_device_name torch else "N/A")
         (length (manual_review_queue app)))
  | None => (503%Z, Unhealthy "not_initialized" "Detector not available")
  end.


End Api.
End StatelessApi.

(** ** The endpoint of [main.py] *)

Module MainApi.
Import Stateless Main.

(** [DetectionRequest]. *)
Module Request.
Record t := {
  user_id : string;
  passport_first : option string;
  passport_old : option string;
  confidence_threshold : Q
}.
End Request.

(** The [data] object of the 200 response. *)
Module Data.
Record t := {
  user_id : string;
  front_detected : bool;
  back_detected : bool;
  front_confidence : Q;
  back_confidence : Q;
  both_detected : bool;
  details : list Detail * list Detail
}.
End Data.

(** The JSON bodies of [detect_aadhaar_cards]. *)
Inductive Content :=
| Failure (message : string)
| Crash (message error : string)
| Violation (message : string) (print_aadhar_detected : bool)
| Complete (detected : bool) (message : string) (data : Data.t).

Record JSONResponse := { status_code : Z; content : Content }.

(** The machine as the handler meets it: what [download_image] returns
    for a URL and a target path, and which paths exist once the downloads
    are done. *)
Record World := {
  download_image : string -> string -> bool;
  os_path_exists : string -> bool
}.

(** The [message] of the 200 response. *)
Definition compose_message (front_ok back_ok both : bool)
    (request : Request.t) : string :=
  if both then "Both Aadhaar cards detected successfully."
  else if front_ok then "Aadhaar front card detected successfully."
  else if back_ok then "Aadhaar back card detected successfully."
  else
    let missing :=
      (if str_truthy (Request.passport_first request) && negb front_ok
       then ["front"] else [])
      ++ (if str_truthy (Request.passport_old request) && negb back_ok
          then ["back"] else []) in
    match missing with
    | [] => "No Aadhaar card detected in the provided image(s)."
    | _ => ("Could not detect Aadhaar card(s): " ++ join ", " missing ++ ".")%string
    end.

(** The part of the handler after both downloads. *)
Definition respond (self : AadhaarCardDetector) (world : World)
    (front_path back_path : string) (request : Request.t)
    (front_downloaded back_downloaded : bool) : JSONResponse :=
  let detection_result :=
    detect_cards self (os_path_exists world)
      (if front_downloaded then Some front_path else None)
      (if back_downloaded then Some back_path else None)
      (Request.confidence_threshold request) in
  if Result.print_aadhar_detected detection_result then
    {| status_code := 400;
       content :=
         Violation "Print Aadhaar detected - security violation" true |}
  else
    let front_ok := Result.front_detected detection_result in
    let back_ok := Result.back_detected detection_result in
    let both_provided_and_detected :=
      front_ok && back_ok && front_downloaded && back_downloaded in
    {| status_code := 200;
       content :=
         Complete (front_ok || back_ok)
           (compose_message front_ok back_ok both_provided_and_detected
              request)
           {| Data.user_id := Request.user_id request;
              Data.front_detected := front_ok;
              Data.back_detected := back_ok;
              Data.front_confidence :=
                Result.front_confidence detection_result;
              Data.back_confidence :=
                Result.back_confidence detection_result;
              Data.both_detected := both_provided_and_detected;
              Data.details :=
                (Result.details_front detection_result,
                 Result.details_back detection_result) |} |}.

Definition crash (error : string) : JSONResponse :=
  {| status_code := 500;
     content := Crash "Internal server error" error |}.

(** [detect_aadhaar_cards] with the request's temporary directory in
    place: the response and the URLs handed to [download_image], in
    order.  [front_path] and [back_path] are the two files of that
    directory.  [detect_aadhaar_cards_from_request] below puts
    [user_dir.mkdir] in front of it; the removal of the directory in the
    [finally] block is not modelled. *)
Definition detect_aadhaar_cards (detector : option AadhaarCardDetector)
    (world : World) (front_path back_path : string) (request : Request.t)
    : JSONResponse * list string :=
  match detector with
  | None =>
      ({| status_code := 503; content := Failure "Detector not initialized" |},
       [])
  | Some self =>
      if negb (str_truthy (Request.passport_first request))
         && negb (str_truthy (Request.passport_old request))
      then
        ({| status_code := 400;
            content := Failure
              "At least one image URL (passport_first or passport_old) is required." |},
         [])
      else
        match Request.passport_first request with
        | Some (String _ _ as first) =>
            if download_image world first front_path then
              match Request.passport_old request with
              | Some (String _ _ as old) =>
                  if download_image world old back_path then
                    (respond self world front_path back_path request
                       true true,
                     [first; old])
                  else
                    (crash ("Failed to download back image from " ++ old)%string,
                     [first; old])
              | _ =>
                  (respond self world front_path back_path request
                     true false,
                   [first])
              end
            else
              (crash ("Failed to download front image from " ++ first)%string,
               [first])
        | _ =>
            match Request.passport_old request with
            | Some (String _ _ as old) =>
                if download_image world old back_path then
                  (respond self world front_path back_path request
                     false true,
                   [old])
                else
                  (crash ("Failed to download back image from " ++ old)%string,
                   [old])
            | _ =>
                (respond self world front_path back_path request
                   false false,
                 [])
            end
        end
  end.


End MainApi.

(** ** The calibration reader of [quantize_to_int8.py] *)

Module Calibration.

(** [YOLOCalibrationDataReader]. *)
Record YOLOCalibrationDataReader {A : Type} := {
  calibration_data : list A;
  input_name : string;
  index : nat
}.
Arguments YOLOCalibrationDataReader : clear implicits.

Section Reader.
Context {A : Type}.

(** [__init__]. *)
Definition init (calibration_data : list A) (input_name : string)
    : YOLOCalibrationDataReader A :=
  {| calibration_data := calibration_data; input_name := input_name;
     index := 0 |}.

(** [get_next]: the one-entry dictionary or [None], and the reader
    afterwards. *)
Definition get_next (self : YOLOCalibrationDataReader A)
    : option (string * A) * YOLOCalibrationDataReader A :=
  if (length (calibration_data self) <=? index self)%nat then (None, self)
  else
    match calibration_data self !! index self with
    | Some sample =>
        (Some (input_name self, sample),
         {| calibration_data := calibration_data self;
            input_name := input_name self;
            index := S (index self) |})
    | None => (None, self)
    end.

(** [rewind]. *)
Definition rewind (self : YOLOCalibrationDataReader A)
    : YOLOCalibrationDataReader A :=
  {| calibration_data := calibration_data self;
     input_name := input_name self; index := 0 |}.

(** [k] calls of [get_next] in a row. *)
Fixpoint read (k : nat) (self : YOLOCalibrationDataReader A)
    : list (option (string * A)) * YOLOCalibrationDataReader A :=
  match k with
  | O => ([], self)
  | S k' =>
      let '(item, self') := get_next self in
      let '(rest, self'') := read k' self' in
      (item :: rest, self'')
  end.

End Reader.
End Calibration.

(** ** Vocabulary for the scans of [main.py] *)

Module MainVocabulary.
Import Stateless.

(** A box that passes the threshold test of [detect_cards] and carries
    the given class name. *)
Definition qualifies (card_classes : gmap Z string)
    (confidence_threshold : Q) (name : string) (b : Box) : bool :=
  negb (Qltb (conf b) confidence_threshold)
  && String.eqb (label card_classes b) name.

End MainVocabulary.

(** ** Vocabulary for the raw-tensor detector *)

Module OnnxVocabulary.
Import OnnxDetector.

(** What the loop holds after the candidates below [k]: nothing, when
    none of them has a class score above the threshold; else the first
    candidate that attains the largest class score of them all, with its
    class name. *)
Definition first_best (output : ndarray) (k : nat) (best : Detection)
    : Prop :=
  (best = no_detection /\
   forall j c m, (j < k)%nat -> best_class output j = Some (c, m) ->
     m <= CONFIDENCE_THRESHOLD)
  \/
  (exists i c name,
     (i < k)%nat /\
     best_class output i = Some (c, confidence best) /\
     CONFIDENCE_THRESHOLD < confidence best /\
     CLASS_NAMES !! c = Some name /\
     detected best = true /\
     card_type best = Some name /\
     (forall j c' m', (j < i)%nat -> best_class output j = Some (c', m') ->
        m' < confidence best) /\
     (forall j c' m', (j < k)%nat -> best_class output j = Some (c', m') ->
        m' <= confidence best)).

End OnnxVocabulary.

(** ** More inputs to run the definitions on *)

Module Scenarios.
Import Stateless.

Definition torch : StatelessApi.Torch :=
  {| StatelessApi.torch_version := "2.1.0";
     StatelessApi.cuda_available := false;
     StatelessApi.cuda_device_count := 0;
     StatelessApi.cuda_device_name := "none" |}.

(** Tokens of the demo: ["good"] is issued by the frontend and expires at
    2000, ["forever"] has no expiry, ["other"] comes from another
    issuer. *)
Definition decode (token : string) : option StatelessApi.Payload :=
  if String.eqb token "good" then
    Some {| StatelessApi.iss := Some "ai-verification-frontend";
            StatelessApi.exp := Some 2000;
            StatelessApi.request_id := Some "r1" |}
  else if String.eqb token "forever" then
    Some {| StatelessApi.iss := Some "ai-verification-frontend";
            StatelessApi.exp := None;
            StatelessApi.request_id := None |}
  else if String.eqb token "other" then
    Some {| StatelessApi.iss := Some "someone-else";
            StatelessApi.exp := Some 2000;
            StatelessApi.request_id := None |}
  else None.

(** Every download succeeds except that of ["http://down"]. *)
Definition world : MainApi.World :=
  {| MainApi.download_image := fun url _ => negb (String.eqb url "http://down");
     MainApi.os_path_exists := fun _ => true |}.

(** The path detector reads the demo payload named by the file. *)
Definition url_request (first old : option string) : MainApi.Request.t :=
  {| MainApi.Request.user_id := "u1";
     MainApi.Request.passport_first := first;
     MainApi.Request.passport_old := old;
     MainApi.Request.confidence_threshold := 0.15 |}.

(** An output with only six channels, and one with an eighth channel that
    holds larger numbers than the class channels. *)
Definition short_tensor : OnnxDetector.ndarray :=
  {| OnnxDetector.shape := (1, 6, 3)%nat;
     OnnxDetector.item := OnnxDetector.item Demo.tensor |}.

Definition wide_tensor : OnnxDetector.ndarray :=
  {| OnnxDetector.shape := (1, 8, 3)%nat;
     OnnxDetector.item := fun b c i =>
       if (c =? 7)%nat then 0.99 else OnnxDetector.item Demo.tensor b c i |}.

(** An output with five class channels (shape [1, 9, 1]): the one
    candidate has 0.875 in the channel of class 4 and 0.0625 in the other
    class channels. *)
Definition five_class_tensor : OnnxDetector.ndarray :=
  {| OnnxDetector.shape := (1, 9, 1)%nat;
     OnnxDetector.item := fun _ c _ =>
       if (c <? 4)%nat then 64
       else if (c =? 8)%nat then 0.875
       else 0.0625 |}.

(** An output with ties (shape [1, 7, 3]): candidate 1 has 0.75 in the
    channels of class 0 and class 1, candidate 2 has 0.75 in the channel
    of class 2, every other class score is 0.125. *)
Definition tied_tensor : OnnxDetector.ndarray :=
  {| OnnxDetector.shape := (1, 7, 3)%nat;
     OnnxDetector.item := fun _ c i =>
       if (c <? 4)%nat then 64
       else if (i =? 1)%nat && ((c =? 4)%nat || (c =? 5)%nat) then 0.75
       else if (i =? 2)%nat && (c =? 6)%nat then 0.75
       else 0.125 |}.

End Scenarios.

(** * Properties *)

(** ** Float comparisons *)

Lemma Qltb_lt a b : Qltb a b = true <-> a < b.
Proof.
  unfold Qltb. rewrite negb_true_iff. split.
  - intros H. apply Qnot_le_lt. intros Hle.
    apply Qle_bool_iff in Hle. congruence.
  - intros H. destruct (Qle_bool b a) eqn:E; [|reflexivity].
    apply Qle_bool_iff in E. exfalso. exact (Qlt_not_le _ _ H E).
Qed.

Lemma Qltb_ge a b : Qltb a b = false <-> b <= a.
Proof. unfold Qltb. rewrite negb_false_iff. apply Qle_bool_iff. Qed.

Lemma Qtruthy_pos a : 0 < a -> Qtruthy a = true.
Proof.
  intros H. unfold Qtruthy. apply negb_true_iff.
  destruct (Qeq_bool a 0) eqn:E; [|reflexivity].
  apply Qeq_bool_iff in E. rewrite E in H. exfalso. exact (Qlt_irrefl _ H).
Qed.

Lemma Qor_pos a b : 0 < a -> Qor a b = a.
Proof. intros H. unfold Qor. now rewrite Qtruthy_pos. Qed.

Lemma Qor_zero b : Qor 0 b = b.
Proof. reflexivity. Qed.

(** ** The scan of one image in the stateless detector *)

Module StatelessScan.
Import Stateless.

Section Scan.
Variable cc : gmap Z string.
Variable t : Q.


Lemma scan_box_cases r b :
  (visible cc t b = true /\ Side.confidence r < conf b /\
   Side.detected (scan_box cc t r b) = true /\
   Side.class (scan_box cc t r b) = Some (label cc b) /\
   Side.confidence (scan_box cc t r b) = conf b)
  \/
  ((visible cc t b = true -> conf b <= Side.confidence r) /\
   same_match r (scan_box cc t r b)).
Proof.
  unfold scan_box, visible, label, same_match.
  destruct (Qle_bool t (conf b)) eqn:Ht; cbn [andb].
  - destruct (is_card_label (default "unknown" (cc !! cls b))) eqn:Hl.
    + destruct (Qltb (Side.confidence r) (conf b)) eqn:Hc.
      * left. apply Qltb_lt in Hc. cbn. auto.
      * right. apply Qltb_ge in Hc. cbn. auto.
    + right. cbn. split; [discriminate | auto].
  - right. cbn. split; [discriminate | auto].
Qed.

(** The scan keeps the running best: either nothing visible beats the
    confidence it started from, or the result is the first visible box
    that attains the largest visible confidence. *)
Lemma scan_boxes_cases boxes : forall r,
  ((forall b, In b boxes -> visible cc t b = true -> conf b <= Side.confidence r) /\
   same_match r (scan_boxes cc t r boxes))
  \/
  (exists pre d post,
     boxes = pre ++ d :: post /\
     visible cc t d = true /\
     Side.confidence r < conf d /\
     Side.detected (scan_boxes cc t r boxes) = true /\
     Side.class (scan_boxes cc t r boxes) = Some (label cc d) /\
     Side.confidence (scan_boxes cc t r boxes) = conf d /\
     (forall b, In b pre -> visible cc t b = true -> conf b < conf d) /\
     (forall b, In b post -> visible cc t b = true -> conf b <= conf d)).
Proof.
  induction boxes as [|b rest IH]; intros r.
  - left. split; [intros b [] | repeat split].
  - change (scan_boxes cc t r (b :: rest))
      with (scan_boxes cc t (scan_box cc t r b) rest).
    destruct (scan_box_cases r b) as
      [(Hv & Hlt & Hd & Hc & Hq) | (Hle & Hd & Hc & Hq)].
    + destruct (IH (scan_box cc t r b)) as
        [(Hall & Hd' & Hc' & Hq')
        | (pre & d & post & -> & Hvd & Hlt' & Hd' & Hc' & Hq' & Hpre & Hpost)].
      * right. exists [], b, rest. cbn [app].
        rewrite Hd', Hc', Hq', Hd, Hc, Hq.
        repeat split; auto.
        -- intros b' [].
        -- intros b' Hin Hvb. rewrite <- Hq. auto.
      * right. exists (b :: pre), d, post. rewrite Hq in Hlt'.
        repeat split; auto.
        -- eapply Qlt_trans; eauto.
        -- intros b' [<- | Hin] Hvb; auto.
    + destruct (IH (scan_box cc t r b)) as
        [(Hall & Hd' & Hc' & Hq')
        | (pre & d & post & -> & Hvd & Hlt' & Hd' & Hc' & Hq' & Hpre & Hpost)].
      * left. split.
        -- intros b' [<- | Hin] Hvb; auto.
           rewrite <- Hq. auto.
        -- unfold same_match. rewrite Hd', Hc', Hq'. auto.
      * right. exists (b :: pre), d, post. rewrite Hq in Hlt'.
        repeat split; auto.
        intros b' [<- | Hin] Hvb; auto.
        eapply Qle_lt_trans; eauto.
Qed.

End Scan.
End StatelessScan.

(** ** One image and one slot of the stateless detector *)

Module StatelessSide.
Import Stateless.

Section Side.
Context {Image : Type} (imdecode : string -> option Image).
Variable self : Detector Image.
Variable t : Q.

(** The result for one image: nothing detected, or the first box that
    attains the largest visible confidence. *)
Lemma detect_from_bytes_cases image :
  (Side.detected (detect_from_bytes self image t) = false /\
   Side.class (detect_from_bytes self image t) = None /\
   Side.confidence (detect_from_bytes self image t) = 0 /\
   forall boxes, predict (model self) image = inr boxes ->
     forall b, In b boxes -> visible (card_classes self) t b = true ->
       conf b <= 0)
  \/
  (exists pre d post,
     predict (model self) image = inr (pre ++ d :: post) /\
     visible (card_classes self) t d = true /\
     0 < conf d /\
     Side.detected (detect_from_bytes self image t) = true /\
     Side.class (detect_from_bytes self image t)
       = Some (label (card_classes self) d) /\
     Side.confidence (detect_from_bytes self image t) = conf d /\
     (forall b, In b pre -> visible (card_classes self) t b = true ->
        conf b < conf d) /\
     (forall b, In b post -> visible (card_classes self) t b = true ->
        conf b <= conf d)).
Proof.
  unfold detect_from_bytes.
  destruct (predict (model self) image) as [e | boxes].
  - left. cbn. repeat split. intros boxes Heq. discriminate.
  - destruct (StatelessScan.scan_boxes_cases (card_classes self) t boxes
                initial_side)
      as [(Hall & Hd & Hc & Hq) | (pre & d & post & H)].
    + left. rewrite Hd, Hc, Hq. cbn. repeat split.
      intros boxes' [= <-]. exact Hall.
    + right. exists pre, d, post.
      destruct H as (-> & Hv & Hlt & Hd & Hc & Hq & Hpre & Hpost).
      cbn in Hlt. repeat split; auto.
Qed.

Lemma visible_threshold cc b : visible cc t b = true -> t <= conf b.
Proof.
  unfold visible. intros H. apply andb_true_iff in H as [H _].
  now apply Qle_bool_iff.
Qed.

(** A detected image has a confidence above zero and at or above the
    threshold; an undetected one has confidence [0.0]. *)
Lemma detect_from_bytes_inv image :
  (Side.detected (detect_from_bytes self image t) = false /\
   Side.confidence (detect_from_bytes self image t) = 0)
  \/
  (Side.detected (detect_from_bytes self image t) = true /\
   t <= Side.confidence (detect_from_bytes self image t) /\
   0 < Side.confidence (detect_from_bytes self image t)).
Proof.
  destruct (detect_from_bytes_cases image)
    as [(Hd & _ & Hq & _) | (pre & d & post & _ & Hv & Hpos & Hd & _ & Hq & _)].
  - left. auto.
  - right. rewrite Hq. split; [exact Hd|]. split; [|exact Hpos].
    eapply visible_threshold; eauto.
Qed.

(** The same for a slot of [detect_cards_from_base64]. *)
Lemma process_slot_inv expected side image_base64 :
  (slot_detected (process_slot imdecode self expected side image_base64 t)
     = false /\
   slot_confidence (process_slot imdecode self expected side image_base64 t)
     = 0)
  \/
  (slot_detected (process_slot imdecode self expected side image_base64 t)
     = true /\
   t <= slot_confidence
          (process_slot imdecode self expected side image_base64 t) /\
   0 < slot_confidence
         (process_slot imdecode self expected side image_base64 t)).
Proof.
  unfold process_slot.
  destruct image_base64 as [[|c s]|]; [left; auto | | left; auto].
  destruct (decode_base64_image imdecode (String c s)) as [image|];
    [|left; auto].
  destruct (detect_from_bytes_inv image) as [(Hd & Hq) | (Hd & Hle & Hpos)].
  - rewrite Hd. cbn. left. auto.
  - rewrite Hd. cbn [andb].
    destruct (bool_decide _); cbn; [right | left]; auto.
Qed.

End Side.
End StatelessSide.

(** ** The decision of the stateless engine *)

Module Decision.
Import Stateless.

Lemma determine_status_fraud cfg fd bd fc bc :
  determine_status cfg true fd bd fc bc = REJECTED.
Proof. reflexivity. Qed.

Lemma determine_status_approved cfg p fd bd fc bc :
  determine_status cfg p fd bd fc bc = APPROVED ->
  p = false /\ fd = true /\ bd = true /\
  LOW_CONFIDENCE_THRESHOLD cfg <= fc /\ LOW_CONFIDENCE_THRESHOLD cfg <= bc.
Proof.
  unfold determine_status.
  destruct p; [discriminate|].
  destruct fd, bd; cbn [andb orb].
  - destruct (Qltb fc _) eqn:Hf; [discriminate|].
    destruct (Qltb bc _) eqn:Hb; [discriminate|].
    cbn [orb]. intros _. apply Qltb_ge in Hf, Hb. auto.
  - destruct (Qltb _ _); discriminate.
  - destruct (Qltb _ _); discriminate.
  - discriminate.
Qed.

Lemma determine_status_not_both cfg p fd bd fc bc :
  fd && bd = false ->
  determine_status cfg p fd bd fc bc = REJECTED \/
  determine_status cfg p fd bd fc bc = PENDING_REVIEW.
Proof.
  intros H. destruct (determine_status cfg p fd bd fc bc) eqn:E; auto.
  apply determine_status_approved in E as (_ & -> & -> & _). discriminate.
Qed.

(** C1: when the printed-copy signal fired on either side, the engine's
    status is REJECTED, and the endpoint answers with the security
    violation (400, [print_aadhar_detected] true) and queues nothing,
    whatever [force_upload], the side detections and the confidences are:
    the check comes before every other rule. *)
Theorem fraud_signal_rejects_first {Image : Type}
    (imdecode : string -> option Image) (app : App Image)
    (d : Detector Image) (request : Request.t) (now : string) :
  detector app = Some d ->
  str_truthy (Request.front_image request)
  || str_truthy (Request.back_image request) = true ->
  Cards.print_aadhar_detected
    (detect_cards_from_base64 imdecode (settings app) d
       (Request.front_image request) (Request.back_image request)
       (Request.confidence_threshold request)) = true ->
  Cards.status
    (detect_cards_from_base64 imdecode (settings app) d
       (Request.front_image request) (Request.back_image request)
       (Request.confidence_threshold request)) = REJECTED
  /\ detect_aadhaar_cards_stateless imdecode app request now
     = ({| status_code := 400;
           content :=
             Violation "Print Aadhaar detected - security violation" true |},
        [])
  /\ manual_review_queue (snd (serve imdecode app request now))
     = manual_review_queue app.
Proof.
  intros Hd Himg Hp.
  assert (Hresp : detect_aadhaar_cards_stateless imdecode app request now
     = ({| status_code := 400;
           content :=
             Violation "Print Aadhaar detected - security violation" true |},
        [])).
  { unfold detect_aadhaar_cards_stateless, detection_result. rewrite Hd.
    apply orb_true_iff in Himg.
    destruct (str_truthy (Request.front_image request)),
             (str_truthy (Request.back_image request));
      cbn [negb andb]; try (now rewrite Hp).
    destruct Himg; discriminate. }
  split; [|split].
  - unfold detect_cards_from_base64 in *.
    cbn [Cards.status Cards.print_aadhar_detected] in *.
    rewrite Hp. reflexivity.
  - exact Hresp.
  - unfold serve. rewrite Hresp. reflexivity.
Qed.

Lemma fraud_signal_rejects_first_witness :
  Cards.status
    (detect_cards_from_base64 Demo.imdecode Demo.defaults Demo.the_detector
       (Some "print40front92") (Some "back88") 0.15) = REJECTED
  /\ detect_aadhaar_cards_stateless Demo.imdecode
       (Demo.running Demo.defaults [])
       (Demo.request (Some "print40front92") (Some "back88") 0.15 true)
       "2024-01-01T00:00:00"
     = ({| status_code := 400;
           content :=
             Violation "Print Aadhaar detected - security violation" true |},
        [])
  /\ manual_review_queue
       (snd (serve Demo.imdecode (Demo.running Demo.defaults [])
               (Demo.request (Some "print40front92") (Some "back88") 0.15 true)
               "2024-01-01T00:00:00"))
     = [].
Proof.
  apply (fraud_signal_rejects_first Demo.imdecode
           (Demo.running Demo.defaults []) Demo.the_detector
           (Demo.request (Some "print40front92") (Some "back88") 0.15 true)
           "2024-01-01T00:00:00").
  - reflexivity.
  - reflexivity.
  - vm_compute. reflexivity.
Defined.

(** C2: the engine answers APPROVED only when both sides were detected,
    both confidences are at or above the low-confidence threshold and no
    fraud signal fired.  A side that is missing, fails to decode, makes
    the model raise or yields no detection leaves that side undetected,
    and an undetected side gives REJECTED or PENDING_REVIEW. *)
Theorem approved_only_when_both_confident {Image : Type}
    (imdecode : string -> option Image) (cfg : Settings)
    (d : Detector Image) (front_base64 back_base64 : option string)
    (t : Q) :
  (Cards.status
     (detect_cards_from_base64 imdecode cfg d front_base64 back_base64 t)
   = APPROVED ->
   Cards.front_detected
     (detect_cards_from_base64 imdecode cfg d front_base64 back_base64 t)
   = true /\
   Cards.back_detected
     (detect_cards_from_base64 imdecode cfg d front_base64 back_base64 t)
   = true /\
   LOW_CONFIDENCE_THRESHOLD cfg
   <= Cards.front_confidence
        (detect_cards_from_base64 imdecode cfg d front_base64 back_base64 t)
   /\
   LOW_CONFIDENCE_THRESHOLD cfg
   <= Cards.back_confidence
        (detect_cards_from_base64 imdecode cfg d front_base64 back_base64 t)
   /\
   Cards.print_aadhar_detected
     (detect_cards_from_base64 imdecode cfg d front_base64 back_base64 t)
   = false)
  /\
  (Cards.front_detected
     (detect_cards_from_base64 imdecode cfg d front_base64 back_base64 t)
   = false \/
   Cards.back_detected
     (detect_cards_from_base64 imdecode cfg d front_base64 back_base64 t)
   = false ->
   Cards.status
     (detect_cards_from_base64 imdecode cfg d front_base64 back_base64 t)
   = REJECTED \/
   Cards.status
     (detect_cards_from_base64 imdecode cfg d front_base64 back_base64 t)
   = PENDING_REVIEW)
  /\
  (forall expected side image_base64,
     str_truthy image_base64 = false \/
     (exists s, image_base64 = Some s /\
                decode_base64_image imdecode s = None) \/
     (exists s image e, image_base64 = Some s /\
                decode_base64_image imdecode s = Some image /\
                predict (model d) image = inl e) \/
     (exists s image, image_base64 = Some s /\
                decode_base64_image imdecode s = Some image /\
                Side.detected (detect_from_bytes d image t) = false) ->
     slot_detected (process_slot imdecode d expected side image_base64 t)
     = false).
Proof.
  split; [|split].
  - unfold detect_cards_from_base64.
    cbn [Cards.status Cards.front_detected Cards.back_detected
         Cards.front_confidence Cards.back_confidence
         Cards.print_aadhar_detected].
    intros H. apply determine_status_approved in H
      as (Hp & Hf & Hb & Hfc & Hbc). auto.
  - unfold detect_cards_from_base64.
    cbn [Cards.status Cards.front_detected Cards.back_detected].
    intros H. apply determine_status_not_both.
    destruct H as [-> | ->]; [reflexivity | apply andb_false_r].
  - intros expected side image_base64 H. unfold process_slot.
    destruct H as [H | [(s & -> & H) | [(s & image & e & -> & H & He)
                                       | (s & image & -> & H & Hn)]]].
    + destruct image_base64 as [[|c s]|]; [reflexivity | discriminate
                                           | reflexivity].
    + destruct s; [reflexivity|]. now rewrite H.
    + destruct s; [reflexivity|]. rewrite H.
      unfold detect_from_bytes. rewrite He. reflexivity.
    + destruct s; [reflexivity|]. rewrite H, Hn. reflexivity.
Qed.

Lemma approved_only_when_both_confident_witness :
  (Cards.front_detected
     (detect_cards_from_base64 Demo.imdecode Demo.defaults Demo.the_detector
        (Some "front92") (Some "back88") 0.15) = true /\
   Cards.back_detected
     (detect_cards_from_base64 Demo.imdecode Demo.defaults Demo.the_detector
        (Some "front92") (Some "back88") 0.15) = true /\
   LOW_CONFIDENCE_THRESHOLD Demo.defaults
   <= Cards.front_confidence
        (detect_cards_from_base64 Demo.imdecode Demo.defaults
           Demo.the_detector (Some "front92") (Some "back88") 0.15) /\
   LOW_CONFIDENCE_THRESHOLD Demo.defaults
   <= Cards.back_confidence
        (detect_cards_from_base64 Demo.imdecode Demo.defaults
           Demo.the_detector (Some "front92") (Some "back88") 0.15) /\
   Cards.print_aadhar_detected
     (detect_cards_from_base64 Demo.imdecode Demo.defaults Demo.the_detector
        (Some "front92") (Some "back88") 0.15) = false)
  /\
  (Cards.status
     (detect_cards_from_base64 Demo.imdecode Demo.defaults Demo.the_detector
        (Some "front92") (Some "garbled") 0.15) = REJECTED \/
   Cards.status
     (detect_cards_from_base64 Demo.imdecode Demo.defaults Demo.the_detector
        (Some "front92") (Some "garbled") 0.15) = PENDING_REVIEW)
  /\
  slot_detected
    (process_slot Demo.imdecode Demo.the_detector "aadhar_back" "back"
       (Some "garbled") 0.15) = false.
Proof.
  split; [|split].
  - apply (proj1 (approved_only_when_both_confident Demo.imdecode
                    Demo.defaults Demo.the_detector
                    (Some "front92") (Some "back88") 0.15)).
    vm_compute. reflexivity.
  - apply (proj1 (proj2 (approved_only_when_both_confident Demo.imdecode
                    Demo.defaults Demo.the_detector
                    (Some "front92") (Some "garbled") 0.15))).
    right. vm_compute. reflexivity.
  - apply (proj2 (proj2 (approved_only_when_both_confident Demo.imdecode
                    Demo.defaults Demo.the_detector
                    (Some "front92") (Some "garbled") 0.15))).
    right. left. exists "garbled". split; reflexivity.
Defined.

(** C10: when exactly one side is detected, no fraud signal fired and the
    detected side's confidence is at or above the low-confidence
    threshold, the status keeps its initial value REJECTED. *)
Theorem single_confident_side_is_rejected {Image : Type}
    (imdecode : string -> option Image) (cfg : Settings)
    (d : Detector Image) (front_base64 back_base64 : option string)
    (t : Q) :
  Cards.print_aadhar_detected
    (detect_cards_from_base64 imdecode cfg d front_base64 back_base64 t)
  = false ->
  xorb
    (Cards.front_detected
       (detect_cards_from_base64 imdecode cfg d front_base64 back_base64 t))
    (Cards.back_detected
       (detect_cards_from_base64 imdecode cfg d front_base64 back_base64 t))
  = true ->
  LOW_CONFIDENCE_THRESHOLD cfg
  <= (if Cards.front_detected
           (detect_cards_from_base64 imdecode cfg d front_base64
              back_base64 t)
      then Cards.front_confidence
             (detect_cards_from_base64 imdecode cfg d front_base64
                back_base64 t)
      else Cards.back_confidence
             (detect_cards_from_base64 imdecode cfg d front_base64
                back_base64 t)) ->
  Cards.status
    (detect_cards_from_base64 imdecode cfg d front_base64 back_base64 t)
  = REJECTED.
Proof.
  unfold detect_cards_from_base64.
  cbn [Cards.status Cards.front_detected Cards.back_detected
       Cards.front_confidence Cards.back_confidence
       Cards.print_aadhar_detected].
  intros Hp Hx Hlow. rewrite Hp. unfold determine_status.
  destruct (StatelessSide.process_slot_inv imdecode d t
              "aadhar_front" "front" front_base64)
    as [(Hf & Hfc) | (Hf & _ & Hfpos)];
  destruct (StatelessSide.process_slot_inv imdecode d t
              "aadhar_back" "back" back_base64)
    as [(Hb & Hbc) | (Hb & _ & Hbpos)];
  rewrite Hf, Hb in *; cbn [xorb andb orb] in *; try discriminate.
  - rewrite Hfc, Qor_zero. apply Qltb_ge in Hlow. now rewrite Hlow.
  - rewrite (Qor_pos _ _ Hfpos). apply Qltb_ge in Hlow. now rewrite Hlow.
Qed.

Lemma single_confident_side_is_rejected_witness :
  Cards.status
    (detect_cards_from_base64 Demo.imdecode Demo.defaults Demo.the_detector
       (Some "front92") (Some "blank") 0.15)
  = REJECTED.
Proof.
  apply (single_confident_side_is_rejected Demo.imdecode Demo.defaults
           Demo.the_detector (Some "front92") (Some "blank") 0.15).
  - vm_compute. reflexivity.
  - vm_compute. reflexivity.
  - vm_compute. discriminate.
Defined.

End Decision.

(** ** The scans of [main.py] *)

Module MainScan.
Import Stateless Main.

Section Scan.
Variable cc : gmap Z string.
Variable t : Q.

Lemma scan_front_frame r b :
  Result.back_detected (scan_front cc t r b) = Result.back_detected r /\
  Result.back_confidence (scan_front cc t r b) = Result.back_confidence r.
Proof.
  unfold scan_front.
  destruct (Qltb (conf b) t); [auto|].
  destruct (String.eqb _ "print_aadhar"); [auto|].
  destruct (String.eqb _ "aadhar_front"); auto.
Qed.

Lemma scan_back_frame r b :
  Result.front_detected (scan_back cc t r b) = Result.front_detected r /\
  Result.front_confidence (scan_back cc t r b) = Result.front_confidence r.
Proof.
  unfold scan_back.
  destruct (Qltb (conf b) t); [auto|].
  destruct (String.eqb _ "print_aadhar"); [auto|].
  destruct (String.eqb _ "aadhar_back"); auto.
Qed.

(** One step either leaves the front fields alone or sets them from a box
    at or above the threshold that is labelled as a front card. *)
Lemma scan_front_step r b :
  (Result.front_detected (scan_front cc t r b) = Result.front_detected r /\
   Result.front_confidence (scan_front cc t r b) = Result.front_confidence r /\
   (conf b < t \/ label cc b <> "aadhar_front"))
  \/
  (Result.front_detected (scan_front cc t r b) = true /\
   Result.front_confidence (scan_front cc t r b) = conf b /\
   t <= conf b /\ label cc b = "aadhar_front").
Proof.
  unfold scan_front, label.
  destruct (Qltb (conf b) t) eqn:Ht.
  { left. apply Qltb_lt in Ht. auto. }
  apply Qltb_ge in Ht.
  destruct (String.eqb _ "print_aadhar") eqn:Hp.
  { left. apply String.eqb_eq in Hp. rewrite Hp. cbn.
    repeat split. right. discriminate. }
  destruct (String.eqb _ "aadhar_front") eqn:Hf.
  - right. apply String.eqb_eq in Hf. cbn. auto.
  - left. apply String.eqb_neq in Hf. auto.
Qed.

Lemma scan_back_step r b :
  (Result.back_detected (scan_back cc t r b) = Result.back_detected r /\
   Result.back_confidence (scan_back cc t r b) = Result.back_confidence r /\
   (conf b < t \/ label cc b <> "aadhar_back"))
  \/
  (Result.back_detected (scan_back cc t r b) = true /\
   Result.back_confidence (scan_back cc t r b) = conf b /\
   t <= conf b /\ label cc b = "aadhar_back").
Proof.
  unfold scan_back, label.
  destruct (Qltb (conf b) t) eqn:Ht.
  { left. apply Qltb_lt in Ht. auto. }
  apply Qltb_ge in Ht.
  destruct (String.eqb _ "print_aadhar") eqn:Hp.
  { left. apply String.eqb_eq in Hp. rewrite Hp. cbn.
    repeat split. right. discriminate. }
  destruct (String.eqb _ "aadhar_back") eqn:Hf.
  - right. apply String.eqb_eq in Hf. cbn. auto.
  - left. apply String.eqb_neq in Hf. auto.
Qed.

(** After a scan the front fields are the ones it started from, and then
    no box qualified, or they are those of the last box that qualified. *)
Lemma fold_scan_front boxes : forall r,
  (Result.front_detected (fold_left (scan_front cc t) boxes r)
     = Result.front_detected r /\
   Result.front_confidence (fold_left (scan_front cc t) boxes r)
     = Result.front_confidence r /\
   forall b, In b boxes -> conf b < t \/ label cc b <> "aadhar_front")
  \/
  (exists pre b post,
     boxes = pre ++ b :: post /\
     Result.front_detected (fold_left (scan_front cc t) boxes r) = true /\
     Result.front_confidence (fold_left (scan_front cc t) boxes r) = conf b /\
     t <= conf b /\ label cc b = "aadhar_front" /\
     forall b', In b' post -> conf b' < t \/ label cc b' <> "aadhar_front").
Proof.
  induction boxes as [|b rest IH]; intros r.
  - left. cbn. repeat split. intros b [].
  - cbn [fold_left].
    destruct (IH (scan_front cc t r b))
      as [(Hd & Hq & Hall) | (pre & b' & post & -> & Hd & Hq & Ht & Hl & Hpost)].
    + destruct (scan_front_step r b) as [(Hd' & Hq' & Hb) | (Hd' & Hq' & Ht & Hl)].
      * left. rewrite Hd, Hq. repeat split; auto.
        intros b' [<- | Hin]; auto.
      * right. exists [], b, rest. rewrite Hd, Hq. cbn [app]. auto 10.
    + right. exists (b :: pre), b', post. auto 10.
Qed.

Lemma fold_scan_back boxes : forall r,
  (Result.back_detected (fold_left (scan_back cc t) boxes r)
     = Result.back_detected r /\
   Result.back_confidence (fold_left (scan_back cc t) boxes r)
     = Result.back_confidence r /\
   forall b, In b boxes -> conf b < t \/ label cc b <> "aadhar_back")
  \/
  (exists pre b post,
     boxes = pre ++ b :: post /\
     Result.back_detected (fold_left (scan_back cc t) boxes r) = true /\
     Result.back_confidence (fold_left (scan_back cc t) boxes r) = conf b /\
     t <= conf b /\ label cc b = "aadhar_back" /\
     forall b', In b' post -> conf b' < t \/ label cc b' <> "aadhar_back").
Proof.
  induction boxes as [|b rest IH]; intros r.
  - left. cbn. repeat split. intros b [].
  - cbn [fold_left].
    destruct (IH (scan_back cc t r b))
      as [(Hd & Hq & Hall) | (pre & b' & post & -> & Hd & Hq & Ht & Hl & Hpost)].
    + destruct (scan_back_step r b) as [(Hd' & Hq' & Hb) | (Hd' & Hq' & Ht & Hl)].
      * left. rewrite Hd, Hq. repeat split; auto.
        intros b' [<- | Hin]; auto.
      * right. exists [], b, rest. rewrite Hd, Hq. cbn [app]. auto 10.
    + right. exists (b :: pre), b', post. auto 10.
Qed.

Lemma fold_scan_back_frame boxes : forall r,
  Result.front_detected (fold_left (scan_back cc t) boxes r)
    = Result.front_detected r /\
  Result.front_confidence (fold_left (scan_back cc t) boxes r)
    = Result.front_confidence r.
Proof.
  induction boxes as [|b rest IH]; intros r; [auto|].
  cbn [fold_left]. destruct (IH (scan_back cc t r b)) as [-> ->].
  apply scan_back_frame.
Qed.

Lemma fold_scan_front_frame boxes : forall r,
  Result.back_detected (fold_left (scan_front cc t) boxes r)
    = Result.back_detected r /\
  Result.back_confidence (fold_left (scan_front cc t) boxes r)
    = Result.back_confidence r.
Proof.
  induction boxes as [|b rest IH]; intros r; [auto|].
  cbn [fold_left]. destruct (IH (scan_front cc t r b)) as [-> ->].
  apply scan_front_frame.
Qed.

End Scan.

Section Cards.
Variable self : AadhaarCardDetector.
Variable os_path_exists : string -> bool.
Variable t : Q.

Lemma detect_back_frame back_image_path r :
  Result.front_detected (detect_back self os_path_exists back_image_path t r)
    = Result.front_detected r /\
  Result.front_confidence (detect_back self os_path_exists back_image_path t r)
    = Result.front_confidence r.
Proof.
  unfold detect_back.
  destruct back_image_path as [[|c s]|]; auto.
  destruct (os_path_exists _); [|auto].
  destruct (model self _); [auto|]. apply fold_scan_back_frame.
Qed.

(** The front fields of [detect_cards]: untouched, or those of a front
    box at or above the threshold. *)
Lemma detect_cards_front front_image_path back_image_path :
  (Result.front_detected
     (detect_cards self os_path_exists front_image_path back_image_path t)
   = false /\
   Result.front_confidence
     (detect_cards self os_path_exists front_image_path back_image_path t)
   = 0)
  \/
  (Result.front_detected
     (detect_cards self os_path_exists front_image_path back_image_path t)
   = true /\
   t <= Result.front_confidence
          (detect_cards self os_path_exists front_image_path
             back_image_path t)).
Proof.
  unfold detect_cards.
  destruct (detect_back_frame back_image_path
              (detect_front self os_path_exists front_image_path t initial))
    as [-> ->].
  unfold detect_front.
  destruct front_image_path as [[|c s]|]; [left; auto | | left; auto].
  destruct (os_path_exists _); [|left; auto].
  destruct (model self _) as [e|boxes]; [left; auto|].
  destruct (fold_scan_front (card_classes self) t boxes initial)
    as [(Hd & Hq & _) | (pre & b & post & _ & Hd & Hq & Ht & _)].
  - left. rewrite Hd, Hq. auto.
  - right. rewrite Hd, Hq. auto.
Qed.

Lemma detect_cards_back front_image_path back_image_path :
  (Result.back_detected
     (detect_cards self os_path_exists front_image_path back_image_path t)
   = false /\
   Result.back_confidence
     (detect_cards self os_path_exists front_image_path back_image_path t)
   = 0)
  \/
  (Result.back_detected
     (detect_cards self os_path_exists front_image_path back_image_path t)
   = true /\
   t <= Result.back_confidence
          (detect_cards self os_path_exists front_image_path
             back_image_path t)).
Proof.
  unfold detect_cards.
  assert (Hfront :
    Result.back_detected
      (detect_front self os_path_exists front_image_path t initial) = false /\
    Result.back_confidence
      (detect_front self os_path_exists front_image_path t initial) = 0).
  { unfold detect_front.
    destruct front_image_path as [[|c s]|]; auto.
    destruct (os_path_exists _); [|auto].
    destruct (model self _) as [e|boxes]; [auto|].
    destruct (fold_scan_front_frame (card_classes self) t boxes initial)
      as [-> ->]. auto. }
  destruct Hfront as [Hd0 Hq0].
  set (r0 := detect_front self os_path_exists front_image_path t initial) in *.
  unfold detect_back.
  destruct back_image_path as [[|c s]|]; [left; auto | | left; auto].
  destruct (os_path_exists _); [|left; auto].
  destruct (model self _) as [e|boxes]; [left; auto|].
  destruct (fold_scan_back (card_classes self) t boxes r0)
    as [(Hd & Hq & _) | (pre & b & post & _ & Hd & Hq & Ht & _)].
  - left. rewrite Hd, Hq. auto.
  - right. rewrite Hd, Hq. auto.
Qed.

End Cards.
End MainScan.

(** ** Per-side confidence *)

Module SideConfidence.
Import Stateless.

Lemma below_not_visible cc t b : conf b < t -> visible cc t b = false.
Proof.
  intros H. unfold visible.
  destruct (Qle_bool t (conf b)) eqn:E; [|reflexivity].
  apply Qle_bool_iff in E. exfalso. exact (Qlt_not_le _ _ H E).
Qed.

Lemma visible_card_label cc t b :
  visible cc t b = true -> is_card_label (label cc b) = true.
Proof. unfold visible. intros H. now apply andb_true_iff in H. Qed.

(** An image with no box at or above the threshold that carries a card
    label is undetected, with confidence [0.0]. *)
Lemma nothing_visible_undetected {Image : Type} (d : Detector Image)
    (image : Image) (t : Q) (boxes : list Box) :
  predict (model d) image = inr boxes ->
  (forall b, In b boxes ->
     conf b < t \/ is_card_label (label (card_classes d) b) = false) ->
  Side.detected (detect_from_bytes d image t) = false /\
  Side.confidence (detect_from_bytes d image t) = 0.
Proof.
  intros Hp Hall.
  destruct (StatelessSide.detect_from_bytes_cases d t image)
    as [(Hd & _ & Hq & _) | (pre & b & post & Hp' & Hv & _)]; [auto|].
  exfalso. rewrite Hp in Hp'. injection Hp' as ->.
  destruct (Hall b) as [Hlt | Hl].
  - apply in_or_app. right. now left.
  - apply (below_not_visible (card_classes d)) in Hlt. congruence.
  - apply visible_card_label in Hv. congruence.
Qed.

(** A slot whose image has no box at or above the threshold with the
    slot's own label is undetected, with confidence [0.0]. *)
Lemma slot_nothing_matching {Image : Type}
    (imdecode : string -> option Image) (d : Detector Image)
    (expected side : string) (s : string) (image : Image) (t : Q)
    (boxes : list Box) :
  decode_base64_image imdecode s = Some image ->
  predict (model d) image = inr boxes ->
  (forall b, In b boxes ->
     conf b < t \/ label (card_classes d) b <> expected) ->
  slot_detected (process_slot imdecode d expected side (Some s) t) = false /\
  slot_confidence (process_slot imdecode d expected side (Some s) t) = 0.
Proof.
  intros Hdec Hp Hall. unfold process_slot.
  destruct s as [|c s]; [auto|]. rewrite Hdec.
  destruct (StatelessSide.detect_from_bytes_cases d t image)
    as [(Hd & _ & Hq & _) | (pre & b & post & Hp' & Hv & _ & Hd & Hc & _)].
  - rewrite Hd. cbn. auto.
  - rewrite Hd, Hc. cbn [andb].
    destruct (bool_decide_reflect
                (Some (label (card_classes d) b) = Some expected))
      as [Heq | Hne]; [|cbn; auto].
    exfalso. injection Heq as Heq.
    rewrite Hp in Hp'. injection Hp' as ->.
    destruct (Hall b) as [Hlt | Hl].
    + apply in_or_app. right. now left.
    + apply (below_not_visible (card_classes d)) in Hlt. congruence.
    + contradiction.
Qed.

(** C4: whenever a side is reported detected, its confidence is at or
    above the request's threshold: for the image result and both slots of
    the stateless detector and for both slots of [detect_cards]. *)
Theorem detected_confidence_at_least_threshold {Image : Type}
    (imdecode : string -> option Image) (cfg : Settings)
    (d : Detector Image) (image : Image)
    (front_base64 back_base64 : option string)
    (self : Main.AadhaarCardDetector) (os_path_exists : string -> bool)
    (front_image_path back_image_path : option string) (t : Q) :
  (Side.detected (detect_from_bytes d image t) = true ->
   t <= Side.confidence (detect_from_bytes d image t))
  /\
  (Cards.front_detected
     (detect_cards_from_base64 imdecode cfg d front_base64 back_base64 t)
   = true ->
   t <= Cards.front_confidence
          (detect_cards_from_base64 imdecode cfg d front_base64
             back_base64 t))
  /\
  (Cards.back_detected
     (detect_cards_from_base64 imdecode cfg d front_base64 back_base64 t)
   = true ->
   t <= Cards.back_confidence
          (detect_cards_from_base64 imdecode cfg d front_base64
             back_base64 t))
  /\
  (Main.Result.front_detected
     (Main.detect_cards self os_path_exists front_image_path
        back_image_path t) = true ->
   t <= Main.Result.front_confidence
          (Main.detect_cards self os_path_exists front_image_path
             back_image_path t))
  /\
  (Main.Result.back_detected
     (Main.detect_cards self os_path_exists front_image_path
        back_image_path t) = true ->
   t <= Main.Result.back_confidence
          (Main.detect_cards self os_path_exists front_image_path
             back_image_path t)).
Proof.
  repeat split; intros H.
  - destruct (StatelessSide.detect_from_bytes_inv d t image)
      as [(Hd & _) | (_ & Hle & _)]; [congruence | exact Hle].
  - unfold detect_cards_from_base64 in *.
    cbn [Cards.front_detected Cards.front_confidence] in *.
    destruct (StatelessSide.process_slot_inv imdecode d t
                "aadhar_front" "front" front_base64)
      as [(Hd & _) | (_ & Hle & _)]; [congruence | exact Hle].
  - unfold detect_cards_from_base64 in *.
    cbn [Cards.back_detected Cards.back_confidence] in *.
    destruct (StatelessSide.process_slot_inv imdecode d t
                "aadhar_back" "back" back_base64)
      as [(Hd & _) | (_ & Hle & _)]; [congruence | exact Hle].
  - destruct (MainScan.detect_cards_front self os_path_exists t
                front_image_path back_image_path)
      as [(Hd & _) | (_ & Hle)]; [congruence | exact Hle].
  - destruct (MainScan.detect_cards_back self os_path_exists t
                front_image_path back_image_path)
      as [(Hd & _) | (_ & Hle)]; [congruence | exact Hle].
Qed.

Lemma detected_confidence_at_least_threshold_witness :
  0.15 <= Side.confidence
            (detect_from_bytes Demo.the_detector
               (Some [Demo.front 0.5; Demo.front 0.9]) 0.15)
  /\
  0.15 <= Cards.front_confidence
            (detect_cards_from_base64 Demo.imdecode Demo.defaults
               Demo.the_detector (Some "front92") (Some "back88") 0.15)
  /\
  0.15 <= Cards.back_confidence
            (detect_cards_from_base64 Demo.imdecode Demo.defaults
               Demo.the_detector (Some "front92") (Some "back88") 0.15)
  /\
  0.15 <= Main.Result.front_confidence
            (Main.detect_cards Demo.path_detector Demo.on_disk
               (Some "front92") (Some "back88") 0.15)
  /\
  0.15 <= Main.Result.back_confidence
            (Main.detect_cards Demo.path_detector Demo.on_disk
               (Some "front92") (Some "back88") 0.15).
Proof.
  destruct (detected_confidence_at_least_threshold Demo.imdecode
              Demo.defaults Demo.the_detector
              (Some [Demo.front 0.5; Demo.front 0.9])
              (Some "front92") (Some "back88")
              Demo.path_detector Demo.on_disk
              (Some "front92") (Some "back88") 0.15)
    as (H1 & H2 & H3 & H4 & H5).
  repeat split.
  - apply H1. vm_compute. reflexivity.
  - apply H2. vm_compute. reflexivity.
  - apply H3. vm_compute. reflexivity.
  - apply H4. vm_compute. reflexivity.
  - apply H5. vm_compute. reflexivity.
Defined.

(** In [detect_cards] a front image with no box at or above the threshold
    that is labelled as a front card is undetected, and so for the back. *)
Lemma main_nothing_matching (self : Main.AadhaarCardDetector)
    (os_path_exists : string -> bool) (t : Q)
    (front_image_path back_image_path : option string) :
  (forall path boxes,
     front_image_path = Some path ->
     Main.model self path = inr boxes ->
     (forall b, In b boxes ->
        conf b < t \/ label (Main.card_classes self) b <> "aadhar_front") ->
     Main.Result.front_detected
       (Main.detect_cards self os_path_exists front_image_path
          back_image_path t) = false /\
     Main.Result.front_confidence
       (Main.detect_cards self os_path_exists front_image_path
          back_image_path t) = 0)
  /\
  (forall path boxes,
     back_image_path = Some path ->
     Main.model self path = inr boxes ->
     (forall b, In b boxes ->
        conf b < t \/ label (Main.card_classes self) b <> "aadhar_back") ->
     Main.Result.back_detected
       (Main.detect_cards self os_path_exists front_image_path
          back_image_path t) = false /\
     Main.Result.back_confidence
       (Main.detect_cards self os_path_exists front_image_path
          back_image_path t) = 0).
Proof.
  split; intros path boxes -> Hm Hall; unfold Main.detect_cards.
  - destruct (MainScan.detect_back_frame self os_path_exists t
                back_image_path
                (Main.detect_front self os_path_exists (Some path) t
                   Main.initial)) as [-> ->].
    unfold Main.detect_front.
    destruct path as [|c s]; [auto|].
    destruct (os_path_exists _); [|auto]. rewrite Hm.
    destruct (MainScan.fold_scan_front (Main.card_classes self) t boxes
                Main.initial)
      as [(Hd & Hq & _) | (pre & b & post & -> & _ & _ & Ht & Hl & _)];
      [rewrite Hd, Hq; auto|].
    exfalso. destruct (Hall b) as [Hlt | Hne].
    + apply in_or_app. right. now left.
    + exact (Qlt_not_le _ _ Hlt Ht).
    + contradiction.
  - set (r0 := Main.detect_front self os_path_exists front_image_path t
                 Main.initial).
    assert (Hr0 : Main.Result.back_detected r0 = false /\
                  Main.Result.back_confidence r0 = 0).
    { subst r0. unfold Main.detect_front.
      destruct front_image_path as [[|c s]|]; auto.
      destruct (os_path_exists _); [|auto].
      destruct (Main.model self (String c s)) as [e|bs]; [auto|].
      destruct (MainScan.fold_scan_front_frame (Main.card_classes self) t bs
                  Main.initial) as [-> ->]. auto. }
    destruct Hr0 as [Hd0 Hq0]. unfold Main.detect_back.
    destruct path as [|c s]; [auto|].
    destruct (os_path_exists _); [|auto]. rewrite Hm.
    destruct (MainScan.fold_scan_back (Main.card_classes self) t boxes r0)
      as [(Hd & Hq & _) | (pre & b & post & -> & _ & _ & Ht & Hl & _)];
      [rewrite Hd, Hq; auto|].
    exfalso. destruct (Hall b) as [Hlt | Hne].
    + apply in_or_app. right. now left.
    + exact (Qlt_not_le _ _ Hlt Ht).
    + contradiction.
Qed.

(** C5: a side that is not detected reports confidence exactly [0.0], in
    the image result and both slots of the stateless detector and in both
    slots of [detect_cards]; in particular an image with no boxes, with
    boxes below the threshold only or with non-matching labels only is
    undetected with confidence [0.0].  The functions are total: an
    exception of the model ends in a result, not in an exception. *)
Theorem undetected_confidence_is_zero {Image : Type}
    (imdecode : string -> option Image) (cfg : Settings)
    (d : Detector Image) (image : Image)
    (front_base64 back_base64 : option string)
    (self : Main.AadhaarCardDetector) (os_path_exists : string -> bool)
    (front_image_path back_image_path : option string) (t : Q) :
  (Side.detected (detect_from_bytes d image t) = false ->
   Side.confidence (detect_from_bytes d image t) = 0)
  /\
  (Cards.front_detected
     (detect_cards_from_base64 imdecode cfg d front_base64 back_base64 t)
   = false ->
   Cards.front_confidence
     (detect_cards_from_base64 imdecode cfg d front_base64 back_base64 t)
   = 0)
  /\
  (Cards.back_detected
     (detect_cards_from_base64 imdecode cfg d front_base64 back_base64 t)
   = false ->
   Cards.back_confidence
     (detect_cards_from_base64 imdecode cfg d front_base64 back_base64 t)
   = 0)
  /\
  (Main.Result.front_detected
     (Main.detect_cards self os_path_exists front_image_path
        back_image_path t) = false ->
   Main.Result.front_confidence
     (Main.detect_cards self os_path_exists front_image_path
        back_image_path t) = 0)
  /\
  (Main.Result.back_detected
     (Main.detect_cards self os_path_exists front_image_path
        back_image_path t) = false ->
   Main.Result.back_confidence
     (Main.detect_cards self os_path_exists front_image_path
        back_image_path t) = 0)
  /\
  (forall boxes,
     predict (model d) image = inr boxes ->
     (forall b, In b boxes ->
        conf b < t \/ is_card_label (label (card_classes d) b) = false) ->
     Side.detected (detect_from_bytes d image t) = false /\
     Side.confidence (detect_from_bytes d image t) = 0)
  /\
  (forall expected side s boxes,
     decode_base64_image imdecode s = Some image ->
     predict (model d) image = inr boxes ->
     (forall b, In b boxes ->
        conf b < t \/ label (card_classes d) b <> expected) ->
     slot_detected (process_slot imdecode d expected side (Some s) t)
     = false /\
     slot_confidence (process_slot imdecode d expected side (Some s) t)
     = 0)
  /\
  (forall path boxes,
     front_image_path = Some path ->
     Main.model self path = inr boxes ->
     (forall b, In b boxes ->
        conf b < t \/ label (Main.card_classes self) b <> "aadhar_front") ->
     Main.Result.front_detected
       (Main.detect_cards self os_path_exists front_image_path
          back_image_path t) = false /\
     Main.Result.front_confidence
       (Main.detect_cards self os_path_exists front_image_path
          back_image_path t) = 0)
  /\
  (forall path boxes,
     back_image_path = Some path ->
     Main.model self path = inr boxes ->
     (forall b, In b boxes ->
        conf b < t \/ label (Main.card_classes self) b <> "aadhar_back") ->
     Main.Result.back_detected
       (Main.detect_cards self os_path_exists front_image_path
          back_image_path t) = false /\
     Main.Result.back_confidence
       (Main.detect_cards self os_path_exists front_image_path
          back_image_path t) = 0).
Proof.
  split; [|split; [|split; [|split; [|split; [|split; [|split]]]]]].
  - intros H.
    destruct (StatelessSide.detect_from_bytes_inv d t image)
      as [(_ & Hq) | (Hd & _)]; [exact Hq | congruence].
  - unfold detect_cards_from_base64.
    cbn [Cards.front_detected Cards.front_confidence]. intros H.
    destruct (StatelessSide.process_slot_inv imdecode d t
                "aadhar_front" "front" front_base64)
      as [(_ & Hq) | (Hd & _)]; [exact Hq | congruence].
  - unfold detect_cards_from_base64.
    cbn [Cards.back_detected Cards.back_confidence]. intros H.
    destruct (StatelessSide.process_slot_inv imdecode d t
                "aadhar_back" "back" back_base64)
      as [(_ & Hq) | (Hd & _)]; [exact Hq | congruence].
  - intros H.
    destruct (MainScan.detect_cards_front self os_path_exists t
                front_image_path back_image_path)
      as [(_ & Hq) | (Hd & _)]; [exact Hq | congruence].
  - intros H.
    destruct (MainScan.detect_cards_back self os_path_exists t
                front_image_path back_image_path)
      as [(_ & Hq) | (Hd & _)]; [exact Hq | congruence].
  - intros boxes. apply nothing_visible_undetected.
  - intros expected side s boxes. apply slot_nothing_matching.
  - apply main_nothing_matching.
Qed.

Lemma undetected_confidence_is_zero_witness :
  Side.confidence
    (detect_from_bytes Demo.the_detector (Some [Demo.front 0.1]) 0.15) = 0
  /\
  Cards.front_confidence
    (detect_cards_from_base64 Demo.imdecode Demo.defaults Demo.the_detector
       (Some "back90front80") (Some "blank") 0.15) = 0
  /\
  Cards.back_confidence
    (detect_cards_from_base64 Demo.imdecode Demo.defaults Demo.the_detector
       (Some "back90front80") (Some "blank") 0.15) = 0
  /\
  Main.Result.front_confidence
    (Main.detect_cards Demo.path_detector Demo.on_disk
       (Some "back88") (Some "missing") 0.15) = 0
  /\
  Main.Result.back_confidence
    (Main.detect_cards Demo.path_detector Demo.on_disk
       (Some "back88") (Some "missing") 0.15) = 0
  /\
  (Side.detected
     (detect_from_bytes Demo.the_detector (Some [Demo.front 0.1]) 0.15)
   = false /\
   Side.confidence
     (detect_from_bytes Demo.the_detector (Some [Demo.front 0.1]) 0.15)
   = 0).
Proof.
  destruct (undetected_confidence_is_zero Demo.imdecode
              Demo.defaults Demo.the_detector
              (Some [Demo.front 0.1])
              (Some "back90front80") (Some "blank")
              Demo.path_detector Demo.on_disk
              (Some "back88") (Some "missing") 0.15)
    as (H1 & H2 & H3 & H4 & H5 & H6 & _).
  split; [|split; [|split; [|split; [|split]]]].
  - apply H1. vm_compute. reflexivity.
  - apply H2. vm_compute. reflexivity.
  - apply H3. vm_compute. reflexivity.
  - apply H4. vm_compute. reflexivity.
  - apply H5. vm_compute. reflexivity.
  - apply (H6 [Demo.front 0.1]); [reflexivity|].
    intros b [<- | []]. left. vm_compute. reflexivity.
Defined.

(** The front image of this request shows a back card at 0.9 and a front
    card at 0.8.  The front label has a detection at or above the
    threshold, and 0.8 is the largest confidence among the front-labelled
    ones; yet the image result carries the back card's 0.9, and the front
    slot is reported undetected with confidence 0.0, not 0.8. *)
Lemma matching_label_maximum_not_reported :
  Demo.imdecode "back90front80"
    = Some (Some [Demo.back 0.9; Demo.front 0.8])
  /\ label Demo.class_names (Demo.front 0.8) = "aadhar_front"
  /\ 0.15 <= conf (Demo.front 0.8)
  /\ (forall b, In b [Demo.back 0.9; Demo.front 0.8] ->
        label Demo.class_names b = "aadhar_front" -> conf b <= 0.8)
  /\ Side.class
       (detect_from_bytes Demo.the_detector
          (Some [Demo.back 0.9; Demo.front 0.8]) 0.15) = Some "aadhar_back"
  /\ Side.confidence
       (detect_from_bytes Demo.the_detector
          (Some [Demo.back 0.9; Demo.front 0.8]) 0.15) = 0.9
  /\ Cards.front_detected
       (detect_cards_from_base64 Demo.imdecode Demo.defaults
          Demo.the_detector (Some "back90front80") None 0.15) = false
  /\ Cards.front_confidence
       (detect_cards_from_base64 Demo.imdecode Demo.defaults
          Demo.the_detector (Some "back90front80") None 0.15) = 0
  /\ ~ (Cards.front_confidence
          (detect_cards_from_base64 Demo.imdecode Demo.defaults
             Demo.the_detector (Some "back90front80") None 0.15) == 0.8).
Proof.
  split; [reflexivity|]. split; [reflexivity|].
  split; [vm_compute; discriminate|].
  split.
  { intros b [<- | [<- | []]] Hl.
    - vm_compute in Hl. discriminate.
    - vm_compute. discriminate. }
  split; [vm_compute; reflexivity|]. split; [vm_compute; reflexivity|].
  split; [vm_compute; reflexivity|]. split; [vm_compute; reflexivity|].
  vm_compute. discriminate.
Qed.

(** [detect_cards] keeps the confidence of the last front box it scans:
    after 0.9 and then 0.5 it reports 0.5. *)
Lemma detect_cards_keeps_last_scanned :
  Main.Result.front_confidence
    (Main.detect_cards
       {| Main.device := "cpu";
          Main.model := fun _ => inr [Demo.front 0.9; Demo.front 0.5];
          Main.card_classes := Demo.class_names |}
       Demo.on_disk (Some "front.jpg") None 0.15) = 0.5.
Proof. vm_compute. reflexivity. Qed.

(** C3, as the stateless detector has it: when an image has a box at or
    above the threshold with a card label (front or back) and a
    confidence above zero, the image result is detected, its confidence
    is the largest among all such boxes of either label, and its class is
    the label of the first box attaining it.  The slot is detected, with
    that confidence, exactly when that label is the slot's own; otherwise
    the slot is undetected with confidence [0.0]. *)
Theorem best_card_box_is_reported {Image : Type}
    (imdecode : string -> option Image) (d : Detector Image)
    (expected side : string) (s : string) (image : Image) (t : Q)
    (boxes : list Box) :
  str_truthy (Some s) = true ->
  decode_base64_image imdecode s = Some image ->
  predict (model d) image = inr boxes ->
  (exists b, In b boxes /\ visible (card_classes d) t b = true /\
             0 < conf b) ->
  exists pre best post,
    boxes = pre ++ best :: post /\
    visible (card_classes d) t best = true /\
    Side.detected (detect_from_bytes d image t) = true /\
    Side.confidence (detect_from_bytes d image t) = conf best /\
    Side.class (detect_from_bytes d image t)
      = Some (label (card_classes d) best) /\
    (forall b, In b boxes -> visible (card_classes d) t b = true ->
       conf b <= conf best) /\
    (forall b, In b pre -> visible (card_classes d) t b = true ->
       conf b < conf best) /\
    (label (card_classes d) best = expected ->
       slot_detected (process_slot imdecode d expected side (Some s) t)
         = true /\
       slot_confidence (process_slot imdecode d expected side (Some s) t)
         = conf best) /\
    (label (card_classes d) best <> expected ->
       slot_detected (process_slot imdecode d expected side (Some s) t)
         = false /\
       slot_confidence (process_slot imdecode d expected side (Some s) t)
         = 0).
Proof.
  intros Hs Hdec Hp (b0 & Hin0 & Hv0 & Hpos0).
  destruct (StatelessSide.detect_from_bytes_cases d t image)
    as [(_ & _ & _ & Hall)
       | (pre & best & post & Hp' & Hv & Hpos & Hd & Hc & Hq & Hpre & Hpost)].
  - exfalso. specialize (Hall boxes Hp b0 Hin0 Hv0).
    exact (Qlt_not_le _ _ Hpos0 Hall).
  - rewrite Hp in Hp'. injection Hp' as ->.
    exists pre, best, post.
    split; [reflexivity|]. split; [exact Hv|]. split; [exact Hd|].
    split; [exact Hq|]. split; [exact Hc|].
    split.
    { intros b Hin Hvb. apply in_app_or in Hin as [Hin | [<- | Hin]].
      - apply Qlt_le_weak. auto.
      - apply Qle_refl.
      - auto. }
    split; [exact Hpre|].
    unfold process_slot. destruct s as [|c s]; [discriminate|].
    rewrite Hdec, Hd, Hc, Hq. cbn [andb].
    split; intros Hl.
    + rewrite bool_decide_eq_true_2 by congruence. cbn. auto.
    + rewrite bool_decide_eq_false_2 by congruence. cbn. auto.
Qed.

Lemma best_card_box_is_reported_witness :
  exists pre best post,
    [Demo.front 0.5; Demo.front 0.9; Demo.front 0.7] = pre ++ best :: post /\
    visible (card_classes Demo.the_detector) 0.15 best = true /\
    Side.detected
      (detect_from_bytes Demo.the_detector
         (Some [Demo.front 0.5; Demo.front 0.9; Demo.front 0.7]) 0.15)
    = true /\
    Side.confidence
      (detect_from_bytes Demo.the_detector
         (Some [Demo.front 0.5; Demo.front 0.9; Demo.front 0.7]) 0.15)
    = conf best /\
    Side.class
      (detect_from_bytes Demo.the_detector
         (Some [Demo.front 0.5; Demo.front 0.9; Demo.front 0.7]) 0.15)
    = Some (label (card_classes Demo.the_detector) best) /\
    (forall b, In b [Demo.front 0.5; Demo.front 0.9; Demo.front 0.7] ->
       visible (card_classes Demo.the_detector) 0.15 b = true ->
       conf b <= conf best) /\
    (forall b, In b pre ->
       visible (card_classes Demo.the_detector) 0.15 b = true ->
       conf b < conf best) /\
    (label (card_classes Demo.the_detector) best = "aadhar_front" ->
       slot_detected
         (process_slot Demo.imdecode Demo.the_detector "aadhar_front"
            "front" (Some "front50front90front70") 0.15) = true /\
       slot_confidence
         (process_slot Demo.imdecode Demo.the_detector "aadhar_front"
            "front" (Some "front50front90front70") 0.15) = conf best) /\
    (label (card_classes Demo.the_detector) best <> "aadhar_front" ->
       slot_detected
         (process_slot Demo.imdecode Demo.the_detector "aadhar_front"
            "front" (Some "front50front90front70") 0.15) = false /\
       slot_confidence
         (process_slot Demo.imdecode Demo.the_detector "aadhar_front"
            "front" (Some "front50front90front70") 0.15) = 0).
Proof.
  apply (best_card_box_is_reported Demo.imdecode Demo.the_detector
           "aadhar_front" "front" "front50front90front70"
           (Some [Demo.front 0.5; Demo.front 0.9; Demo.front 0.7]) 0.15
           [Demo.front 0.5; Demo.front 0.9; Demo.front 0.7]).
  - reflexivity.
  - reflexivity.
  - reflexivity.
  - exists (Demo.front 0.5). split; [now left|].
    split; vm_compute; reflexivity.
Defined.

End SideConfidence.

(** ** The endpoint and the manual review queue *)

Module ReviewQueue.
Import Stateless.



(** C7: one request leaves the review queue as it was, or adds one entry
    on the forced-upload branch, or adds one entry on the low-confidence
    PENDING_REVIEW branch.  A request answered with the security
    violation, and a request whose reported status is REJECTED (nothing
    detected among them), leave the queue unchanged. *)
Theorem review_queue_changes_only_on_review {Image : Type}
    (imdecode : string -> option Image) (app : App Image)
    (request : Request.t) (now : string) :
  ((manual_review_queue (snd (serve imdecode app request now))
    = manual_review_queue app /\
    reported_status (content (fst (serve imdecode app request now)))
    <> Some PENDING_REVIEW)
   \/
   (exists d data,
      detector app = Some d /\
      Request.force_upload request = true /\
      Cards.print_aadhar_detected (detection_result imdecode app d request)
      = false /\
      Cards.front_detected (detection_result imdecode app d request)
      && Cards.back_detected (detection_result imdecode app d request)
      = false /\
      content (fst (serve imdecode app request now))
      = Review PENDING_REVIEW "Document submitted for manual review" data /\
      manual_review_queue (snd (serve imdecode app request now))
      = manual_review_queue app
        ++ [review_item request now (detection_result imdecode app d request)
              "Force upload - bypassed client-side checks"])
   \/
   (exists d detected message data,
      detector app = Some d /\
      Cards.print_aadhar_detected (detection_result imdecode app d request)
      = false /\
      Cards.status (detection_result imdecode app d request)
      = PENDING_REVIEW /\
      content (fst (serve imdecode app request now))
      = Complete detected message data /\
      Data.status data = Some PENDING_REVIEW /\
      manual_review_queue (snd (serve imdecode app request now))
      = manual_review_queue app
        ++ [review_item request now (detection_result imdecode app d request)
              "Low confidence detection"]))
  /\
  (forall message flag,
     content (fst (serve imdecode app request now)) = Violation message flag ->
     manual_review_queue (snd (serve imdecode app request now))
     = manual_review_queue app)
  /\
  (reported_status (content (fst (serve imdecode app request now)))
   = Some REJECTED ->
   manual_review_queue (snd (serve imdecode app request now))
   = manual_review_queue app).
Proof.
  unfold serve, detect_aadhaar_cards_stateless.
  destruct (detector app) as [d|].
  2:{ cbn. split; [left; split; [reflexivity | discriminate]|].
      split; [discriminate | reflexivity]. }
  destruct (negb (str_truthy (Request.front_image request))
            && negb (str_truthy (Request.back_image request))).
  { cbn. split; [left; split; [reflexivity | discriminate]|].
    split; [discriminate | reflexivity]. }
  set (r := detection_result imdecode app d request).
  destruct (Cards.print_aadhar_detected r) eqn:Hprint.
  { cbn. split; [left; split; [reflexivity | discriminate]|].
    split; [reflexivity | reflexivity]. }
  destruct (Request.force_upload request) eqn:Hforce; cbn [andb].
  - destruct (Cards.front_detected r && Cards.back_detected r) eqn:Hboth;
      cbn [negb].
    + destruct (Cards.status r) eqn:Hst; cbn.
      * split; [left; split; [reflexivity | discriminate]|].
        split; [discriminate | reflexivity].
      * split; [left; split; [reflexivity | discriminate]|].
        split; [discriminate | reflexivity].
      * split; [right; right; eauto 12|].
        split; discriminate.
    + cbn. split; [right; left; eauto 12|]. split; discriminate.
  - destruct (Cards.status r) eqn:Hst; cbn.
    + split; [left; split; [reflexivity | discriminate]|].
      split; [discriminate | reflexivity].
    + split; [left; split; [reflexivity | discriminate]|].
      split; [discriminate | reflexivity].
    + split; [right; right; eauto 12|].
      split; discriminate.
Qed.

Lemma review_queue_changes_only_on_review_witness :
  manual_review_queue
    (snd (serve Demo.imdecode (Demo.running Demo.defaults [])
            (Demo.request (Some "blank") None 0.15 false)
            "2024-01-01T00:00:00")) = []
  /\
  manual_review_queue
    (snd (serve Demo.imdecode (Demo.running Demo.defaults [])
            (Demo.request (Some "print40front92") None 0.15 true)
            "2024-01-01T00:00:00")) = [].
Proof.
  split.
  - apply (proj2 (proj2 (review_queue_changes_only_on_review Demo.imdecode
                           (Demo.running Demo.defaults [])
                           (Demo.request (Some "blank") None 0.15 false)
                           "2024-01-01T00:00:00"))).
    vm_compute. reflexivity.
  - apply (proj1 (proj2 (review_queue_changes_only_on_review Demo.imdecode
                           (Demo.running Demo.defaults [])
                           (Demo.request (Some "print40front92") None 0.15
                              true)
                           "2024-01-01T00:00:00"))
             "Print Aadhaar detected - security violation" true).
    vm_compute. reflexivity.
Defined.

End ReviewQueue.

(** ** Startup and the thresholds *)

Module Startup.
Import Stateless.

(** With a low-confidence threshold of 0.5 above the base threshold of
    0.15, startup still puts the detector in place, and the next request
    is served. *)
Lemma inverted_thresholds_start_and_serve :
  CONFIDENCE_THRESHOLD Demo.inverted
  < LOW_CONFIDENCE_THRESHOLD Demo.inverted
  /\ startup_event Demo.host (imported Demo.inverted "models/best4.pt")
     = Some (Demo.running Demo.inverted [])
  /\ reported_status
       (content
          (fst (serve Demo.imdecode (Demo.running Demo.inverted [])
                  (Demo.request (Some "front92") (Some "back88") 0.15 false)
                  "2024-01-01T00:00:00")))
     = Some APPROVED.
Proof.
  split; [vm_compute; reflexivity|].
  split; [reflexivity|]. vm_compute. reflexivity.
Qed.

(** C8, as the code has it: startup does not look at the thresholds.  When
    the model file exists and loads, startup puts the detector in place
    and keeps the settings whatever they are, in particular with a
    low-confidence threshold above the base threshold; startup exits only
    when the model file is missing or loading it raises. *)
Theorem startup_ignores_thresholds {Image : Type} (host : Host Image)
    (app : App Image) :
  (forall m,
     path_exists host (MODEL_PATH app) = true ->
     load_yolo host (MODEL_PATH app) = inr m ->
     startup_event host app
     = Some {| settings := settings app; MODEL_PATH := MODEL_PATH app;
               detector :=
                 Some {| device :=
                           if cuda_is_available host then "cuda" else "cpu";
                         model := m; card_classes := names m |};
               manual_review_queue := manual_review_queue app |})
  /\
  (startup_event host app = None ->
   path_exists host (MODEL_PATH app) = false \/
   exists e, load_yolo host (MODEL_PATH app) = inl e).
Proof.
  unfold startup_event, init. split.
  - intros m He Hl. rewrite He, Hl. reflexivity.
  - destruct (path_exists host (MODEL_PATH app)); [|auto].
    destruct (load_yolo host (MODEL_PATH app)) as [e|m]; [eauto|discriminate].
Qed.

Lemma startup_ignores_thresholds_witness :
  startup_event Demo.host (imported Demo.inverted "models/best4.pt")
  = Some {| settings := Demo.inverted; MODEL_PATH := "models/best4.pt";
            detector :=
              Some {| device := "cpu"; model := Demo.yolo;
                      card_classes := names Demo.yolo |};
            manual_review_queue := [] |}
  /\
  (path_exists Demo.host "models/other.pt" = false \/
   exists e, load_yolo Demo.host "models/other.pt" = inl e).
Proof.
  split.
  - apply (proj1 (startup_ignores_thresholds Demo.host
                    (imported Demo.inverted "models/best4.pt")) Demo.yolo).
    + reflexivity.
    + reflexivity.
  - apply (proj2 (startup_ignores_thresholds Demo.host
                    (imported Demo.inverted "models/other.pt"))).
    reflexivity.
Defined.

End Startup.

(** ** The raw-tensor normalizer *)

Module Normalizer.
Import OnnxDetector.

Lemma fold_max_spec rest : forall s,
  (fold_left (fun m v => if Qltb m v then v else m) rest s = s \/
   In (fold_left (fun m v => if Qltb m v then v else m) rest s) rest) /\
  s <= fold_left (fun m v => if Qltb m v then v else m) rest s /\
  (forall v, In v rest ->
     v <= fold_left (fun m v => if Qltb m v then v else m) rest s).
Proof.
  induction rest as [|a rest IH]; intros s; cbn [fold_left].
  - split; [now left|]. split; [apply Qle_refl | intros v []].
  - destruct (IH (if Qltb s a then a else s)) as (Hin & Hle & Hall).
    destruct (Qltb s a) eqn:E.
    + apply Qltb_lt in E. split; [|split].
      * right. destruct Hin as [-> | Hin]; [now left | now right].
      * eapply Qle_trans; [apply Qlt_le_weak; exact E | exact Hle].
      * intros v [<- | Hv]; auto.
    + apply Qltb_ge in E. split; [|split].
      * destruct Hin as [-> | Hin]; [now left | right; now right].
      * exact Hle.
      * intros v [<- | Hv]; auto. eapply Qle_trans; eauto.
Qed.

(** [max] of a non-empty list is one of its elements and bounds them
    all. *)
Lemma py_max_spec s rest :
  exists m, py_max (s :: rest) = Some m /\ In m (s :: rest) /\
            forall v, In v (s :: rest) -> v <= m.
Proof.
  eexists. split; [reflexivity|].
  destruct (fold_max_spec rest s) as (Hin & Hle & Hall). split.
  - destruct Hin as [-> | Hin]; [now left | now right].
  - intros v [<- | Hv]; auto.
Qed.

(** [index] finds the first position of a value that the list holds. *)
Lemma py_index_spec scores : forall v,
  In v scores ->
  exists k s, py_index scores v = Some k /\ scores !! k = Some s /\ s == v.
Proof.
  induction scores as [|a rest IH]; intros v Hin; [destruct Hin|].
  cbn [py_index]. destruct (Qeq_bool a v) eqn:E.
  - exists 0%nat, a. apply Qeq_bool_iff in E. auto.
  - destruct Hin as [-> | Hin].
    + rewrite Qeq_bool_refl in E. discriminate.
    + destruct (IH v Hin) as (k & s & -> & Hk & Hs).
      exists (S k), s. auto.
Qed.

Section Shaped.
Variable output : ndarray.
Variables batch ch n : nat.
Hypothesis Hshape : shape output = (S batch, ch, n)%nat.
Hypothesis Hch : (7 <= ch)%nat.

Lemma get_inside c i :
  (c < 7)%nat -> (i < n)%nat ->
  get output 0 c i = Some (item output 0 c i).
Proof.
  intros Hc Hi. unfold get. rewrite Hshape.
  assert (H1 : (c <? ch)%nat = true) by (apply Nat.ltb_lt; lia).
  apply Nat.ltb_lt in Hi. now rewrite H1, Hi.
Qed.

Lemma class_scores_inside i :
  (i < n)%nat ->
  class_scores output i
  = Some [item output 0 4 i; item output 0 5 i; item output 0 6 i].
Proof.
  intros Hi. unfold class_scores. cbn [seq mapM].
  rewrite !get_inside by lia. reflexivity.
Qed.

(** Every candidate gets the class whose channel holds its largest class
    score. *)
Lemma best_class_inside i :
  (i < n)%nat ->
  exists k m name,
    best_class output i = Some (k, m) /\
    (k < 3)%nat /\
    CLASS_NAMES !! k = Some name /\
    item output 0 (4 + k) i == m /\
    forall c, (c < 3)%nat -> item output 0 (4 + c) i <= m.
Proof.
  intros Hi. unfold best_class. rewrite (class_scores_inside i Hi).
  destruct (py_max_spec (item output 0 4 i)
              [item output 0 5 i; item output 0 6 i])
    as (m & Hm & Hin & Hall).
  destruct (py_index_spec _ m Hin) as (k & s & Hk & Hlook & Hs).
  cbn [mbind option_bind]. rewrite Hm. cbn [mbind option_bind].
  rewrite Hk. cbn [mbind option_bind].
  assert (Hk3 : (k < 3)%nat) by (apply lookup_lt_Some in Hlook; exact Hlook).
  destruct (CLASS_NAMES !! k) as [name|] eqn:Hname.
  2:{ apply lookup_ge_None in Hname. cbn in Hname. lia. }
  exists k, m, name. split; [reflexivity|]. split; [exact Hk3|].
  split; [exact Hname|]. split.
  - destruct k as [|[|[|k]]]; try lia; cbn in Hlook;
      injection Hlook as <-; exact Hs.
  - intros c Hc. apply Hall.
    destruct c as [|[|[|c]]]; try lia; cbn; auto.
Qed.

(** One turn of the loop, in terms of the candidate's best class. *)
Lemma step_inside (w h : Z) best log i :
  (i < n)%nat ->
  exists k m name box,
    best_class output i = Some (k, m) /\
    CLASS_NAMES !! k = Some name /\
    step output w h (best, log) i
    = Some
        (if Qltb CONFIDENCE_THRESHOLD m && Qltb (confidence best) m
         then {| detected := true; card_type := Some name; confidence := m;
                 bbox := Some box |}
         else best,
         if Qltb 0.1 m
         then log ++ [{| idx := i; class := name; score := m |}]
         else log).
Proof.
  intros Hi.
  destruct (best_class_inside i Hi) as (k & m & name & Hbc & _ & Hname & _).
  exists k, m, name. unfold step.
  pose proof Hbc as Hbest. unfold best_class in Hbc.
  destruct (class_scores output i) as [scores|]; [|discriminate].
  cbn [mbind option_bind] in *.
  destruct (py_max scores) as [m'|]; [|discriminate].
  cbn [mbind option_bind] in *.
  destruct (py_index scores m') as [k'|]; [|discriminate].
  cbn [mbind option_bind] in *.
  injection Hbc as -> ->. rewrite Hname. cbn [mbind option_bind].
  destruct (Qltb CONFIDENCE_THRESHOLD m && Qltb (confidence best) m).
  - rewrite !get_inside by lia. cbn [mbind option_bind].
    eexists. split; [exact Hbest|]. split; reflexivity.
  - exists {| x := 0; y := 0; width := 0; height := 0 |}.
    split; [exact Hbest|]. split; reflexivity.
Qed.

Lemma best_among_step seen best i k m name box :
  best_among output seen best ->
  best_class output i = Some (k, m) ->
  CLASS_NAMES !! k = Some name ->
  best_among output (seen ++ [i])
    (if Qltb CONFIDENCE_THRESHOLD m && Qltb (confidence best) m
     then {| detected := true; card_type := Some name; confidence := m;
             bbox := Some box |}
     else best).
Proof.
  intros Hbest Hbc Hname.
  destruct (Qltb CONFIDENCE_THRESHOLD m) eqn:Ht; cbn [andb];
    [destruct (Qltb (confidence best) m) eqn:Hc|].
  - apply Qltb_lt in Ht, Hc. right. exists i, k, name.
    cbn [confidence detected card_type].
    split; [apply in_or_app; right; now left|].
    repeat split; auto.
    intros j k' m' Hj Hbj. apply in_app_or in Hj as [Hj | [<- | []]].
    + destruct Hbest as [(-> & Hall) | (i0 & k0 & n0 & _ & _ & _ & _ & _ & _ & Hall)].
      * specialize (Hall _ _ _ Hj Hbj). lra.
      * specialize (Hall _ _ _ Hj Hbj). lra.
    + rewrite Hbc in Hbj. injection Hbj as <- <-. lra.
  - apply Qltb_lt in Ht. apply Qltb_ge in Hc.
    destruct Hbest as [(-> & Hall)
                      | (i0 & k0 & n0 & Hin & Hb0 & Ht0 & Hd0 & Hn0 & Hc0 & Hall)].
    + cbn in Hc. unfold CONFIDENCE_THRESHOLD in Ht. exfalso. lra.
    + right. exists i0, k0, n0.
      split; [apply in_or_app; now left|]. repeat split; auto.
      intros j k' m' Hj Hbj. apply in_app_or in Hj as [Hj | [<- | []]].
      * eauto.
      * rewrite Hbc in Hbj. injection Hbj as <- <-. exact Hc.
  - apply Qltb_ge in Ht.
    destruct Hbest as [(-> & Hall)
                      | (i0 & k0 & n0 & Hin & Hb0 & Ht0 & Hd0 & Hn0 & Hc0 & Hall)].
    + left. split; [reflexivity|].
      intros j k' m' Hj Hbj. apply in_app_or in Hj as [Hj | [<- | []]].
      * eauto.
      * rewrite Hbc in Hbj. injection Hbj as <- <-. exact Ht.
    + right. exists i0, k0, n0.
      split; [apply in_or_app; now left|]. repeat split; auto.
      intros j k' m' Hj Hbj. apply in_app_or in Hj as [Hj | [<- | []]].
      * eauto.
      * rewrite Hbc in Hbj. injection Hbj as <- <-. lra.
Qed.

Lemma log_sound_step log i k m name :
  log_sound output log ->
  best_class output i = Some (k, m) ->
  CLASS_NAMES !! k = Some name ->
  log_sound output
    (if Qltb 0.1 m
     then log ++ [{| idx := i; class := name; score := m |}]
     else log).
Proof.
  intros Hlog Hbc Hname. destruct (Qltb 0.1 m); [|exact Hlog].
  intros e He. apply in_app_or in He as [He | [<- | []]]; [auto|].
  exists k. auto.
Qed.

(** The loop returns, and keeps both invariants. *)
Lemma run_inside (w h : Z) candidates : forall seen best log,
  (forall i, In i candidates -> (i < n)%nat) ->
  best_among output seen best ->
  log_sound output log ->
  exists best' log',
    run output w h (best, log) candidates = Some (best', log') /\
    best_among output (seen ++ candidates) best' /\
    log_sound output log'.
Proof.
  induction candidates as [|i rest IH]; intros seen best log Hn Hbest Hlog.
  - exists best, log. rewrite app_nil_r. auto.
  - cbn [run].
    destruct (step_inside w h best log i) as (k & m & name & box & Hbc & Hname & ->).
    { apply Hn. now left. }
    cbn [mbind option_bind].
    destruct (IH (seen ++ [i]) _ _
                (fun j Hj => Hn j (or_intror Hj))
                (best_among_step seen best i k m name box Hbest Hbc Hname)
                (log_sound_step log i k m name Hlog Hbc Hname))
      as (best' & log' & Hrun & Hb' & Hl').
    exists best', log'. rewrite <- app_assoc in Hb'. auto.
Qed.

End Shaped.
(** The synthetic output evaluated: the one candidate above the
    threshold is reported with the name of class 2 and the box scaled to a
    1280 by 720 image. *)
Lemma detect_synthetic_tensor :
  detect Demo.tensor 1280 720
  = Some {| detected := true; card_type := Some "print_aadhaar";
            confidence := 0.9;
            bbox := Some {| x := (320 - 100 / 2) * (1280 / 640);
                            y := (320 - 50 / 2) * (720 / 640);
                            width := 100 * (1280 / 640);
                            height := 50 * (720 / 640) |} |}.
Proof. reflexivity. Qed.

(** An output with five class channels: the one candidate has 0.875 in
    the channel of class 4 (channel 8) and 0.0625 in every other class
    channel.  That score is the largest class score and is above the
    threshold, yet the loop reads channels 4 to 6 only: the candidate is
    given class 0 with score 0.0625 and nothing is detected. *)
Lemma class_four_maximum_is_not_reported :
  shape Scenarios.five_class_tensor = (1, 9, 1)%nat
  /\ item Scenarios.five_class_tensor 0 8 0 = 0.875
  /\ CONFIDENCE_THRESHOLD < item Scenarios.five_class_tensor 0 8 0
  /\ (forall c, (4 <= c < 9)%nat -> c <> 8%nat ->
        item Scenarios.five_class_tensor 0 c 0
        < item Scenarios.five_class_tensor 0 8 0)
  /\ best_class Scenarios.five_class_tensor 0 = Some (0%nat, 0.0625)
  /\ detect Scenarios.five_class_tensor 640 640 = Some no_detection.
Proof.
  split; [reflexivity|]. split; [reflexivity|].
  split; [vm_compute; reflexivity|]. split.
  - intros c Hc Hne.
    do 9 (destruct c as [|c]; [try lia; try (vm_compute; reflexivity)|]).
    lia.
  - split; reflexivity.
Qed.

(** C9, as the code has it: on an output with at least seven channels
    the loop reads the three class channels 4, 5 and 6, those of
    [CLASS_NAMES], and no later channel.  Every candidate is given the
    class, among these three, whose channel holds the largest of its
    three scores; the loop returns, every logged entry carries that class
    and score, and the reported detection is a candidate whose largest
    score over these three channels is above the threshold and is the
    largest of all candidates, with the name of the class that holds it;
    when none is above the threshold nothing is detected.  In
    particular, when one score of these three channels is above the
    threshold and above every other score of these channels in the
    output, the detection carries that channel's class name and that
    score. *)
Theorem first_three_class_channels_decide (output : ndarray)
    (batch ch n : nat) (w h : Z) :
  shape output = (S batch, ch, n)%nat ->
  (7 <= ch)%nat ->
  (forall i, (i < n)%nat ->
     exists k m name,
       best_class output i = Some (k, m) /\
       (k < 3)%nat /\
       CLASS_NAMES !! k = Some name /\
       item output 0 (4 + k) i == m /\
       forall c, (c < 3)%nat -> item output 0 (4 + c) i <= m)
  /\
  exists best log,
    parse output w h = Some (best, log) /\
    detect output w h = Some best /\
    log_sound output log /\
    best_among output (seq 0 n) best /\
    (forall i0 c0 name,
       (i0 < n)%nat -> (c0 < 3)%nat ->
       CLASS_NAMES !! c0 = Some name ->
       CONFIDENCE_THRESHOLD < item output 0 (4 + c0) i0 ->
       (forall j c, (j < n)%nat -> (c < 3)%nat -> (j, c) <> (i0, c0) ->
          item output 0 (4 + c) j < item output 0 (4 + c0) i0) ->
       detected best = true /\
       card_type best = Some name /\
       confidence best == item output 0 (4 + c0) i0).
Proof.
  intros Hshape Hch.
  split; [apply (best_class_inside output batch ch n Hshape Hch)|].
  destruct (run_inside output batch ch n Hshape Hch w h (seq 0 n) []
              no_detection [])
    as (best & log & Hrun & Hbest & Hlog).
  { intros i Hi. apply in_seq in Hi. lia. }
  { left. split; [reflexivity|]. intros j k m []. }
  { intros e []. }
  cbn [app] in Hbest.
  assert (Hparse : parse output w h = Some (best, log)).
  { unfold parse. rewrite Hshape. exact Hrun. }
  exists best, log. split; [exact Hparse|].
  split; [unfold detect; now rewrite Hparse|].
  split; [exact Hlog|]. split; [exact Hbest|].
  intros i0 c0 name Hi0 Hc0 Hname Hthr Hmax.
  destruct (best_class_inside output batch ch n Hshape Hch i0 Hi0)
    as (k0 & m0 & name0 & Hb0 & _ & _ & _ & Hall0).
  assert (Hin0 : In i0 (seq 0 n)) by (apply in_seq; lia).
  destruct Hbest as [(-> & Hall)
                    | (i & k & name' & Hin & Hb & Ht & Hd & Hn & Hc & Hall)].
  - exfalso. specialize (Hall _ _ _ Hin0 Hb0).
    specialize (Hall0 c0 Hc0). lra.
  - apply in_seq in Hin.
    destruct (best_class_inside output batch ch n Hshape Hch i ltac:(lia))
      as (k2 & m2 & name2 & Hb2 & Hk2 & _ & Heq2 & _).
    rewrite Hb in Hb2. injection Hb2 as <- <-.
    specialize (Hall _ _ _ Hin0 Hb0). specialize (Hall0 c0 Hc0).
    destruct (decide ((i, k) = (i0, c0))) as [Heq | Hne].
    + injection Heq as -> ->. rewrite Hname in Hn. injection Hn as <-.
      split; [exact Hd|]. split; [exact Hc|]. symmetry. exact Heq2.
    + exfalso. specialize (Hmax i k ltac:(lia) Hk2 Hne). lra.
Qed.

Lemma first_three_class_channels_decide_witness :
  exists best log,
    parse Scenarios.wide_tensor 1280 720 = Some (best, log) /\
    detect Scenarios.wide_tensor 1280 720 = Some best /\
    detected best = true /\
    card_type best = Some "print_aadhaar" /\
    confidence best == 0.9.
Proof.
  destruct (first_three_class_channels_decide Scenarios.wide_tensor
              0 8 3 1280 720)
    as (_ & best & log & Hparse & Hdetect & _ & _ & Hsynthetic).
  - reflexivity.
  - lia.
  - exists best, log. split; [exact Hparse|]. split; [exact Hdetect|].
    apply (Hsynthetic 1%nat 2%nat "print_aadhaar").
    + lia.
    + lia.
    + reflexivity.
    + vm_compute. reflexivity.
    + intros j c Hj Hc Hne.
      destruct j as [|[|[|j]]]; [| | |lia];
        destruct c as [|[|[|c]]]; try lia;
        try (vm_compute; reflexivity).
      exfalso. apply Hne. reflexivity.
Defined.

End Normalizer.

(** ** More on the scan of one image *)

Module ScanFacts.
Import Stateless.

Lemma scan_box_print cc t r b :
  Side.print_aadhar_detected (scan_box cc t r b)
  = (String.eqb (label cc b) "print_aadhar" && Qltb t (conf b))
    || Side.print_aadhar_detected r.
Proof.
  unfold scan_box, label.
  destruct (Qle_bool t (conf b));
    [destruct (is_card_label _); [destruct (Qltb (Side.confidence r) _)|]|];
    cbn [Side.print_aadhar_detected];
    destruct (String.eqb _ "print_aadhar" && Qltb t (conf b)); reflexivity.
Qed.

Lemma scan_box_log cc t r b :
  Side.all_detections (scan_box cc t r b)
  = Side.all_detections r ++ [Seen (label cc b) (conf b)] /\
  Side.error (scan_box cc t r b) = Side.error r.
Proof.
  unfold scan_box, label.
  destruct (Qle_bool t (conf b));
    [destruct (is_card_label _); [destruct (Qltb (Side.confidence r) _)|]|];
    cbn; auto.
Qed.

Lemma scan_boxes_print cc t boxes : forall r,
  Side.print_aadhar_detected (scan_boxes cc t r boxes)
  = Side.print_aadhar_detected r
    || existsb (fun b => String.eqb (label cc b) "print_aadhar"
                         && Qltb t (conf b)) boxes.
Proof.
  induction boxes as [|b rest IH]; intros r.
  - cbn. now rewrite orb_false_r.
  - change (scan_boxes cc t r (b :: rest))
      with (scan_boxes cc t (scan_box cc t r b) rest).
    rewrite IH, scan_box_print. cbn [existsb].
    destruct (String.eqb _ _ && Qltb t (conf b)),
             (Side.print_aadhar_detected r); reflexivity.
Qed.

Lemma scan_boxes_log cc t boxes : forall r,
  Side.all_detections (scan_boxes cc t r boxes)
  = Side.all_detections r
    ++ map (fun b => Seen (label cc b) (conf b)) boxes /\
  Side.error (scan_boxes cc t r boxes) = Side.error r.
Proof.
  induction boxes as [|b rest IH]; intros r.
  - cbn. now rewrite app_nil_r.
  - change (scan_boxes cc t r (b :: rest))
      with (scan_boxes cc t (scan_box cc t r b) rest).
    destruct (IH (scan_box cc t r b)) as [-> ->].
    destruct (scan_box_log cc t r b) as [-> ->].
    cbn [map]. now rewrite <- app_assoc.
Qed.

Lemma detect_print_iff {Image : Type}
    (d : Detector Image) (image : Image) (t : Q) :
  Side.print_aadhar_detected (detect_from_bytes d image t) = true
  <-> exists boxes b,
        predict (model d) image = inr boxes /\ In b boxes /\
        label (card_classes d) b = "print_aadhar" /\ t < conf b.
Proof.
  unfold detect_from_bytes.
  destruct (predict (model d) image) as [e|boxes].
  - cbn. split; [discriminate | intros (bs & b & H & _); discriminate].
  - rewrite scan_boxes_print. cbn [initial_side Side.print_aadhar_detected orb].
    rewrite existsb_exists. split.
    + intros (b & Hin & Hb). apply andb_true_iff in Hb as [Hl Hc].
      exists boxes, b. apply String.eqb_eq in Hl. apply Qltb_lt in Hc. auto.
    + intros (bs & b & [= <-] & Hin & Hl & Hc). exists b.
      split; [exact Hin|]. apply andb_true_iff.
      split; [now apply String.eqb_eq | now apply Qltb_lt].
Qed.

Lemma detect_log {Image : Type}
    (d : Detector Image) (image : Image) (t : Q) (boxes : list Box) :
  predict (model d) image = inr boxes ->
  Side.all_detections (detect_from_bytes d image t)
  = map (fun b => Seen (label (card_classes d) b) (conf b)) boxes /\
  Side.error (detect_from_bytes d image t) = None.
Proof.
  unfold detect_from_bytes. intros ->.
  destruct (scan_boxes_log (card_classes d) t boxes initial_side)
    as [-> ->]. auto.
Qed.

(** X1: the printed-copy flag of an image is set exactly when one of its
    boxes has the class name [print_aadhar] and a confidence strictly
    above the threshold; a printed-copy box exactly at the threshold does
    not set it. *)
Theorem print_flag_iff_box_above_threshold {Image : Type}
    (d : Detector Image) (image : Image) (t : Q) :
  Side.print_aadhar_detected (detect_from_bytes d image t) = true
  <-> exists boxes b,
        predict (model d) image = inr boxes /\ In b boxes /\
        label (card_classes d) b = "print_aadhar" /\ t < conf b.
Proof.
  unfold detect_from_bytes.
  destruct (predict (model d) image) as [e|boxes].
  - cbn. split; [discriminate | intros (bs & b & H & _); discriminate].
  - rewrite scan_boxes_print.
    cbn [initial_side Side.print_aadhar_detected orb].
    rewrite existsb_exists. split.
    + intros (b & Hin & Hb). apply andb_true_iff in Hb as [Hl Hc].
      exists boxes, b. apply String.eqb_eq in Hl. apply Qltb_lt in Hc. auto.
    + intros (bs & b & [= <-] & Hin & Hl & Hc). exists b.
      split; [exact Hin|]. apply andb_true_iff.
      split; [now apply String.eqb_eq | now apply Qltb_lt].
Qed.

Lemma print_flag_iff_box_above_threshold_witness :
  Side.print_aadhar_detected
    (detect_from_bytes Demo.the_detector
       (Some [Demo.printed 0.40; Demo.front 0.92]) 0.15) = true
  /\ ~ (exists boxes b,
          predict (model Demo.the_detector) (Some [Demo.printed 0.15])
          = inr boxes /\ In b boxes /\
          label (card_classes Demo.the_detector) b = "print_aadhar" /\
          0.15 < conf b).
Proof.
  split.
  - apply (proj2 (print_flag_iff_box_above_threshold Demo.the_detector
                    (Some [Demo.printed 0.40; Demo.front 0.92]) 0.15)).
    exists [Demo.printed 0.40; Demo.front 0.92], (Demo.printed 0.40).
    split; [reflexivity|]. split; [now left|].
    split; vm_compute; reflexivity.
  - intros H.
    apply (proj2 (print_flag_iff_box_above_threshold Demo.the_detector
                    (Some [Demo.printed 0.15]) 0.15)) in H.
    vm_compute in H. discriminate.
Defined.

(** X2: the audit list of an image holds one entry per box, in scan
    order, with the box's class name and confidence, whatever the
    threshold; when the model raises, the result is undetected, unflagged,
    with an empty list and the exception's text. *)
Theorem all_detections_lists_every_box {Image : Type}
    (d : Detector Image) (image : Image) (t : Q) :
  (forall boxes,
     predict (model d) image = inr boxes ->
     Side.all_detections (detect_from_bytes d image t)
     = map (fun b => Seen (label (card_classes d) b) (conf b)) boxes /\
     Side.error (detect_from_bytes d image t) = None)
  /\
  (forall e,
     predict (model d) image = inl e ->
     Side.all_detections (detect_from_bytes d image t) = [] /\
     Side.error (detect_from_bytes d image t) = Some e /\
     Side.detected (detect_from_bytes d image t) = false /\
     Side.print_aadhar_detected (detect_from_bytes d image t) = false).
Proof.
  split.
  - intros boxes. apply detect_log.
  - unfold detect_from_bytes. intros e ->. cbn. auto.
Qed.

Lemma all_detections_lists_every_box_witness :
  Side.all_detections
    (detect_from_bytes Demo.the_detector
       (Some [Demo.front 0.05; {| conf := 0.7; cls := 9 |}]) 0.15)
  = [Seen "aadhar_front" 0.05; Seen "unknown" 0.7]
  /\ Side.error (detect_from_bytes Demo.the_detector None 0.15)
     = Some "inference failed".
Proof.
  split.
  - apply (proj1 (all_detections_lists_every_box Demo.the_detector
                    (Some [Demo.front 0.05; {| conf := 0.7; cls := 9 |}])
                    0.15)
             [Demo.front 0.05; {| conf := 0.7; cls := 9 |}]).
    reflexivity.
  - apply (proj2 (all_detections_lists_every_box Demo.the_detector None 0.15)
             "inference failed").
    reflexivity.
Defined.

(** X3: boxes whose class id the model's names do not know are listed as
    [unknown] and never count: the image is undetected, with confidence
    [0.0] and no printed-copy flag. *)
Theorem unknown_class_ids_never_count {Image : Type}
    (d : Detector Image) (image : Image) (t : Q) (boxes : list Box) :
  predict (model d) image = inr boxes ->
  (forall b, In b boxes -> card_classes d !! cls b = None) ->
  Side.detected (detect_from_bytes d image t) = false /\
  Side.confidence (detect_from_bytes d image t) = 0 /\
  Side.print_aadhar_detected (detect_from_bytes d image t) = false /\
  Side.all_detections (detect_from_bytes d image t)
  = map (fun b => Seen "unknown" (conf b)) boxes.
Proof.
  intros Hp Hall.
  assert (Hl : forall b, In b boxes -> label (card_classes d) b = "unknown").
  { intros b Hb. unfold label. now rewrite (Hall b Hb). }
  destruct (SideConfidence.nothing_visible_undetected d image t boxes Hp)
    as [Hd Hq].
  { intros b Hb. right. now rewrite (Hl b Hb). }
  split; [exact Hd|]. split; [exact Hq|]. split.
  - destruct (Side.print_aadhar_detected (detect_from_bytes d image t)) eqn:E;
      [|reflexivity].
    apply detect_print_iff in E as (bs & b & Hp' & Hin & Hlb & _).
    rewrite Hp in Hp'. injection Hp' as <-.
    rewrite (Hl b Hin) in Hlb. discriminate.
  - destruct (detect_log d image t boxes Hp) as [-> _].
    apply map_ext_in. intros b Hb. now rewrite (Hl b Hb).
Qed.

Lemma unknown_class_ids_never_count_witness :
  Side.detected
    (detect_from_bytes Demo.the_detector
       (Some [{| conf := 0.99; cls := 7 |}]) 0.15) = false /\
  Side.confidence
    (detect_from_bytes Demo.the_detector
       (Some [{| conf := 0.99; cls := 7 |}]) 0.15) = 0 /\
  Side.print_aadhar_detected
    (detect_from_bytes Demo.the_detector
       (Some [{| conf := 0.99; cls := 7 |}]) 0.15) = false /\
  Side.all_detections
    (detect_from_bytes Demo.the_detector
       (Some [{| conf := 0.99; cls := 7 |}]) 0.15)
  = map (fun b => Seen "unknown" (conf b)) [{| conf := 0.99; cls := 7 |}].
Proof.
  apply (unknown_class_ids_never_count Demo.the_detector
           (Some [{| conf := 0.99; cls := 7 |}]) 0.15
           [{| conf := 0.99; cls := 7 |}]).
  - reflexivity.
  - intros b [<- | []]. vm_compute. reflexivity.
Defined.

End ScanFacts.

(** ** Thresholds and scan order in the stateless detector *)

Module ScanOrder.
Import Stateless.

Section Image.
Context {Image : Type}.
Variable d : Detector Image.

(** A detected image: its confidence is that of a visible box with a
    confidence above zero that no visible box exceeds. *)
Lemma detected_best image t :
  Side.detected (detect_from_bytes d image t) = true ->
  exists boxes best,
    predict (model d) image = inr boxes /\ In best boxes /\
    visible (card_classes d) t best = true /\ 0 < conf best /\
    Side.confidence (detect_from_bytes d image t) = conf best /\
    forall b, In b boxes -> visible (card_classes d) t b = true ->
      conf b <= conf best.
Proof.
  intros Hd.
  destruct (StatelessSide.detect_from_bytes_cases d t image)
    as [(Hd' & _) | (pre & best & post & Hp & Hv & Hpos & _ & _ & Hq & Hpre & Hpost)];
    [congruence|].
  exists (pre ++ best :: post), best.
  split; [exact Hp|]. split; [apply in_or_app; right; now left|].
  split; [exact Hv|]. split; [exact Hpos|]. split; [exact Hq|].
  intros b Hin Hvb. apply in_app_or in Hin as [Hin | [<- | Hin]].
  - apply Qlt_le_weak. auto.
  - apply Qle_refl.
  - auto.
Qed.

Lemma undetected_none image t boxes :
  Side.detected (detect_from_bytes d image t) = false ->
  predict (model d) image = inr boxes ->
  forall b, In b boxes -> visible (card_classes d) t b = true -> conf b <= 0.
Proof.
  intros Hd Hp.
  destruct (StatelessSide.detect_from_bytes_cases d t image)
    as [(_ & _ & _ & Hall) | (pre & best & post & _ & _ & _ & Hd' & _)];
    [eauto | congruence].
Qed.

Lemma visible_lower t t' b :
  t <= t' -> visible (card_classes d) t' b = true ->
  visible (card_classes d) t b = true.
Proof.
  unfold visible. intros Hle H. apply andb_true_iff in H as [Hc Hl].
  apply andb_true_iff. split; [|exact Hl].
  apply Qle_bool_iff in Hc. apply Qle_bool_iff. eapply Qle_trans; eauto.
Qed.

(** X4: lowering the threshold never loses a detection: an image
    detected with threshold [t'] is detected with every [t <= t'], with a
    confidence at least as large. *)
Theorem lower_threshold_keeps_detection (image : Image) (t t' : Q) :
  t <= t' ->
  Side.detected (detect_from_bytes d image t') = true ->
  Side.detected (detect_from_bytes d image t) = true /\
  Side.confidence (detect_from_bytes d image t')
  <= Side.confidence (detect_from_bytes d image t).
Proof.
  intros Hle Hd'.
  destruct (detected_best image t' Hd')
    as (boxes & best' & Hp & Hin' & Hv' & Hpos' & Hq' & _).
  pose proof (visible_lower t t' best' Hle Hv') as Hv.
  destruct (Side.detected (detect_from_bytes d image t)) eqn:Hd.
  - split; [reflexivity|].
    destruct (detected_best image t Hd)
      as (boxes2 & best & Hp2 & _ & _ & _ & Hq & Hall).
    rewrite Hp in Hp2. injection Hp2 as <-.
    rewrite Hq', Hq. auto.
  - exfalso. pose proof (undetected_none image t boxes Hd Hp best' Hin' Hv).
    lra.
Qed.

(** A detected image carries the label of a visible box whose confidence
    is the one reported. *)
Lemma detected_best_class image t :
  Side.detected (detect_from_bytes d image t) = true ->
  exists boxes best,
    predict (model d) image = inr boxes /\ In best boxes /\
    visible (card_classes d) t best = true /\
    Side.confidence (detect_from_bytes d image t) = conf best /\
    Side.class (detect_from_bytes d image t)
    = Some (label (card_classes d) best).
Proof.
  intros Hd.
  destruct (StatelessSide.detect_from_bytes_cases d t image)
    as [(Hd' & _) | (pre & best & post & Hp & Hv & _ & _ & Hc & Hq & _)];
    [congruence|].
  exists (pre ++ best :: post), best.
  split; [exact Hp|]. split; [apply in_or_app; right; now left|]. auto.
Qed.

Lemma undetected_no_class image t :
  Side.detected (detect_from_bytes d image t) = false ->
  Side.class (detect_from_bytes d image t) = None.
Proof.
  intros Hd.
  destruct (StatelessSide.detect_from_bytes_cases d t image)
    as [(_ & Hc & _) | (pre & best & post & _ & _ & _ & Hd' & _)];
    [exact Hc | congruence].
Qed.

(** X5: the order of the boxes matters only on ties.  Two images whose
    boxes are permutations of each other agree on [detected] and on the
    printed-copy flag, and their confidences are equal as numbers.  They
    agree on the matched class as well, provided no two visible boxes
    with different card labels have equal confidences; on such a tie the
    box scanned first gives the class, so the class can differ. *)
Theorem box_order_matters_only_on_ties (image image' : Image) (t : Q)
    (boxes boxes' : list Box) :
  predict (model d) image = inr boxes ->
  predict (model d) image' = inr boxes' ->
  Permutation boxes boxes' ->
  Side.detected (detect_from_bytes d image t)
  = Side.detected (detect_from_bytes d image' t) /\
  Side.confidence (detect_from_bytes d image t)
  == Side.confidence (detect_from_bytes d image' t) /\
  Side.print_aadhar_detected (detect_from_bytes d image t)
  = Side.print_aadhar_detected (detect_from_bytes d image' t) /\
  ((forall b1 b2,
      In b1 boxes -> In b2 boxes ->
      visible (card_classes d) t b1 = true ->
      visible (card_classes d) t b2 = true ->
      conf b1 == conf b2 ->
      label (card_classes d) b1 = label (card_classes d) b2) ->
   Side.class (detect_from_bytes d image t)
   = Side.class (detect_from_bytes d image' t)).
Proof.
  intros Hp Hp' Hperm.
  assert (Hfirst :
    Side.detected (detect_from_bytes d image t)
    = Side.detected (detect_from_bytes d image' t) /\
    Side.confidence (detect_from_bytes d image t)
    == Side.confidence (detect_from_bytes d image' t) /\
    Side.print_aadhar_detected (detect_from_bytes d image t)
    = Side.print_aadhar_detected (detect_from_bytes d image' t)).
  {
    assert (Hsym : Permutation boxes' boxes) by now symmetry.
    split; [|split].
    - destruct (Side.detected (detect_from_bytes d image t)) eqn:H1,
               (Side.detected (detect_from_bytes d image' t)) eqn:H2;
        try reflexivity; exfalso.
      + destruct (detected_best image t H1)
          as (bs & best & Hpb & Hin & Hv & Hpos & _).
        rewrite Hp in Hpb. injection Hpb as <-.
        pose proof (undetected_none image' t boxes' H2 Hp' best
                      (Permutation_in _ Hperm Hin) Hv). lra.
      + destruct (detected_best image' t H2)
          as (bs & best & Hpb & Hin & Hv & Hpos & _).
        rewrite Hp' in Hpb. injection Hpb as <-.
        pose proof (undetected_none image t boxes H1 Hp best
                      (Permutation_in _ Hsym Hin) Hv). lra.
    - destruct (Side.detected (detect_from_bytes d image t)) eqn:H1,
               (Side.detected (detect_from_bytes d image' t)) eqn:H2.
      + destruct (detected_best image t H1)
          as (bs & best & Hpb & Hin & Hv & _ & Hq & Hall).
        rewrite Hp in Hpb. injection Hpb as <-.
        destruct (detected_best image' t H2)
          as (bs' & best' & Hpb' & Hin' & Hv' & _ & Hq' & Hall').
        rewrite Hp' in Hpb'. injection Hpb' as <-.
        rewrite Hq, Hq'. apply Qle_antisym.
        * apply Hall'; [exact (Permutation_in _ Hperm Hin) | exact Hv].
        * apply Hall; [exact (Permutation_in _ Hsym Hin') | exact Hv'].
      + exfalso.
        destruct (detected_best image t H1)
          as (bs & best & Hpb & Hin & Hv & Hpos & _).
        rewrite Hp in Hpb. injection Hpb as <-.
        pose proof (undetected_none image' t boxes' H2 Hp' best
                      (Permutation_in _ Hperm Hin) Hv). lra.
      + exfalso.
        destruct (detected_best image' t H2)
          as (bs & best & Hpb & Hin & Hv & Hpos & _).
        rewrite Hp' in Hpb. injection Hpb as <-.
        pose proof (undetected_none image t boxes H1 Hp best
                      (Permutation_in _ Hsym Hin) Hv). lra.
      + destruct (StatelessSide.detect_from_bytes_inv d t image)
          as [(_ & ->) | (Hx & _)]; [|congruence].
        destruct (StatelessSide.detect_from_bytes_inv d t image')
          as [(_ & ->) | (Hx & _)]; [|congruence].
        reflexivity.
    - apply eq_true_iff_eq. rewrite !ScanFacts.detect_print_iff. split.
      + intros (bs & b & Hpb & Hin & Hl & Hc).
        rewrite Hp in Hpb. injection Hpb as <-.
        exists boxes', b. split; [exact Hp'|].
        split; [exact (Permutation_in _ Hperm Hin) | auto].
      + intros (bs & b & Hpb & Hin & Hl & Hc).
        rewrite Hp' in Hpb. injection Hpb as <-.
        exists boxes, b. split; [exact Hp|].
        split; [exact (Permutation_in _ Hsym Hin) | auto].
  }
  destruct Hfirst as (Hdet & Hconf & Hprint).
  split; [exact Hdet|]. split; [exact Hconf|]. split; [exact Hprint|].
  intros Hnotie.
  destruct (Side.detected (detect_from_bytes d image t)) eqn:H1.
  - symmetry in Hdet.
    destruct (detected_best_class image t H1)
      as (bs & best & Hpb & Hin & Hv & Hq & Hc).
    rewrite Hp in Hpb. injection Hpb as <-.
    destruct (detected_best_class image' t Hdet)
      as (bs' & best' & Hpb' & Hin' & Hv' & Hq' & Hc').
    rewrite Hp' in Hpb'. injection Hpb' as <-.
    rewrite Hc, Hc'. f_equal. apply Hnotie; auto.
    + apply (Permutation_in _ (Permutation_sym Hperm)). exact Hin'.
    + rewrite <- Hq, <- Hq'. exact Hconf.
  - symmetry in Hdet.
    rewrite (undetected_no_class image t H1).
    now rewrite (undetected_no_class image' t Hdet).
Qed.

End Image.

Lemma lower_threshold_keeps_detection_witness :
  Side.detected
    (detect_from_bytes Demo.the_detector
       (Some [Demo.front 0.2; Demo.back 0.12]) 0.10) = true /\
  Side.confidence
    (detect_from_bytes Demo.the_detector
       (Some [Demo.front 0.2; Demo.back 0.12]) 0.15)
  <= Side.confidence
       (detect_from_bytes Demo.the_detector
          (Some [Demo.front 0.2; Demo.back 0.12]) 0.10).
Proof.
  apply (lower_threshold_keeps_detection Demo.the_detector
           (Some [Demo.front 0.2; Demo.back 0.12]) 0.10 0.15).
  - vm_compute. discriminate.
  - vm_compute. reflexivity.
Defined.

Lemma box_order_matters_only_on_ties_witness :
  Side.detected
    (detect_from_bytes Demo.the_detector
       (Some [Demo.front 0.5; Demo.back 0.75]) 0.15)
  = Side.detected
      (detect_from_bytes Demo.the_detector
         (Some [Demo.back 0.75; Demo.front 0.5]) 0.15) /\
  Side.confidence
    (detect_from_bytes Demo.the_detector
       (Some [Demo.front 0.5; Demo.back 0.75]) 0.15)
  == Side.confidence
       (detect_from_bytes Demo.the_detector
          (Some [Demo.back 0.75; Demo.front 0.5]) 0.15) /\
  Side.print_aadhar_detected
    (detect_from_bytes Demo.the_detector
       (Some [Demo.front 0.5; Demo.back 0.75]) 0.15)
  = Side.print_aadhar_detected
      (detect_from_bytes Demo.the_detector
         (Some [Demo.back 0.75; Demo.front 0.5]) 0.15) /\
  Side.class
    (detect_from_bytes Demo.the_detector
       (Some [Demo.front 0.5; Demo.back 0.75]) 0.15)
  = Side.class
      (detect_from_bytes Demo.the_detector
         (Some [Demo.back 0.75; Demo.front 0.5]) 0.15).
Proof.
  destruct (box_order_matters_only_on_ties Demo.the_detector
              (Some [Demo.front 0.5; Demo.back 0.75])
              (Some [Demo.back 0.75; Demo.front 0.5]) 0.15
              [Demo.front 0.5; Demo.back 0.75]
              [Demo.back 0.75; Demo.front 0.5])
    as (H1 & H2 & H3 & H4).
  - reflexivity.
  - reflexivity.
  - apply perm_swap.
  - split; [exact H1|]. split; [exact H2|]. split; [exact H3|].
    apply H4.
    intros b1 b2 [<- | [<- | []]] [<- | [<- | []]] _ _ Heq;
      try reflexivity; vm_compute in Heq; discriminate.
Defined.

(** On a tie between the two labels the order does count: with a front
    and a back box both at 0.5 the class is that of the box scanned
    first, so the front slot is detected in one order and not in the
    other. *)
Lemma tie_goes_to_the_first_scanned_label :
  Side.class
    (detect_from_bytes Demo.the_detector
       (Some [Demo.front 0.5; Demo.back 0.5]) 0.15) = Some "aadhar_front"
  /\
  Side.class
    (detect_from_bytes Demo.the_detector
       (Some [Demo.back 0.5; Demo.front 0.5]) 0.15) = Some "aadhar_back".
Proof. split; vm_compute; reflexivity. Qed.

End ScanOrder.

(** ** The whole decision table of the stateless engine *)

Module DecisionTable.
Import Stateless.

Section Engine.
Context {Image : Type} (imdecode : string -> option Image).
Variable cfg : Settings.
Variable d : Detector Image.
Variables front_base64 back_base64 : option string.
Variable t : Q.

(** When the status is PENDING_REVIEW: no fraud signal, and a detected
    side below the low-confidence threshold. *)
Lemma pending_iff :
  Cards.status
    (detect_cards_from_base64 imdecode cfg d front_base64 back_base64 t)
  = PENDING_REVIEW
  <->
  Cards.print_aadhar_detected
    (detect_cards_from_base64 imdecode cfg d front_base64 back_base64 t)
  = false /\
  ((Cards.front_detected
      (detect_cards_from_base64 imdecode cfg d front_base64 back_base64 t)
    = true /\
    Cards.front_confidence
      (detect_cards_from_base64 imdecode cfg d front_base64 back_base64 t)
    < LOW_CONFIDENCE_THRESHOLD cfg)
   \/
   (Cards.back_detected
      (detect_cards_from_base64 imdecode cfg d front_base64 back_base64 t)
    = true /\
    Cards.back_confidence
      (detect_cards_from_base64 imdecode cfg d front_base64 back_base64 t)
    < LOW_CONFIDENCE_THRESHOLD cfg)).
Proof.
  unfold detect_cards_from_base64.
  cbn [Cards.status Cards.front_detected Cards.back_detected
       Cards.front_confidence Cards.back_confidence
       Cards.print_aadhar_detected].
  unfold determine_status.
  destruct (slot_print _ || slot_print _).
  { split; [discriminate | intros [H _]; discriminate]. }
  destruct (StatelessSide.process_slot_inv imdecode d t
              "aadhar_front" "front" front_base64)
    as [(Hf & Hfc) | (Hf & _ & Hfpos)];
  destruct (StatelessSide.process_slot_inv imdecode d t
              "aadhar_back" "back" back_base64)
    as [(Hb & Hbc) | (Hb & _ & Hbpos)];
  rewrite Hf, Hb; cbn [andb orb].
  - split; [discriminate | intros (_ & [[H _] | [H _]]); discriminate].
  - rewrite Hfc, Qor_zero.
    destruct (Qltb _ (LOW_CONFIDENCE_THRESHOLD cfg)) eqn:E.
    + apply Qltb_lt in E. split; auto.
    + apply Qltb_ge in E. split; [discriminate|].
      intros (_ & [[H _] | [_ H]]); [discriminate | exfalso; lra].
  - rewrite (Qor_pos _ _ Hfpos).
    destruct (Qltb _ (LOW_CONFIDENCE_THRESHOLD cfg)) eqn:E.
    + apply Qltb_lt in E. split; auto.
    + apply Qltb_ge in E. split; [discriminate|].
      intros (_ & [[_ H] | [H _]]); [exfalso; lra | discriminate].
  - destruct (Qltb (slot_confidence (process_slot imdecode d "aadhar_front"
                                       "front" front_base64 t))
                (LOW_CONFIDENCE_THRESHOLD cfg)) eqn:Ef;
    destruct (Qltb (slot_confidence (process_slot imdecode d "aadhar_back"
                                       "back" back_base64 t))
                (LOW_CONFIDENCE_THRESHOLD cfg)) eqn:Eb;
    cbn [orb];
    try apply Qltb_lt in Ef; try apply Qltb_lt in Eb;
    try apply Qltb_ge in Ef; try apply Qltb_ge in Eb.
    + split; auto.
    + split; auto.
    + split; auto.
    + split; [discriminate|].
      intros (_ & [[_ H] | [_ H]]); exfalso; lra.
Qed.

Lemma approved_iff :
  Cards.status
    (detect_cards_from_base64 imdecode cfg d front_base64 back_base64 t)
  = APPROVED
  <->
  Cards.print_aadhar_detected
    (detect_cards_from_base64 imdecode cfg d front_base64 back_base64 t)
  = false /\
  Cards.front_detected
    (detect_cards_from_base64 imdecode cfg d front_base64 back_base64 t)
  = true /\
  Cards.back_detected
    (detect_cards_from_base64 imdecode cfg d front_base64 back_base64 t)
  = true /\
  LOW_CONFIDENCE_THRESHOLD cfg
  <= Cards.front_confidence
       (detect_cards_from_base64 imdecode cfg d front_base64 back_base64 t)
  /\
  LOW_CONFIDENCE_THRESHOLD cfg
  <= Cards.back_confidence
       (detect_cards_from_base64 imdecode cfg d front_base64 back_base64 t).
Proof.
  split.
  - unfold detect_cards_from_base64.
    cbn [Cards.status Cards.front_detected Cards.back_detected
         Cards.front_confidence Cards.back_confidence
         Cards.print_aadhar_detected].
    intros H. apply Decision.determine_status_approved in H. tauto.
  - unfold detect_cards_from_base64.
    cbn [Cards.status Cards.front_detected Cards.back_detected
         Cards.front_confidence Cards.back_confidence
         Cards.print_aadhar_detected].
    intros (-> & -> & -> & Hf & Hb). unfold determine_status. cbn [andb].
    apply Qltb_ge in Hf, Hb. now rewrite Hf, Hb.
Qed.

(** X6: the status is APPROVED exactly when no fraud signal fired, both
    sides are detected and both confidences reach the low-confidence
    threshold; it is PENDING_REVIEW exactly when no fraud signal fired
    and a detected side is below that threshold; in every other case it
    is REJECTED. *)
Theorem status_decision_table :
  (Cards.status
     (detect_cards_from_base64 imdecode cfg d front_base64 back_base64 t)
   = APPROVED
   <->
   Cards.print_aadhar_detected
     (detect_cards_from_base64 imdecode cfg d front_base64 back_base64 t)
   = false /\
   Cards.front_detected
     (detect_cards_from_base64 imdecode cfg d front_base64 back_base64 t)
   = true /\
   Cards.back_detected
     (detect_cards_from_base64 imdecode cfg d front_base64 back_base64 t)
   = true /\
   LOW_CONFIDENCE_THRESHOLD cfg
   <= Cards.front_confidence
        (detect_cards_from_base64 imdecode cfg d front_base64 back_base64 t)
   /\
   LOW_CONFIDENCE_THRESHOLD cfg
   <= Cards.back_confidence
        (detect_cards_from_base64 imdecode cfg d front_base64 back_base64 t))
  /\
  (Cards.status
     (detect_cards_from_base64 imdecode cfg d front_base64 back_base64 t)
   = PENDING_REVIEW
   <->
   Cards.print_aadhar_detected
     (detect_cards_from_base64 imdecode cfg d front_base64 back_base64 t)
   = false /\
   ((Cards.front_detected
       (detect_cards_from_base64 imdecode cfg d front_base64 back_base64 t)
     = true /\
     Cards.front_confidence
       (detect_cards_from_base64 imdecode cfg d front_base64 back_base64 t)
     < LOW_CONFIDENCE_THRESHOLD cfg)
    \/
    (Cards.back_detected
       (detect_cards_from_base64 imdecode cfg d front_base64 back_base64 t)
     = true /\
     Cards.back_confidence
       (detect_cards_from_base64 imdecode cfg d front_base64 back_base64 t)
     < LOW_CONFIDENCE_THRESHOLD cfg))).
Proof.
  split; [|apply pending_iff].
  unfold detect_cards_from_base64.
  cbn [Cards.status Cards.front_detected Cards.back_detected
       Cards.front_confidence Cards.back_confidence
       Cards.print_aadhar_detected].
  split.
  - intros H. apply Decision.determine_status_approved in H. tauto.
  - intros (-> & -> & -> & Hf & Hb). unfold determine_status. cbn [andb].
    apply Qltb_ge in Hf, Hb. now rewrite Hf, Hb.
Qed.

(** X7: when the low-confidence threshold is not above the threshold of
    the detection, the engine never answers PENDING_REVIEW: every
    detected side already reaches the detection threshold.  The status is
    then APPROVED exactly when both sides are detected without a fraud
    signal, and REJECTED otherwise. *)
Theorem no_pending_review_unless_threshold_below_low :
  LOW_CONFIDENCE_THRESHOLD cfg <= t ->
  Cards.status
    (detect_cards_from_base64 imdecode cfg d front_base64 back_base64 t)
  <> PENDING_REVIEW
  /\
  (Cards.status
     (detect_cards_from_base64 imdecode cfg d front_base64 back_base64 t)
   = APPROVED
   <->
   Cards.print_aadhar_detected
     (detect_cards_from_base64 imdecode cfg d front_base64 back_base64 t)
   = false /\
   Cards.front_detected
     (detect_cards_from_base64 imdecode cfg d front_base64 back_base64 t)
   = true /\
   Cards.back_detected
     (detect_cards_from_base64 imdecode cfg d front_base64 back_base64 t)
   = true).
Proof.
  intros Hlow.
  assert (Hf :
    Cards.front_detected
      (detect_cards_from_base64 imdecode cfg d front_base64 back_base64 t)
    = true ->
    t <= Cards.front_confidence
           (detect_cards_from_base64 imdecode cfg d front_base64
              back_base64 t)).
  { unfold detect_cards_from_base64.
    cbn [Cards.front_detected Cards.front_confidence]. intros H.
    destruct (StatelessSide.process_slot_inv imdecode d t
                "aadhar_front" "front" front_base64)
      as [(Hd & _) | (_ & Hle & _)]; [congruence | exact Hle]. }
  assert (Hb :
    Cards.back_detected
      (detect_cards_from_base64 imdecode cfg d front_base64 back_base64 t)
    = true ->
    t <= Cards.back_confidence
           (detect_cards_from_base64 imdecode cfg d front_base64
              back_base64 t)).
  { unfold detect_cards_from_base64.
    cbn [Cards.back_detected Cards.back_confidence]. intros H.
    destruct (StatelessSide.process_slot_inv imdecode d t
                "aadhar_back" "back" back_base64)
      as [(Hd & _) | (_ & Hle & _)]; [congruence | exact Hle]. }
  split.
  - intros H. apply pending_iff in H as (_ & [[H1 H2] | [H1 H2]]).
    + specialize (Hf H1). lra.
    + specialize (Hb H1). lra.
  - rewrite approved_iff. split.
    + tauto.
    + intros (Hp & H1 & H2). specialize (Hf H1). specialize (Hb H2).
      repeat split; auto; lra.
Qed.

End Engine.

Lemma status_decision_table_witness :
  Cards.status
    (detect_cards_from_base64 Demo.imdecode Demo.defaults Demo.the_detector
       (Some "front92") (Some "back88") 0.15) = APPROVED
  /\
  Cards.status
    (detect_cards_from_base64 Demo.imdecode Demo.defaults Demo.the_detector
       (Some "front92") (Some "back08") 0.05) = PENDING_REVIEW.
Proof.
  split.
  - apply (proj2 (proj1 (status_decision_table Demo.imdecode Demo.defaults
                           Demo.the_detector (Some "front92")
                           (Some "back88") 0.15))).
    repeat split; vm_compute; try reflexivity; discriminate.
  - apply (proj2 (proj2 (status_decision_table Demo.imdecode Demo.defaults
                           Demo.the_detector (Some "front92")
                           (Some "back08") 0.05))).
    split; [vm_compute; reflexivity|]. right.
    split; vm_compute; reflexivity.
Defined.

Lemma no_pending_review_unless_threshold_below_low_witness :
  Cards.status
    (detect_cards_from_base64 Demo.imdecode Demo.defaults Demo.the_detector
       (Some "front92") (Some "back08") 0.15)
  <> PENDING_REVIEW.
Proof.
  apply (no_pending_review_unless_threshold_below_low Demo.imdecode
           Demo.defaults Demo.the_detector (Some "front92") (Some "back08")
           0.15).
  vm_compute. discriminate.
Defined.

End DecisionTable.

(** ** The responses of the stateless handler *)

Module HandlerFacts.
Import Stateless.

Section Handler.
Context {Image : Type} (imdecode : string -> option Image).

(** A slot is detected only for an image that was supplied. *)
Lemma slot_detected_supplied (d : Detector Image) expected side
    image_base64 t :
  slot_detected (process_slot imdecode d expected side image_base64 t)
  = true ->
  exists s, image_base64 = Some s /\ str_truthy (Some s) = true.
Proof.
  unfold process_slot. destruct image_base64 as [[|c s]|]; try discriminate.
  intros _. exists (String c s). auto.
Qed.

(** The ordinary 200 response, spelled out. *)
Lemma complete_response (app : App Image) (request : Request.t)
    (now : string) detected message data :
  content (fst (serve imdecode app request now))
  = Complete detected message data ->
  exists d,
    detector app = Some d /\
    str_truthy (Request.front_image request)
    || str_truthy (Request.back_image request) = true /\
    detected
    = Cards.front_detected (detection_result imdecode app d request)
      || Cards.back_detected (detection_result imdecode app d request) /\
    message
    = compose_message
        (Cards.front_detected (detection_result imdecode app d request))
        (Cards.back_detected (detection_result imdecode app d request))
        request /\
    Data.front_detected data
    = Cards.front_detected (detection_result imdecode app d request) /\
    Data.back_detected data
    = Cards.back_detected (detection_result imdecode app d request) /\
    Data.both_detected data
    = both_provided_and_detected
        (Cards.front_detected (detection_result imdecode app d request))
        (Cards.back_detected (detection_result imdecode app d request))
        request.
Proof.
  unfold serve, detect_aadhaar_cards_stateless.
  destruct (detector app) as [d|]; [|discriminate].
  destruct (str_truthy (Request.front_image request)) eqn:Hf,
           (str_truthy (Request.back_image request)) eqn:Hb;
    cbn [negb andb orb]; try discriminate;
    (destruct (Cards.print_aadhar_detected _); [discriminate|]);
    (destruct (Request.force_upload request && _); [discriminate|]);
    cbn [fst content]; intros [= <- <- <-]; exists d; cbn; auto 10.
Qed.

(** X8: the message of the ordinary 200 response tells the outcome and
    is one of six texts: both cards, the front card or the back card
    detected, or could not detect followed by exactly the supplied sides.
    The texts "Detection complete." and "No Aadhaar card detected in the
    provided image(s)." never reach a caller. *)
Theorem message_names_the_outcome (app : App Image) (request : Request.t)
    (now : string) (detected : bool) (message : string) (data : Data.t) :
  content (fst (serve imdecode app request now))
  = Complete detected message data ->
  detected = Data.front_detected data || Data.back_detected data /\
  ((Data.front_detected data = true /\ Data.back_detected data = true /\
    message = "Both Aadhaar cards detected successfully.")
   \/
   (Data.front_detected data = true /\ Data.back_detected data = false /\
    message = "Aadhaar front card detected successfully.")
   \/
   (Data.front_detected data = false /\ Data.back_detected data = true /\
    message = "Aadhaar back card detected successfully.")
   \/
   (Data.front_detected data = false /\ Data.back_detected data = false /\
    ((str_truthy (Request.front_image request) = true /\
      str_truthy (Request.back_image request) = false /\
      message = "Could not detect Aadhaar card(s): front.")
     \/
     (str_truthy (Request.front_image request) = false /\
      str_truthy (Request.back_image request) = true /\
      message = "Could not detect Aadhaar card(s): back.")
     \/
     (str_truthy (Request.front_image request) = true /\
      str_truthy (Request.back_image request) = true /\
      message = "Could not detect Aadhaar card(s): front, back.")))).
Proof.
  intros H.
  destruct (complete_response app request now detected message data H)
    as (d & Hd & Himg & -> & -> & Hfd & Hbd & _).
  rewrite Hfd, Hbd. split; [reflexivity|].
  unfold detection_result, detect_cards_from_base64.
  cbn [Cards.front_detected Cards.back_detected].
  destruct (slot_detected (process_slot imdecode d "aadhar_front" "front"
                             (Request.front_image request)
                             (Request.confidence_threshold request))) eqn:Ef;
  destruct (slot_detected (process_slot imdecode d "aadhar_back" "back"
                             (Request.back_image request)
                             (Request.confidence_threshold request))) eqn:Eb.
  - left. apply slot_detected_supplied in Ef as (sf & Hsf & Htf).
    apply slot_detected_supplied in Eb as (sb & Hsb & Htb).
    unfold compose_message, both_provided_and_detected.
    rewrite Hsf, Hsb, Htf. cbn [negb py_of_str py_truthy]. rewrite Htb. auto.
  - right. left. auto.
  - right. right. left. auto.
  - right. right. right. split; [reflexivity|]. split; [reflexivity|].
    unfold compose_message. cbn [both_provided_and_detected negb py_truthy].
    destruct (str_truthy (Request.front_image request)),
             (str_truthy (Request.back_image request));
      cbn in *; auto 10. discriminate.
Qed.

(** X9: in the ordinary 200 response, when both sides are detected the
    field [both_detected] is not a boolean: the [and] chain ends in
    [request.back_image], so the field is the back image's base64 text.
    In every other case it is [False]. *)
Theorem both_detected_carries_back_image (app : App Image)
    (request : Request.t) (now : string) (detected : bool)
    (message : string) (data : Data.t) :
  content (fst (serve imdecode app request now))
  = Complete detected message data ->
  (Data.front_detected data = true -> Data.back_detected data = true ->
   exists s, Request.back_image request = Some s /\
             Data.both_detected data = PyStr s)
  /\
  (Data.front_detected data = false \/ Data.back_detected data = false ->
   Data.both_detected data = PyBool false).
Proof.
  intros H.
  destruct (complete_response app request now detected message data H)
    as (d & Hd & Himg & _ & _ & Hfd & Hbd & ->).
  rewrite Hfd, Hbd. split.
  - intros Ef Eb. rewrite Ef, Eb.
    unfold detection_result, detect_cards_from_base64 in Ef, Eb.
    cbn [Cards.front_detected Cards.back_detected] in Ef, Eb.
    apply slot_detected_supplied in Ef as (sf & Hsf & Htf).
    apply slot_detected_supplied in Eb as (sb & Hsb & Htb).
    exists sb. split; [exact Hsb|].
    unfold both_provided_and_detected. rewrite Hsf, Hsb, Htf. reflexivity.
  - intros [-> | ->]; unfold both_provided_and_detected; cbn [negb].
    + reflexivity.
    + destruct (Cards.front_detected _); reflexivity.
Qed.

End Handler.

Lemma message_names_the_outcome_witness :
  exists message,
    content
      (fst (serve Demo.imdecode (Demo.running Demo.defaults [])
              (Demo.request (Some "blank") (Some "back88") 0.15 false)
              "2024-01-01T00:00:00"))
    = Complete true message
        {| Data.user_id := "u1"; Data.front_detected := false;
           Data.back_detected := true; Data.front_confidence := 0;
           Data.back_confidence := 0.88; Data.both_detected := PyBool false;
           Data.status := Some REJECTED;
           Data.details := Some ([], [Seen "aadhar_back" 0.88]) |}
    /\ message = "Aadhaar back card detected successfully.".
Proof.
  eexists. split; [reflexivity|].
  destruct (message_names_the_outcome Demo.imdecode
              (Demo.running Demo.defaults [])
              (Demo.request (Some "blank") (Some "back88") 0.15 false)
              "2024-01-01T00:00:00" _ _ _ eq_refl)
    as (_ & [(H & _) | [(H & _) | [(_ & _ & H) | (_ & H & _)]]]);
    [discriminate | discriminate | exact H | discriminate].
Defined.

Lemma both_detected_carries_back_image_witness :
  exists s,
    Request.back_image
      (Demo.request (Some "front92") (Some "back88") 0.15 false) = Some s /\
    Data.both_detected
      {| Data.user_id := "u1"; Data.front_detected := true;
         Data.back_detected := true; Data.front_confidence := 0.92;
         Data.back_confidence := 0.88; Data.both_detected := PyStr "back88";
         Data.status := Some APPROVED;
         Data.details :=
           Some ([Seen "aadhar_front" 0.92], [Seen "aadhar_back" 0.88]) |}
    = PyStr s.
Proof.
  apply (proj1 (both_detected_carries_back_image Demo.imdecode
                  (Demo.running Demo.defaults [])
                  (Demo.request (Some "front92") (Some "back88") 0.15 false)
                  "2024-01-01T00:00:00" true
                  "Both Aadhaar cards detected successfully."
                  _ eq_refl)); reflexivity.
Defined.

End HandlerFacts.

(** ** Decoding, the queue over many requests, health and tokens *)

Module ApiFacts.
Import Stateless StatelessApi.

Lemma append_cons c p q :
  (String c p ++ q)%string = String c (p ++ q)%string.
Proof. reflexivity. Qed.

Lemma append_nil q : (EmptyString ++ q)%string = q.
Proof. reflexivity. Qed.

Lemma has_comma_app_comma p q : has_comma (p ++ String "," q)%string = true.
Proof.
  induction p as [|c p IH].
  - rewrite append_nil. reflexivity.
  - rewrite append_cons. cbn [has_comma].
    destruct (Ascii.eqb c ","); auto.
Qed.

Lemma after_comma_app p q :
  has_comma p = false -> after_comma (p ++ String "," q)%string = q.
Proof.
  induction p as [|c p IH].
  - rewrite append_nil. reflexivity.
  - rewrite append_cons. cbn [has_comma after_comma].
    destruct (Ascii.eqb c ","); [discriminate | exact IH].
Qed.

Lemma upto_comma_app p q :
  has_comma p = false -> upto_comma (p ++ String "," q)%string = p.
Proof.
  induction p as [|c p IH].
  - rewrite append_nil. reflexivity.
  - rewrite append_cons. cbn [has_comma upto_comma].
    destruct (Ascii.eqb c ","); [discriminate|]. intros H. now rewrite IH.
Qed.

Lemma upto_comma_none p : has_comma p = false -> upto_comma p = p.
Proof.
  induction p as [|c p IH]; cbn [has_comma upto_comma]; [reflexivity|].
  destruct (Ascii.eqb c ","); [discriminate|]. intros H. now rewrite IH.
Qed.

(** X10: a data-URL prefix is dropped before decoding: for a prefix and
    a payload without commas, [prefix,payload] decodes as the payload
    alone; whatever follows a second comma is dropped as well; a string
    without a comma is decoded as it is. *)
Theorem data_url_prefix_is_dropped {Image : Type}
    (imdecode : string -> option Image) (prefix payload rest : string) :
  has_comma prefix = false ->
  has_comma payload = false ->
  decode_base64_image imdecode (prefix ++ String "," payload)%string
  = imdecode payload /\
  decode_base64_image imdecode
    (prefix ++ String "," (payload ++ String "," rest))%string
  = imdecode payload /\
  decode_base64_image imdecode payload = imdecode payload.
Proof.
  intros Hp Hq. unfold decode_base64_image, split_comma_1.
  rewrite !has_comma_app_comma, !after_comma_app by exact Hp.
  rewrite upto_comma_none by exact Hq.
  rewrite upto_comma_app by exact Hq. rewrite Hq. auto.
Qed.

Lemma data_url_prefix_is_dropped_witness :
  decode_base64_image Demo.imdecode "data:image/png;base64,front92"
  = Demo.imdecode "front92" /\
  decode_base64_image Demo.imdecode "data:image/png;base64,front92,junk"
  = Demo.imdecode "front92" /\
  decode_base64_image Demo.imdecode "front92" = Demo.imdecode "front92".
Proof.
  apply (data_url_prefix_is_dropped Demo.imdecode "data:image/png;base64"
           "front92" "junk"); reflexivity.
Defined.

Section Served.
Context {Image : Type} (imdecode : string -> option Image).



End Served.


(** X12: the service is healthy exactly from a successful startup on:
    after [startup_event] succeeded, the health endpoint answers 200 with
    the detector's device and the length of the review queue, and no
    detection request is answered 503; while the detector is missing,
    health and detection both answer 503 and a detection request leaves
    the queue alone. *)
Theorem healthy_iff_started {Image : Type}
    (imdecode : string -> option Image) (host : Host Image)
    (torch : Torch) (app : App Image) :
  (forall app',
     startup_event host app = Some app' ->
     fst (health_check torch app') = 200%Z /\
     (exists version cuda n name,
        snd (health_check torch app')
        = Healthy (if cuda_is_available host then "cuda" else "cpu")
            version cuda n name (length (manual_review_queue app))) /\
     forall request now,
       status_code (fst (serve imdecode app' request now)) <> 503%Z)
  /\
  (detector app = None ->
   health_check torch app
   = (503%Z, Unhealthy "not_initialized" "Detector not available") /\
   forall request now,
     status_code (fst (serve imdecode app request now)) = 503%Z /\
     manual_review_queue (snd (serve imdecode app request now))
     = manual_review_queue app).
Proof.
  split.
  - intros app'. unfold startup_event, init.
    destruct (path_exists host (MODEL_PATH app)); [|discriminate].
    destruct (load_yolo host (MODEL_PATH app)) as [e|m]; [discriminate|].
    intros [= <-]. unfold health_check. cbn [detector device fst snd
      manual_review_queue].
    split; [reflexivity|]. split; [eauto 10|].
    intros request now. unfold serve, detect_aadhaar_cards_stateless.
    cbn [detector].
    destruct (negb _ && negb _); [cbn; discriminate|].
    destruct (Cards.print_aadhar_detected _); [cbn; discriminate|].
    destruct (Request.force_upload request && _); cbn; discriminate.
  - intros Hd. unfold health_check, serve, detect_aadhaar_cards_stateless.
    rewrite Hd. split; [reflexivity|]. intros request now. cbn. auto.
Qed.

Lemma healthy_iff_started_witness :
  fst (health_check Scenarios.torch (Demo.running Demo.defaults [])) = 200%Z
  /\
  health_check Scenarios.torch
    (imported (Image := option (list Box)) Demo.defaults "models/best4.pt")
  = (503%Z, Unhealthy "not_initialized" "Detector not available").
Proof.
  split.
  - apply (proj1 (healthy_iff_started Demo.imdecode Demo.host Scenarios.torch
                    (imported Demo.defaults "models/best4.pt"))
             (Demo.running Demo.defaults [])).
    reflexivity.
  - apply (proj2 (healthy_iff_started Demo.imdecode Demo.host Scenarios.torch
                    (imported Demo.defaults "models/best4.pt"))).
    reflexivity.
Defined.

(** X13: a token is accepted exactly when it decodes, its issuer is the
    configured one, and its expiry is absent, zero or not in the past; an
    accepted token yields its payload unchanged, and every refusal is a
    401. *)
Theorem token_accepted_iff (JWT_ISSUER : string)
    (decode : string -> option Payload) (now : Q) (token : string) :
  (forall payload,
     verify_jwt_token JWT_ISSUER decode now token = inr payload
     <->
     decode token = Some payload /\
     iss payload = Some JWT_ISSUER /\
     (exp payload = None \/
      exists e, exp payload = Some e /\ (e == 0 \/ now <= e)))
  /\
  (forall refusal,
     verify_jwt_token JWT_ISSUER decode now token = inl refusal ->
     http_status refusal = 401%Z).
Proof.
  unfold verify_jwt_token. split.
  - intros payload. destruct (decode token) as [p|].
    2:{ split; [discriminate | intros [H _]; discriminate]. }
    destruct (bool_decide_reflect (iss p = Some JWT_ISSUER)) as [Hi | Hi];
      cbn [negb].
    2:{ split; [discriminate|]. intros ([= ->] & H & _). contradiction. }
    destruct (exp p) as [e|] eqn:He.
    + unfold Qtruthy. destruct (Qeq_bool e 0) eqn:Hz; cbn [negb andb].
      * apply Qeq_bool_iff in Hz. split.
        -- intros [= <-]. rewrite He. eauto 10.
        -- intros ([= ->] & _). reflexivity.
      * destruct (Qltb e now) eqn:Hn.
        -- apply Qltb_lt in Hn. apply Qeq_bool_neq in Hz.
           split; [discriminate|].
           intros ([= <-] & _ & [H | (e' & H & [H' | H'])]).
           ++ congruence.
           ++ rewrite He in H. injection H as <-. contradiction.
           ++ rewrite He in H. injection H as <-. exfalso. lra.
        -- apply Qltb_ge in Hn. split.
           ++ intros [= <-]. rewrite He. eauto 10.
           ++ intros ([= ->] & _). reflexivity.
    + split.
      * intros [= <-]. rewrite He. auto.
      * intros ([= ->] & _). reflexivity.
  - intros refusal. destruct (decode token) as [p|].
    + destruct (negb _); [intros [= <-]; reflexivity|].
      destruct (exp p) as [e|]; [|discriminate].
      destruct (Qtruthy e && Qltb e now); [intros [= <-]; reflexivity
                                          | discriminate].
    + intros [= <-]. reflexivity.
Qed.

Lemma token_accepted_iff_witness :
  verify_jwt_token "ai-verification-frontend" Scenarios.decode 5000 "forever"
  = inr {| iss := Some "ai-verification-frontend"; exp := None;
           request_id := None |}
  /\
  http_status {| http_status := 401; detail := "Token has expired" |}
  = 401%Z.
Proof.
  split.
  - apply (proj1 (token_accepted_iff "ai-verification-frontend"
                    Scenarios.decode 5000 "forever")).
    split; [reflexivity|]. split; [reflexivity|]. left. reflexivity.
  - apply (proj2 (token_accepted_iff "ai-verification-frontend"
                    Scenarios.decode 5000 "good")).
    reflexivity.
Defined.

End ApiFacts.

(** ** More on [detect_cards] of [main.py] *)

Module MainFacts.
Import Stateless Main MainVocabulary.

Section Scan.
Variable cc : gmap Z string.
Variable t : Q.

Lemma qualifies_spec name b :
  qualifies cc t name b = true <-> t <= conf b /\ label cc b = name.
Proof.
  unfold qualifies. rewrite andb_true_iff, negb_true_iff, Qltb_ge.
  now rewrite String.eqb_eq.
Qed.

Lemma not_qualifies name b :
  conf b < t \/ label cc b <> name -> qualifies cc t name b = false.
Proof.
  intros H. destruct (qualifies cc t name b) eqn:E; [|reflexivity].
  apply qualifies_spec in E as [Hc Hl]. destruct H as [H | H].
  - exfalso. lra.
  - contradiction.
Qed.

Lemma filter_none (f : Box -> bool) l :
  (forall b, In b l -> f b = false) -> List.filter f l = [].
Proof.
  induction l as [|a l IH]; intros H; [reflexivity|].
  cbn [List.filter]. rewrite (H a) by now left.
  apply IH. intros b Hb. apply H. now right.
Qed.

Lemma scan_front_log r b :
  Result.details_front (scan_front cc t r b)
  = Result.details_front r
    ++ (if qualifies cc t "aadhar_front" b
        then [Seen "aadhar_front" (conf b)] else []) /\
  Result.details_back (scan_front cc t r b) = Result.details_back r /\
  Result.print_aadhar_detected (scan_front cc t r b)
  = Result.print_aadhar_detected r || qualifies cc t "print_aadhar" b.
Proof.
  unfold scan_front, qualifies, label.
  destruct (Qltb (conf b) t); cbn [negb andb].
  { rewrite app_nil_r, orb_false_r. auto. }
  destruct (String.eqb _ "print_aadhar") eqn:Hp.
  { apply String.eqb_eq in Hp. rewrite Hp. cbn.
    rewrite app_nil_r, orb_true_r. auto. }
  destruct (String.eqb _ "aadhar_front") eqn:Hf.
  - apply String.eqb_eq in Hf. rewrite Hf. cbn.
    rewrite orb_false_r. auto.
  - cbn. rewrite app_nil_r, orb_false_r. auto.
Qed.

Lemma scan_back_log r b :
  Result.details_back (scan_back cc t r b)
  = Result.details_back r
    ++ (if qualifies cc t "aadhar_back" b
        then [Seen "aadhar_back" (conf b)] else []) /\
  Result.details_front (scan_back cc t r b) = Result.details_front r /\
  Result.print_aadhar_detected (scan_back cc t r b)
  = Result.print_aadhar_detected r || qualifies cc t "print_aadhar" b.
Proof.
  unfold scan_back, qualifies, label.
  destruct (Qltb (conf b) t); cbn [negb andb].
  { rewrite app_nil_r, orb_false_r. auto. }
  destruct (String.eqb _ "print_aadhar") eqn:Hp.
  { apply String.eqb_eq in Hp. rewrite Hp. cbn.
    rewrite app_nil_r, orb_true_r. auto. }
  destruct (String.eqb _ "aadhar_back") eqn:Hf.
  - apply String.eqb_eq in Hf. rewrite Hf. cbn.
    rewrite orb_false_r. auto.
  - cbn. rewrite app_nil_r, orb_false_r. auto.
Qed.

Lemma fold_scan_front_log boxes : forall r,
  Result.details_front (fold_left (scan_front cc t) boxes r)
  = Result.details_front r
    ++ map (fun b => Seen "aadhar_front" (conf b))
         (List.filter (qualifies cc t "aadhar_front") boxes) /\
  Result.details_back (fold_left (scan_front cc t) boxes r)
  = Result.details_back r /\
  Result.print_aadhar_detected (fold_left (scan_front cc t) boxes r)
  = Result.print_aadhar_detected r
    || existsb (qualifies cc t "print_aadhar") boxes.
Proof.
  induction boxes as [|b rest IH]; intros r.
  - cbn. rewrite app_nil_r, orb_false_r. auto.
  - cbn [fold_left List.filter existsb].
    destruct (IH (scan_front cc t r b)) as (-> & -> & ->).
    destruct (scan_front_log r b) as (-> & -> & ->).
    rewrite <- app_assoc, <- orb_assoc.
    destruct (qualifies cc t "aadhar_front" b); cbn [map app]; auto.
Qed.

Lemma fold_scan_back_log boxes : forall r,
  Result.details_back (fold_left (scan_back cc t) boxes r)
  = Result.details_back r
    ++ map (fun b => Seen "aadhar_back" (conf b))
         (List.filter (qualifies cc t "aadhar_back") boxes) /\
  Result.details_front (fold_left (scan_back cc t) boxes r)
  = Result.details_front r /\
  Result.print_aadhar_detected (fold_left (scan_back cc t) boxes r)
  = Result.print_aadhar_detected r
    || existsb (qualifies cc t "print_aadhar") boxes.
Proof.
  induction boxes as [|b rest IH]; intros r.
  - cbn. rewrite app_nil_r, orb_false_r. auto.
  - cbn [fold_left List.filter existsb].
    destruct (IH (scan_back cc t r b)) as (-> & -> & ->).
    destruct (scan_back_log r b) as (-> & -> & ->).
    rewrite <- app_assoc, <- orb_assoc.
    destruct (qualifies cc t "aadhar_back" b); cbn [map app]; auto.
Qed.

End Scan.

Section Cards.
Variable self : AadhaarCardDetector.
Variable os_path_exists : string -> bool.
Variable t : Q.

(** The boxes [detect_cards] scans for a path: those of the model when
    the path is given, exists and the model does not raise. *)
Lemma detect_front_scanned front_image_path r :
  (exists path boxes,
     front_image_path = Some path /\ str_truthy (Some path) = true /\
     os_path_exists path = true /\ model self path = inr boxes /\
     detect_front self os_path_exists front_image_path t r
     = fold_left (scan_front (card_classes self) t) boxes r)
  \/
  (Result.front_detected
     (detect_front self os_path_exists front_image_path t r)
   = Result.front_detected r /\
   Result.front_confidence
     (detect_front self os_path_exists front_image_path t r)
   = Result.front_confidence r /\
   Result.print_aadhar_detected
     (detect_front self os_path_exists front_image_path t r)
   = Result.print_aadhar_detected r /\
   forall path boxes,
     front_image_path = Some path -> str_truthy (Some path) = true ->
     os_path_exists path = true -> model self path = inr boxes -> False).
Proof.
  unfold detect_front.
  destruct front_image_path as [[|c s]|].
  - right. cbn. repeat split. intros path boxes [= <-]. discriminate.
  - destruct (os_path_exists (String c s)) eqn:He.
    + destruct (model self (String c s)) as [e|boxes] eqn:Hm.
      * right. cbn. repeat split. intros path boxes [= <-]. congruence.
      * left. exists (String c s), boxes. auto.
    + right. cbn. repeat split. intros path boxes [= <-]. congruence.
  - right. cbn. repeat split. intros path boxes. discriminate.
Qed.

Lemma detect_back_scanned back_image_path r :
  (exists path boxes,
     back_image_path = Some path /\ str_truthy (Some path) = true /\
     os_path_exists path = true /\ model self path = inr boxes /\
     detect_back self os_path_exists back_image_path t r
     = fold_left (scan_back (card_classes self) t) boxes r)
  \/
  (Result.back_detected
     (detect_back self os_path_exists back_image_path t r)
   = Result.back_detected r /\
   Result.back_confidence
     (detect_back self os_path_exists back_image_path t r)
   = Result.back_confidence r /\
   Result.print_aadhar_detected
     (detect_back self os_path_exists back_image_path t r)
   = Result.print_aadhar_detected r /\
   forall path boxes,
     back_image_path = Some path -> str_truthy (Some path) = true ->
     os_path_exists path = true -> model self path = inr boxes -> False).
Proof.
  unfold detect_back.
  destruct back_image_path as [[|c s]|].
  - right. cbn. repeat split. intros path boxes [= <-]. discriminate.
  - destruct (os_path_exists (String c s)) eqn:He.
    + destruct (model self (String c s)) as [e|boxes] eqn:Hm.
      * right. cbn. repeat split. intros path boxes [= <-]. congruence.
      * left. exists (String c s), boxes. auto.
    + right. cbn. repeat split. intros path boxes [= <-]. congruence.
  - right. cbn. repeat split. intros path boxes. discriminate.
Qed.

(** X14: [detect_cards] reports for the front side the confidence of the
    last box that passes the threshold with the front label, whatever the
    confidences of the earlier ones, and lists every such box, in scan
    order, in the front details. *)
Theorem detect_cards_reports_last_front_box
    (path : string) (back_image_path : option string) (boxes : list Box) :
  str_truthy (Some path) = true ->
  os_path_exists path = true ->
  model self path = inr boxes ->
  Result.details_front
    (detect_cards self os_path_exists (Some path) back_image_path t)
  = map (fun b => Seen "aadhar_front" (conf b))
      (List.filter (qualifies (card_classes self) t "aadhar_front") boxes)
  /\
  ((List.filter (qualifies (card_classes self) t "aadhar_front") boxes = []
    /\
    Result.front_detected
      (detect_cards self os_path_exists (Some path) back_image_path t)
    = false)
   \/
   (exists earlier last,
      List.filter (qualifies (card_classes self) t "aadhar_front") boxes
      = earlier ++ [last] /\
      Result.front_detected
        (detect_cards self os_path_exists (Some path) back_image_path t)
      = true /\
      Result.front_confidence
        (detect_cards self os_path_exists (Some path) back_image_path t)
      = conf last)).
Proof.
  intros Hs He Hm. unfold detect_cards.
  set (r0 := detect_front self os_path_exists (Some path) t initial).
  assert (Hr0 : r0 = fold_left (scan_front (card_classes self) t) boxes
                       initial).
  { subst r0. unfold detect_front. destruct path as [|c s]; [discriminate|].
    now rewrite He, Hm. }
  destruct (MainScan.detect_back_frame self os_path_exists t
              back_image_path r0) as [-> ->].
  assert (Hdet : Result.details_front
                   (detect_back self os_path_exists back_image_path t r0)
                 = Result.details_front r0).
  { unfold detect_back.
    destruct back_image_path as [[|c s]|]; [reflexivity | | reflexivity].
    destruct (os_path_exists (String c s)); [|reflexivity].
    destruct (model self (String c s)) as [e|bs]; [reflexivity|].
    apply (fold_scan_back_log (card_classes self) t bs r0). }
  rewrite Hdet, Hr0.
  destruct (fold_scan_front_log (card_classes self) t boxes initial)
    as (-> & _ & _).
  split; [reflexivity|].
  destruct (MainScan.fold_scan_front (card_classes self) t boxes initial)
    as [(Hd & _ & Hall) | (pre & b & post & -> & Hd & Hq & Ht & Hl & Hpost)].
  - left. split; [|exact Hd].
    apply filter_none. intros b Hb. apply not_qualifies. auto.
  - right. exists (List.filter (qualifies (card_classes self) t
                                  "aadhar_front") pre), b.
    split; [|auto].
    rewrite List.filter_app. cbn [List.filter].
    rewrite (proj2 (qualifies_spec (card_classes self) t "aadhar_front" b))
      by auto.
    rewrite (filter_none _ post); [reflexivity|].
    intros b' Hb'. apply not_qualifies. auto.
Qed.

Lemma detect_front_print front_image_path r :
  Result.print_aadhar_detected
    (detect_front self os_path_exists front_image_path t r) = true
  <->
  Result.print_aadhar_detected r = true \/
  exists path boxes b,
    front_image_path = Some path /\ str_truthy (Some path) = true /\
    os_path_exists path = true /\ model self path = inr boxes /\
    In b boxes /\ t <= conf b /\
    label (card_classes self) b = "print_aadhar".
Proof.
  destruct (detect_front_scanned front_image_path r)
    as [(path & boxes & Hf & Hs & He & Hm & ->) | (_ & _ & -> & Hno)].
  - destruct (fold_scan_front_log (card_classes self) t boxes r)
      as (_ & _ & ->).
    rewrite orb_true_iff, existsb_exists. split.
    + intros [H | (b & Hb & Hq)]; [now left|]. right.
      apply qualifies_spec in Hq as [Hc Hl]. exists path, boxes, b. auto 10.
    + intros [H | (p & bs & b & Hf' & _ & _ & Hm' & Hb & Hc & Hl)];
        [now left|]. right.
      rewrite Hf in Hf'. injection Hf' as <-.
      rewrite Hm in Hm'. injection Hm' as <-.
      exists b. split; [exact Hb|]. apply qualifies_spec. auto.
  - split; [now left|].
    intros [H | (p & bs & b & Hf & Hs & He & Hm & _)]; [exact H|].
    exfalso. eauto.
Qed.

Lemma detect_back_print back_image_path r :
  Result.print_aadhar_detected
    (detect_back self os_path_exists back_image_path t r) = true
  <->
  Result.print_aadhar_detected r = true \/
  exists path boxes b,
    back_image_path = Some path /\ str_truthy (Some path) = true /\
    os_path_exists path = true /\ model self path = inr boxes /\
    In b boxes /\ t <= conf b /\
    label (card_classes self) b = "print_aadhar".
Proof.
  destruct (detect_back_scanned back_image_path r)
    as [(path & boxes & Hf & Hs & He & Hm & ->) | (_ & _ & -> & Hno)].
  - destruct (fold_scan_back_log (card_classes self) t boxes r)
      as (_ & _ & ->).
    rewrite orb_true_iff, existsb_exists. split.
    + intros [H | (b & Hb & Hq)]; [now left|]. right.
      apply qualifies_spec in Hq as [Hc Hl]. exists path, boxes, b. auto 10.
    + intros [H | (p & bs & b & Hf' & _ & _ & Hm' & Hb & Hc & Hl)];
        [now left|]. right.
      rewrite Hf in Hf'. injection Hf' as <-.
      rewrite Hm in Hm'. injection Hm' as <-.
      exists b. split; [exact Hb|]. apply qualifies_spec. auto.
  - split; [now left|].
    intros [H | (p & bs & b & Hf & Hs & He & Hm & _)]; [exact H|].
    exfalso. eauto.
Qed.

(** X15: [detect_cards] sets the printed-copy flag exactly when an image
    that was given, exists and was scanned has a box with the class name
    [print_aadhar] and a confidence at or above the threshold: here a box
    exactly at the threshold does set the flag. *)
Theorem detect_cards_print_flag_iff
    (front_image_path back_image_path : option string) :
  Result.print_aadhar_detected
    (detect_cards self os_path_exists front_image_path back_image_path t)
  = true
  <->
  (exists path boxes b,
     front_image_path = Some path /\ str_truthy (Some path) = true /\
     os_path_exists path = true /\ model self path = inr boxes /\
     In b boxes /\ t <= conf b /\
     label (card_classes self) b = "print_aadhar")
  \/
  (exists path boxes b,
     back_image_path = Some path /\ str_truthy (Some path) = true /\
     os_path_exists path = true /\ model self path = inr boxes /\
     In b boxes /\ t <= conf b /\
     label (card_classes self) b = "print_aadhar").
Proof.
  unfold detect_cards. rewrite detect_back_print, detect_front_print.
  cbn [initial Result.print_aadhar_detected].
  split.
  - intros [[H | H] | H]; [discriminate | now left | now right].
  - intros [H | H]; [left; now right | now right].
Qed.

End Cards.

Lemma detect_cards_reports_last_front_box_witness :
  Result.details_front
    (detect_cards Demo.path_detector Demo.on_disk
       (Some "front50front90front70") None 0.15)
  = map (fun b => Seen "aadhar_front" (conf b))
      (List.filter
         (qualifies (card_classes Demo.path_detector) 0.15 "aadhar_front")
         [Demo.front 0.5; Demo.front 0.9; Demo.front 0.7])
  /\
  Result.front_confidence
    (detect_cards Demo.path_detector Demo.on_disk
       (Some "front50front90front70") None 0.15) = 0.7.
Proof.
  destruct (detect_cards_reports_last_front_box Demo.path_detector
              Demo.on_disk 0.15 "front50front90front70" None
              [Demo.front 0.5; Demo.front 0.9; Demo.front 0.7])
    as (Hdetails & _).
  - reflexivity.
  - reflexivity.
  - reflexivity.
  - split; [exact Hdetails | reflexivity].
Defined.

Lemma detect_cards_print_flag_iff_witness :
  Result.print_aadhar_detected
    (detect_cards
       {| device := "cpu";
          model := fun _ => inr [Demo.printed 0.15];
          card_classes := Demo.class_names |}
       Demo.on_disk (Some "front.jpg") None 0.15) = true.
Proof.
  apply (proj2 (detect_cards_print_flag_iff
                  {| device := "cpu";
                     model := fun _ => inr [Demo.printed 0.15];
                     card_classes := Demo.class_names |}
                  Demo.on_disk 0.15 (Some "front.jpg") None)).
  left. exists "front.jpg", [Demo.printed 0.15], (Demo.printed 0.15).
  split; [reflexivity|]. split; [reflexivity|]. split; [reflexivity|].
  split; [reflexivity|]. split; [now left|].
  split; [vm_compute; discriminate | reflexivity].
Defined.

End MainFacts.

(** ** The responses of the handler of [main.py] *)

Module MainApiFacts.
Import Stateless Main MainApi.

Section Handler.
Variable self : AadhaarCardDetector.
Variable world : World.
Variables front_path back_path : string.
Variable request : Request.t.

(** Without a path a side is not detected. *)
Lemma no_path_no_detection (exists_ : string -> bool) (t : Q)
    (other : option string) :
  Result.front_detected (detect_cards self exists_ None other t) = false /\
  Result.back_detected (detect_cards self exists_ other None t) = false.
Proof.
  split.
  - unfold detect_cards.
    destruct (MainScan.detect_back_frame self exists_ t other
                (detect_front self exists_ None t initial)) as [-> _].
    reflexivity.
  - unfold detect_cards, detect_back.
    unfold detect_front. destruct other as [[|c s]|]; try reflexivity.
    destruct (exists_ (String c s)); [|reflexivity].
    destruct (Main.model self (String c s)) as [e|boxes]; [reflexivity|].
    destruct (MainScan.fold_scan_front_frame (Main.card_classes self) t
                boxes initial) as [-> _]. reflexivity.
Qed.


(** The 200 response of [respond], for download flags that fit the
    request. *)
Lemma respond_complete fdl bdl detected message data :
  str_truthy (Request.passport_first request)
  || str_truthy (Request.passport_old request) = true ->
  fdl = str_truthy (Request.passport_first request) ->
  bdl = str_truthy (Request.passport_old request) ->
  content (respond self world front_path back_path request fdl bdl)
  = Complete detected message data ->
  detected = Data.front_detected data || Data.back_detected data /\
  Data.both_detected data
  = Data.front_detected data && Data.back_detected data /\
  (Data.front_detected data = true ->
   str_truthy (Request.passport_first request) = true) /\
  (Data.back_detected data = true ->
   str_truthy (Request.passport_old request) = true) /\
  ((Data.front_detected data = true /\ Data.back_detected data = true /\
    message = "Both Aadhaar cards detected successfully.")
   \/
   (Data.front_detected data = true /\ Data.back_detected data = false /\
    message = "Aadhaar front card detected successfully.")
   \/
   (Data.front_detected data = false /\ Data.back_detected data = true /\
    message = "Aadhaar back card detected successfully.")
   \/
   (Data.front_detected data = false /\ Data.back_detected data = false /\
    ((str_truthy (Request.passport_first request) = true /\
      str_truthy (Request.passport_old request) = false /\
      message = "Could not detect Aadhaar card(s): front.")
     \/
     (str_truthy (Request.passport_first request) = false /\
      str_truthy (Request.passport_old request) = true /\
      message = "Could not detect Aadhaar card(s): back.")
     \/
     (str_truthy (Request.passport_first request) = true /\
      str_truthy (Request.passport_old request) = true /\
      message = "Could not detect Aadhaar card(s): front, back.")))).
Proof.
  intros Hsome Hf Hb. unfold respond.
  destruct (Result.print_aadhar_detected _); [discriminate|].
  cbn [content]. intros [= <- <- <-]. cbn [Data.front_detected
    Data.back_detected Data.both_detected].
  set (r := detect_cards self (os_path_exists world)
              (if fdl then Some front_path else None)
              (if bdl then Some back_path else None)
              (Request.confidence_threshold request)).
  assert (Hfd : Result.front_detected r = true -> fdl = true).
  { destruct fdl; [reflexivity|]. subst r.
    destruct (no_path_no_detection (os_path_exists world)
                (Request.confidence_threshold request)
                (if bdl then Some back_path else None)) as [-> _].
    discriminate. }
  assert (Hbd : Result.back_detected r = true -> bdl = true).
  { destruct bdl; [reflexivity|]. subst r.
    destruct (no_path_no_detection (os_path_exists world)
                (Request.confidence_threshold request)
                (if fdl then Some front_path else None)) as [_ ->].
    discriminate. }
  split; [reflexivity|].
  destruct (Result.front_detected r) eqn:Ef,
           (Result.back_detected r) eqn:Eb.
  - specialize (Hfd eq_refl). specialize (Hbd eq_refl).
    rewrite Hfd, Hbd. cbn [andb].
    split; [reflexivity|]. split; [congruence|]. split; [congruence|].
    left. auto.
  - specialize (Hfd eq_refl). cbn [andb]. split; [reflexivity|].
    split; [congruence|].
    split; [discriminate|]. right. left. auto.
  - specialize (Hbd eq_refl). cbn [andb]. split; [reflexivity|].
    split; [discriminate|].
    split; [congruence|]. right. right. left. auto.
  - cbn [andb]. split; [reflexivity|]. split; [discriminate|].
    split; [discriminate|]. right. right. right.
    split; [reflexivity|]. split; [reflexivity|].
    unfold compose_message.
    destruct (str_truthy (Request.passport_first request)),
             (str_truthy (Request.passport_old request));
      cbn in *; auto 10. discriminate.
Qed.


(** X17: in the 200 response of [main.py] a side is reported detected
    only when its URL was supplied, [both_detected] is the conjunction of
    the two side flags, [detected] their disjunction, and the message is
    one of six texts that tell the outcome and name exactly the supplied
    sides that were not detected. *)
Theorem main_response_tells_the_outcome (detected : bool)
    (message : string) (data : Data.t) :
  content
    (fst (detect_aadhaar_cards (Some self) world front_path back_path
            request))
  = Complete detected message data ->
  detected = Data.front_detected data || Data.back_detected data /\
  Data.both_detected data
  = Data.front_detected data && Data.back_detected data /\
  (Data.front_detected data = true ->
   str_truthy (Request.passport_first request) = true) /\
  (Data.back_detected data = true ->
   str_truthy (Request.passport_old request) = true) /\
  ((Data.front_detected data = true /\ Data.back_detected data = true /\
    message = "Both Aadhaar cards detected successfully.")
   \/
   (Data.front_detected data = true /\ Data.back_detected data = false /\
    message = "Aadhaar front card detected successfully.")
   \/
   (Data.front_detected data = false /\ Data.back_detected data = true /\
    message = "Aadhaar back card detected successfully.")
   \/
   (Data.front_detected data = false /\ Data.back_detected data = false /\
    ((str_truthy (Request.passport_first request) = true /\
      str_truthy (Request.passport_old request) = false /\
      message = "Could not detect Aadhaar card(s): front.")
     \/
     (str_truthy (Request.passport_first request) = false /\
      str_truthy (Request.passport_old request) = true /\
      message = "Could not detect Aadhaar card(s): back.")
     \/
     (str_truthy (Request.passport_first request) = true /\
      str_truthy (Request.passport_old request) = true /\
      message = "Could not detect Aadhaar card(s): front, back.")))).
Proof.
  unfold detect_aadhaar_cards.
  destruct (Request.passport_first request) as [[|c s]|] eqn:Hf;
    destruct (Request.passport_old request) as [[|c' s']|] eqn:Ho;
    cbn [str_truthy negb andb fst content]; try discriminate;
    repeat match goal with
           | |- context [download_image world ?u ?p] =>
               destruct (download_image world u p);
               cbn [fst content crash]; try discriminate
           end;
    intros H;
    match type of H with
    | content (respond _ _ _ _ _ ?f ?b) = _ =>
        generalize (respond_complete f b detected message data)
    end;
    rewrite Hf, Ho; cbn [str_truthy orb];
    intros Hr; apply Hr; auto.
Qed.

End Handler.


Lemma main_response_tells_the_outcome_witness :
  Data.both_detected
    {| Data.user_id := "u1"; Data.front_detected := true;
       Data.back_detected := false; Data.front_confidence := 0.92;
       Data.back_confidence := 0; Data.both_detected := false;
       Data.details := ([Seen "aadhar_front" 0.92], []) |}
  = true && false.
Proof.
  apply (main_response_tells_the_outcome Demo.path_detector Scenarios.world
           "front92" "blank"
           (Scenarios.url_request (Some "http://a") (Some "http://b"))
           true "Aadhaar front card detected successfully.").
  reflexivity.
Defined.

End MainApiFacts.

(** ** Shapes, ties and boxes in the raw-tensor detector *)

Module TensorFacts.
Import OnnxDetector OnnxVocabulary.

Lemma run_app output w h l1 : forall l2 st,
  run output w h st (l1 ++ l2)
  = st' ← run output w h st l1; run output w h st' l2.
Proof.
  induction l1 as [|i l1 IH]; intros l2 st; [reflexivity|].
  cbn [app run].
  destruct (step output w h st i) as [st1|]; cbn [mbind option_bind];
    [apply IH | reflexivity].
Qed.

Lemma class_scores_none output b ch n i :
  shape output = (b, ch, n) ->
  b = 0%nat \/ (ch < 7)%nat ->
  class_scores output i = None.
Proof.
  intros Hshape Hbad. unfold class_scores, get. rewrite Hshape.
  cbn [seq mapM].
  destruct Hbad as [-> | Hch]; [reflexivity|].
  destruct b as [|b]; [reflexivity|].
  destruct (i <? n)%nat;
    do 7 (destruct ch as [|ch]; [reflexivity|]); lia.
Qed.

(** X18: the shape decides whether the loop can run.  An output with no
    candidates gives "no detection" whatever its other dimensions are; an
    output with candidates but an empty batch or fewer than seven
    channels raises (an index is out of range at the first candidate). *)
Theorem shape_decides_whether_detect_returns (output : ndarray) (w h : Z)
    (b ch n : nat) :
  shape output = (b, ch, n) ->
  (n = 0%nat -> detect output w h = Some no_detection)
  /\
  ((0 < n)%nat -> b = 0%nat \/ (ch < 7)%nat -> detect output w h = None).
Proof.
  intros Hshape. unfold detect, parse. rewrite Hshape. cbn [snd]. split.
  - intros ->. reflexivity.
  - intros Hn Hbad. destruct n as [|n]; [lia|].
    cbn [seq run]. unfold step.
    rewrite (class_scores_none output b ch (S n) 0 Hshape Hbad).
    reflexivity.
Qed.

Lemma shape_decides_whether_detect_returns_witness :
  detect Scenarios.short_tensor 1280 720 = None.
Proof.
  apply (proj2 (shape_decides_whether_detect_returns Scenarios.short_tensor
                  1280 720 1 6 3 eq_refl)).
  - lia.
  - right. lia.
Defined.

Section Agree.
Variables output output' : ndarray.
Variables b b' ch ch' n : nat.
Hypothesis Hshape : shape output = (S b, ch, n).
Hypothesis Hshape' : shape output' = (S b', ch', n).
Hypothesis Hch : (7 <= ch)%nat.
Hypothesis Hch' : (7 <= ch')%nat.
Hypothesis Hagree : forall c i, (c < 7)%nat -> (i < n)%nat ->
  item output 0 c i = item output' 0 c i.

Lemma get_agree c i :
  (c < 7)%nat -> (i < n)%nat -> get output 0 c i = get output' 0 c i.
Proof.
  intros Hc Hi. unfold get. rewrite Hshape, Hshape'.
  assert (H1 : (c <? ch)%nat = true) by (apply Nat.ltb_lt; lia).
  assert (H2 : (c <? ch')%nat = true) by (apply Nat.ltb_lt; lia).
  assert (H3 : (i <? n)%nat = true) by (apply Nat.ltb_lt; lia).
  rewrite H1, H2, H3. cbn. now rewrite Hagree.
Qed.

Lemma step_agree w h st i :
  (i < n)%nat -> step output w h st i = step output' w h st i.
Proof.
  intros Hi. unfold step, class_scores. cbn [seq mapM].
  rewrite !(get_agree _ i) by lia. reflexivity.
Qed.

Lemma run_agree w h candidates : forall st,
  (forall i, In i candidates -> (i < n)%nat) ->
  run output w h st candidates = run output' w h st candidates.
Proof.
  induction candidates as [|i rest IH]; intros st Hn; [reflexivity|].
  cbn [run]. rewrite step_agree by (apply Hn; now left).
  destruct (step output' w h st i) as [st'|]; cbn [mbind option_bind];
    [|reflexivity].
  apply IH. intros j Hj. apply Hn. now right.
Qed.

(** X19: only the first seven channels of the first batch entry are
    read: two outputs with at least seven channels and the same number of
    candidates that agree there give the same detection and the same log,
    whatever their further channels and batch entries hold. *)
Theorem only_seven_channels_are_read (w h : Z) :
  parse output w h = parse output' w h /\
  detect output w h = detect output' w h.
Proof.
  assert (H : parse output w h = parse output' w h).
  { unfold parse. rewrite Hshape, Hshape'. cbn [snd].
    apply run_agree. intros i Hi. apply in_seq in Hi. lia. }
  split; [exact H|]. unfold detect. now rewrite H.
Qed.

End Agree.

Lemma only_seven_channels_are_read_witness :
  parse Demo.tensor 1280 720 = parse Scenarios.wide_tensor 1280 720 /\
  detect Demo.tensor 1280 720 = detect Scenarios.wide_tensor 1280 720.
Proof.
  apply (only_seven_channels_are_read Demo.tensor Scenarios.wide_tensor
           0 0 7 8 3 eq_refl eq_refl).
  - lia.
  - lia.
  - intros c i Hc Hi. cbn [Scenarios.wide_tensor item].
    destruct (Nat.eqb_spec c 7); [lia | reflexivity].
Defined.

Lemma step_well_formed output w h best log i best' log' :
  (best = no_detection \/
   (detected best = true /\ CONFIDENCE_THRESHOLD < confidence best /\
    (exists name, In name CLASS_NAMES /\ card_type best = Some name) /\
    exists box, bbox best = Some box)) ->
  step output w h (best, log) i = Some (best', log') ->
  best' = no_detection \/
  (detected best' = true /\ CONFIDENCE_THRESHOLD < confidence best' /\
   (exists name, In name CLASS_NAMES /\ card_type best' = Some name) /\
   exists box, bbox best' = Some box).
Proof.
  intros Hwf. unfold step.
  destruct (class_scores output i) as [scores|]; [|discriminate].
  cbn [mbind option_bind].
  destruct (py_max scores) as [m|]; [|discriminate].
  cbn [mbind option_bind].
  destruct (py_index scores m) as [k|]; [|discriminate].
  cbn [mbind option_bind].
  destruct (CLASS_NAMES !! k) as [name|] eqn:Hname; [|discriminate].
  cbn [mbind option_bind].
  destruct (Qltb CONFIDENCE_THRESHOLD m) eqn:Ht; cbn [andb].
  2:{ intros [= <- _]. exact Hwf. }
  destruct (Qltb (confidence best) m).
  2:{ intros [= <- _]. exact Hwf. }
  destruct (get output 0 0 i); [|discriminate].
  destruct (get output 0 1 i); [|discriminate].
  destruct (get output 0 2 i); [|discriminate].
  destruct (get output 0 3 i); [|discriminate].
  cbn [mbind option_bind]. intros [= <- _]. right.
  cbn [detected confidence card_type bbox].
  apply Qltb_lt in Ht. split; [reflexivity|]. split; [exact Ht|].
  split; [|eauto]. exists name. split; [|reflexivity].
  apply (proj1 (list_elem_of_In CLASS_NAMES name)).
  eapply list_elem_of_lookup_2. exact Hname.
Qed.

Lemma run_well_formed output w h candidates : forall best log best' log',
  (best = no_detection \/
   (detected best = true /\ CONFIDENCE_THRESHOLD < confidence best /\
    (exists name, In name CLASS_NAMES /\ card_type best = Some name) /\
    exists box, bbox best = Some box)) ->
  run output w h (best, log) candidates = Some (best', log') ->
  best' = no_detection \/
  (detected best' = true /\ CONFIDENCE_THRESHOLD < confidence best' /\
   (exists name, In name CLASS_NAMES /\ card_type best' = Some name) /\
   exists box, bbox best' = Some box).
Proof.
  induction candidates as [|i rest IH]; intros best log best' log' Hwf.
  - cbn. intros [= <- _]. exact Hwf.
  - cbn [run].
    destruct (step output w h (best, log) i) as [[b1 l1]|] eqn:Hs;
      [|discriminate].
    cbn [mbind option_bind]. apply IH.
    eapply step_well_formed; eauto.
Qed.

(** X20: whatever the output, a detection that [detect] returns is either
    the empty one (not detected, no type, confidence 0.0, no box) or a
    full one: detected, with a confidence above 0.25, one of the three
    class names and a box. *)
Theorem detection_is_empty_or_full (output : ndarray) (w h : Z)
    (best : Detection) :
  detect output w h = Some best ->
  best = no_detection \/
  (detected best = true /\ CONFIDENCE_THRESHOLD < confidence best /\
   (exists name, In name CLASS_NAMES /\ card_type best = Some name) /\
   exists box, bbox best = Some box).
Proof.
  unfold detect, parse.
  destruct (run output w h (no_detection, []) (seq 0 (snd (shape output))))
    as [[b l]|] eqn:Hrun; [|discriminate].
  cbn. intros [= <-].
  eapply run_well_formed; [|exact Hrun]. now left.
Qed.

Lemma detection_is_empty_or_full_witness :
  {| detected := true; card_type := Some "print_aadhaar";
     confidence := 0.9;
     bbox := Some {| x := (320 - 100 / 2) * (1280 / 640);
                     y := (320 - 50 / 2) * (720 / 640);
                     width := 100 * (1280 / 640);
                     height := 50 * (720 / 640) |} |} = no_detection \/
  (true = true /\ CONFIDENCE_THRESHOLD < 0.9 /\
   (exists name, In name CLASS_NAMES /\ Some "print_aadhaar" = Some name) /\
   exists box,
     Some {| x := (320 - 100 / 2) * (1280 / 640);
             y := (320 - 50 / 2) * (720 / 640);
             width := 100 * (1280 / 640);
             height := 50 * (720 / 640) |} = Some box).
Proof.
  apply (detection_is_empty_or_full Demo.tensor 1280 720). reflexivity.
Defined.

Lemma py_index_first scores : forall v k,
  py_index scores v = Some k ->
  forall j s, (j < k)%nat -> scores !! j = Some s -> ~ s == v.
Proof.
  induction scores as [|a rest IH]; intros v k; [discriminate|].
  cbn [py_index]. destruct (Qeq_bool a v) eqn:E.
  - intros [= <-] j s Hj. lia.
  - destruct (py_index rest v) as [k'|] eqn:Hk; [|discriminate].
    intros [= <-] j s Hj Hs. destruct j as [|j].
    + cbn in Hs. injection Hs as <-. now apply Qeq_bool_neq.
    + cbn in Hs. eapply IH; eauto. lia.
Qed.

Section Shaped.
Variable output : ndarray.
Variables batch ch n : nat.
Hypothesis Hshape : shape output = (S batch, ch, n)%nat.
Hypothesis Hch : (7 <= ch)%nat.
Variables w h : Z.

(** The class index of a candidate is the first that holds its largest
    class score. *)
Lemma best_class_first i c m :
  (i < n)%nat -> best_class output i = Some (c, m) ->
  (forall c', (c' < 3)%nat -> item output 0 (4 + c') i <= m) /\
  (forall c', (c' < c)%nat -> item output 0 (4 + c') i < m).
Proof.
  intros Hi Hb.
  destruct (Normalizer.best_class_inside output batch ch n Hshape Hch i Hi)
    as (c2 & m2 & name & Hb2 & Hc2 & _ & _ & Hall).
  rewrite Hb in Hb2. injection Hb2 as <- <-.
  split; [exact Hall|]. intros c' Hc'.
  unfold best_class in Hb.
  rewrite (Normalizer.class_scores_inside output batch ch n Hshape Hch i Hi)
    in Hb.
  cbn [mbind option_bind] in Hb.
  destruct (py_max _) as [m'|]; [|discriminate].
  cbn [mbind option_bind] in Hb.
  destruct (py_index _ m') as [k|] eqn:Hk; [|discriminate].
  cbn [mbind option_bind] in Hb. injection Hb as -> ->.
  assert (Hne : ~ item output 0 (4 + c') i == m).
  { apply (py_index_first _ _ _ Hk c'); [exact Hc'|].
    destruct c' as [|[|[|c']]]; try lia; reflexivity. }
  specialize (Hall c' ltac:(lia)).
  destruct (Qlt_le_dec (item output 0 (4 + c') i) m) as [Hlt | Hge];
    [exact Hlt|].
  exfalso. apply Hne. apply Qle_antisym; assumption.
Qed.

Lemma first_best_step k best c m name box :
  first_best output k best ->
  best_class output k = Some (c, m) ->
  CLASS_NAMES !! c = Some name ->
  first_best output (S k)
    (if Qltb CONFIDENCE_THRESHOLD m && Qltb (confidence best) m
     then {| detected := true; card_type := Some name; confidence := m;
             bbox := Some box |}
     else best).
Proof.
  intros Hbest Hbc Hname.
  assert (Hk : forall j, (j < S k)%nat -> (j < k)%nat \/ j = k) by lia.
  destruct (Qltb CONFIDENCE_THRESHOLD m) eqn:Ht; cbn [andb];
    [destruct (Qltb (confidence best) m) eqn:Hc|].
  - apply Qltb_lt in Ht, Hc. right. exists k, c, name.
    cbn [confidence detected card_type].
    split; [lia|]. split; [exact Hbc|]. split; [exact Ht|].
    split; [exact Hname|]. split; [reflexivity|]. split; [reflexivity|].
    split.
    + intros j c' m' Hj Hbj.
      destruct Hbest as [(-> & Hall)
                        | (i0 & c0 & n0 & _ & _ & _ & _ & _ & _ & _ & Hall)];
        specialize (Hall _ _ _ Hj Hbj); lra.
    + intros j c' m' Hj Hbj. destruct (Hk j Hj) as [Hlt | ->].
      * destruct Hbest as [(-> & Hall)
                          | (i0 & c0 & n0 & _ & _ & _ & _ & _ & _ & _ & Hall)];
          specialize (Hall _ _ _ Hlt Hbj); lra.
      * rewrite Hbc in Hbj. injection Hbj as <- <-. lra.
  - apply Qltb_lt in Ht. apply Qltb_ge in Hc.
    destruct Hbest as [(-> & Hall)
                      | (i0 & c0 & n0 & Hi0 & Hb0 & Ht0 & Hn0 & Hd0 & Hc0
                         & Hfirst & Hall)].
    + cbn in Hc. unfold CONFIDENCE_THRESHOLD in Ht. exfalso. lra.
    + right. exists i0, c0, n0. split; [lia|].
      repeat (split; [assumption|]).
      intros j c' m' Hj Hbj. destruct (Hk j Hj) as [Hlt | ->]; [eauto|].
      rewrite Hbc in Hbj. injection Hbj as <- <-. exact Hc.
  - apply Qltb_ge in Ht.
    destruct Hbest as [(-> & Hall)
                      | (i0 & c0 & n0 & Hi0 & Hb0 & Ht0 & Hn0 & Hd0 & Hc0
                         & Hfirst & Hall)].
    + left. split; [reflexivity|].
      intros j c' m' Hj Hbj. destruct (Hk j Hj) as [Hlt | ->]; [eauto|].
      rewrite Hbc in Hbj. injection Hbj as <- <-. exact Ht.
    + right. exists i0, c0, n0. split; [lia|].
      repeat (split; [assumption|]).
      intros j c' m' Hj Hbj. destruct (Hk j Hj) as [Hlt | ->]; [eauto|].
      rewrite Hbc in Hbj. injection Hbj as <- <-. lra.
Qed.

Lemma run_first_best k :
  (k <= n)%nat ->
  exists best log,
    run output w h (no_detection, []) (seq 0 k) = Some (best, log) /\
    first_best output k best.
Proof.
  induction k as [|k IH]; intros Hk.
  - exists no_detection, []. split; [reflexivity|]. left.
    split; [reflexivity|]. intros j c m Hj. lia.
  - destruct (IH ltac:(lia)) as (best & log & Hrun & Hbest).
    rewrite seq_S, run_app, Hrun. cbn [mbind option_bind Nat.add run].
    destruct (Normalizer.step_inside output batch ch n Hshape Hch w h
                best log k ltac:(lia))
      as (c & m & name & box & Hbc & Hname & ->).
    cbn [mbind option_bind]. eexists _, _. split; [reflexivity|].
    exact (first_best_step k best c m name box Hbest Hbc Hname).
Qed.

(** X21: ties go to the first.  On an output with at least seven
    channels a reported detection belongs to the first candidate that
    attains the largest score of the three class channels over all
    candidates: every earlier candidate stays strictly below it, no
    candidate exceeds it.  Its class is the first of the three that
    holds that score, and its name is that class's. *)
Theorem ties_go_to_the_first_candidate (best : Detection) :
  detect output w h = Some best ->
  detected best = true ->
  exists i c name,
    (i < n)%nat /\
    best_class output i = Some (c, confidence best) /\
    CLASS_NAMES !! c = Some name /\
    card_type best = Some name /\
    (forall j c' m', (j < i)%nat -> best_class output j = Some (c', m') ->
       m' < confidence best) /\
    (forall j c' m', (j < n)%nat -> best_class output j = Some (c', m') ->
       m' <= confidence best) /\
    (forall c', (c' < 3)%nat ->
       item output 0 (4 + c') i <= confidence best) /\
    (forall c', (c' < c)%nat ->
       item output 0 (4 + c') i < confidence best).
Proof.
  destruct (run_first_best n (Nat.le_refl n))
    as (best0 & log & Hrun & Hbest).
  unfold detect, parse. rewrite Hshape. cbn [snd]. rewrite Hrun. cbn.
  intros [= <-] Hd.
  destruct Hbest as [(-> & _)
                    | (i & c & name & Hi & Hb & Ht & Hn & _ & Hc & Hfirst
                       & Hall)];
    [discriminate|].
  exists i, c, name. split; [exact Hi|]. split; [exact Hb|].
  split; [exact Hn|]. split; [exact Hc|].
  split; [exact Hfirst|]. split; [exact Hall|].
  apply (best_class_first i c (confidence best0) Hi Hb).
Qed.

End Shaped.

Lemma ties_go_to_the_first_candidate_witness :
  exists i c name,
    (i < 3)%nat /\
    best_class Scenarios.tied_tensor i = Some (c, 0.75) /\
    CLASS_NAMES !! c = Some name /\
    Some "aadhaar_back" = Some name /\
    (forall j c' m', (j < i)%nat ->
       best_class Scenarios.tied_tensor j = Some (c', m') -> m' < 0.75) /\
    (forall j c' m', (j < 3)%nat ->
       best_class Scenarios.tied_tensor j = Some (c', m') -> m' <= 0.75) /\
    (forall c', (c' < 3)%nat ->
       item Scenarios.tied_tensor 0 (4 + c') i <= 0.75) /\
    (forall c', (c' < c)%nat ->
       item Scenarios.tied_tensor 0 (4 + c') i < 0.75).
Proof.
  apply (ties_go_to_the_first_candidate Scenarios.tied_tensor 0 7 3
           eq_refl (Nat.le_refl 7) 640 640
           {| detected := true; card_type := Some "aadhaar_back";
              confidence := 0.75;
              bbox := Some {| x := (64 - 64 / 2) * (640 / 640);
                              y := (64 - 64 / 2) * (640 / 640);
                              width := 64 * (640 / 640);
                              height := 64 * (640 / 640) |} |});
    reflexivity.
Defined.

End TensorFacts.

(** ** The calibration reader *)

Module CalibrationFacts.
Import Calibration.

Section Reader.
Context {A : Type}.

Lemma get_next_inside (self : YOLOCalibrationDataReader A) sample :
  calibration_data self !! index self = Some sample ->
  get_next self
  = (Some (input_name self, sample),
     {| calibration_data := calibration_data self;
        input_name := input_name self; index := S (index self) |}).
Proof.
  intros H. unfold get_next. rewrite H.
  apply lookup_lt_Some in H.
  destruct (Nat.leb_spec (length (calibration_data self)) (index self));
    [lia | reflexivity].
Qed.

Lemma get_next_exhausted (self : YOLOCalibrationDataReader A) :
  (length (calibration_data self) <= index self)%nat ->
  get_next self = (None, self).
Proof.
  intros H. unfold get_next.
  destruct (Nat.leb_spec (length (calibration_data self)) (index self));
    [reflexivity | lia].
Qed.

Lemma read_inside k : forall self : YOLOCalibrationDataReader A,
  (index self + k <= length (calibration_data self))%nat ->
  read k self
  = (map (fun sample => Some (input_name self, sample))
       (take k (drop (index self) (calibration_data self))),
     {| calibration_data := calibration_data self;
        input_name := input_name self; index := index self + k |}).
Proof.
  induction k as [|k IH]; intros self Hk.
  - cbn. rewrite Nat.add_0_r. destruct self; reflexivity.
  - destruct (lookup_lt_is_Some_2 (calibration_data self) (index self))
      as [sample Hs]; [lia|].
    cbn [read]. rewrite (get_next_inside self sample Hs).
    rewrite IH by (cbn; lia). cbn [calibration_data input_name index].
    rewrite (drop_S _ _ _ Hs). cbn [take map].
    now rewrite Nat.add_succ_r.
Qed.

(** X22: a calibration reader hands out its samples once, in order, each
    under the input name, and then [None] for good without moving; after
    [rewind], from any position, it hands them all out again. *)
Theorem reader_hands_out_samples_in_order (data : list A) (name : string) :
  read (length data) (init data name)
  = (map (fun sample => Some (name, sample)) data,
     {| calibration_data := data; input_name := name;
        index := length data |})
  /\
  (forall self : YOLOCalibrationDataReader A,
     (length (calibration_data self) <= index self)%nat ->
     get_next self = (None, self))
  /\
  (forall self : YOLOCalibrationDataReader A,
     calibration_data self = data -> input_name self = name ->
     fst (read (length data) (rewind self))
     = map (fun sample => Some (name, sample)) data).
Proof.
  split; [|split].
  - rewrite read_inside by (cbn; lia).
    cbn [init calibration_data input_name index drop Nat.add].
    now rewrite firstn_all.
  - apply get_next_exhausted.
  - intros self <- <-. rewrite read_inside by (cbn; lia).
    cbn [rewind calibration_data input_name index drop Nat.add fst].
    now rewrite firstn_all.
Qed.

End Reader.

Lemma reader_hands_out_samples_in_order_witness :
  get_next {| calibration_data := [1%nat; 2%nat]; input_name := "images";
              index := 2 |}
  = (None, {| calibration_data := [1%nat; 2%nat]; input_name := "images";
              index := 2 |})
  /\
  fst (read 2 (rewind {| calibration_data := [1%nat; 2%nat];
                         input_name := "images"; index := 1 |}))
  = [Some ("images", 1%nat); Some ("images", 2%nat)].
Proof.
  destruct (reader_hands_out_samples_in_order [1%nat; 2%nat] "images")
    as (_ & Hdone & Hrewind).
  split.
  - apply Hdone. cbn. lia.
  - apply (Hrewind {| calibration_data := [1%nat; 2%nat];
                      input_name := "images"; index := 1 |}); reflexivity.
Defined.

End CalibrationFacts.

(** ** Fraud, force and review across the stateless handler *)

Module PolicyFacts.
Import Stateless.

Section Policy.
Context {Image : Type} (imdecode : string -> option Image).

Lemma slot_print_iff (d : Detector Image) expected side image_base64 t :
  slot_print (process_slot imdecode d expected side image_base64 t) = true
  <->
  exists s image boxes b,
    image_base64 = Some s /\ str_truthy (Some s) = true /\
    decode_base64_image imdecode s = Some image /\
    predict (model d) image = inr boxes /\ In b boxes /\
    label (card_classes d) b = "print_aadhar" /\ t < conf b.
Proof.
  unfold process_slot.
  destruct image_base64 as [[|c s]|].
  - split; [discriminate|]. intros (s & i & bs & b & [= <-] & H & _).
    discriminate.
  - destruct (decode_base64_image imdecode (String c s)) as [image|] eqn:Hd.
    + assert (Hp : slot_print
                     (if Side.detected (detect_from_bytes d image t)
                         && bool_decide
                              (Side.class (detect_from_bytes d image t)
                               = Some expected)
                      then {| slot_print :=
                                Side.print_aadhar_detected
                                  (detect_from_bytes d image t);
                              slot_detected := true;
                              slot_confidence :=
                                Side.confidence (detect_from_bytes d image t);
                              slot_details :=
                                Side.all_detections
                                  (detect_from_bytes d image t) |}
                      else {| slot_print :=
                                Side.print_aadhar_detected
                                  (detect_from_bytes d image t);
                              slot_detected := false;
                              slot_confidence := 0;
                              slot_details :=
                                Side.all_detections
                                  (detect_from_bytes d image t) |})
                   = Side.print_aadhar_detected (detect_from_bytes d image t)).
      { destruct (_ && _); reflexivity. }
      rewrite Hp, ScanFacts.detect_print_iff. split.
      * intros (bs & b & H). exists (String c s), image, bs, b. tauto.
      * intros (s' & i & bs & b & [= <-] & _ & Hd' & H).
        rewrite Hd in Hd'. injection Hd' as <-. eauto.
    + split; [discriminate|].
      intros (s' & i & bs & b & [= <-] & _ & Hd' & _). congruence.
  - split; [discriminate|]. intros (s & i & bs & b & H & _). discriminate.
Qed.

(** X23: the fraud flag of a request is set exactly when one of its two
    images was supplied, decoded and scanned, and shows a printed-copy
    box strictly above the threshold; whether that side is detected as a
    card plays no part. *)
Theorem fraud_flag_iff_printed_copy_seen (cfg : Settings)
    (d : Detector Image) (front_base64 back_base64 : option string)
    (t : Q) :
  Cards.print_aadhar_detected
    (detect_cards_from_base64 imdecode cfg d front_base64 back_base64 t)
  = true
  <->
  (exists s image boxes b,
     front_base64 = Some s /\ str_truthy (Some s) = true /\
     decode_base64_image imdecode s = Some image /\
     predict (model d) image = inr boxes /\ In b boxes /\
     label (card_classes d) b = "print_aadhar" /\ t < conf b)
  \/
  (exists s image boxes b,
     back_base64 = Some s /\ str_truthy (Some s) = true /\
     decode_base64_image imdecode s = Some image /\
     predict (model d) image = inr boxes /\ In b boxes /\
     label (card_classes d) b = "print_aadhar" /\ t < conf b).
Proof.
  unfold detect_cards_from_base64. cbn [Cards.print_aadhar_detected].
  now rewrite orb_true_iff, !slot_print_iff.
Qed.

(** X24: [force_upload] matters only when no fraud signal fired and not
    both sides are detected: when the fraud signal fired or both sides
    are detected, the same request with and without the flag gets the
    same response and leaves the same queue. *)
Theorem force_upload_changes_nothing_when_settled (app : App Image)
    (user : string) (front_image back_image : option string)
    (threshold : Q) (now : string) (d : Detector Image) :
  detector app = Some d ->
  Cards.print_aadhar_detected
    (detect_cards_from_base64 imdecode (settings app) d front_image
       back_image threshold) = true
  \/
  Cards.front_detected
    (detect_cards_from_base64 imdecode (settings app) d front_image
       back_image threshold)
  && Cards.back_detected
       (detect_cards_from_base64 imdecode (settings app) d front_image
          back_image threshold) = true ->
  serve imdecode app
    {| Request.user_id := user; Request.front_image := front_image;
       Request.back_image := back_image;
       Request.confidence_threshold := threshold;
       Request.force_upload := true |} now
  = serve imdecode app
      {| Request.user_id := user; Request.front_image := front_image;
         Request.back_image := back_image;
         Request.confidence_threshold := threshold;
         Request.force_upload := false |} now.
Proof.
  intros Hd H.
  unfold serve, detect_aadhaar_cards_stateless, detection_result.
  rewrite Hd.
  cbn [Request.user_id Request.front_image Request.back_image
       Request.confidence_threshold Request.force_upload].
  destruct (negb (str_truthy front_image) && negb (str_truthy back_image));
    [reflexivity|].
  destruct H as [-> | ->]; [reflexivity|].
  destruct (Cards.print_aadhar_detected _); reflexivity.
Qed.

Lemma engine_never_pending (cfg : Settings) (d : Detector Image)
    (front_base64 back_base64 : option string) (t : Q) :
  LOW_CONFIDENCE_THRESHOLD cfg <= t ->
  Cards.status
    (detect_cards_from_base64 imdecode cfg d front_base64 back_base64 t)
  <> PENDING_REVIEW.
Proof.
  intros Hlow H.
  apply DecisionTable.pending_iff in H as (_ & [[H1 H2] | [H1 H2]]);
    unfold detect_cards_from_base64 in H1, H2;
    cbn [Cards.front_detected Cards.front_confidence
         Cards.back_detected Cards.back_confidence] in H1, H2.
  - destruct (StatelessSide.process_slot_inv imdecode d t
                "aadhar_front" "front" front_base64)
      as [(Hd & _) | (_ & Hle & _)]; [congruence | lra].
  - destruct (StatelessSide.process_slot_inv imdecode d t
                "aadhar_back" "back" back_base64)
      as [(Hd & _) | (_ & Hle & _)]; [congruence | lra].
Qed.

(** X25: a request that does not set [force_upload] and whose threshold
    is not below the low-confidence threshold never reaches the review
    queue, and its response never reports PENDING_REVIEW: with the
    default thresholds (0.15 and 0.10) only forced uploads are
    reviewed. *)
Theorem only_forced_uploads_are_reviewed_by_default (app : App Image)
    (request : Request.t) (now : string) :
  Request.force_upload request = false ->
  LOW_CONFIDENCE_THRESHOLD (settings app)
  <= Request.confidence_threshold request ->
  manual_review_queue (snd (serve imdecode app request now))
  = manual_review_queue app /\
  reported_status (content (fst (serve imdecode app request now)))
  <> Some PENDING_REVIEW.
Proof.
  intros Hforce Hlow.
  unfold serve, detect_aadhaar_cards_stateless, detection_result.
  destruct (detector app) as [d|]; [|cbn; split; [reflexivity|discriminate]].
  destruct (negb _ && negb _); [cbn; split; [reflexivity|discriminate]|].
  destruct (Cards.print_aadhar_detected _);
    [cbn; split; [reflexivity|discriminate]|].
  rewrite Hforce. cbn [andb].
  pose proof (engine_never_pending (settings app) d
                (Request.front_image request) (Request.back_image request)
                (Request.confidence_threshold request) Hlow) as Hnp.
  destruct (Cards.status _); cbn; try (split; [reflexivity|discriminate]).
  contradiction.
Qed.

End Policy.

Lemma fraud_flag_iff_printed_copy_seen_witness :
  Cards.print_aadhar_detected
    (detect_cards_from_base64 Demo.imdecode Demo.defaults Demo.the_detector
       (Some "print40front92") None 0.15) = true.
Proof.
  apply (proj2 (fraud_flag_iff_printed_copy_seen Demo.imdecode Demo.defaults
                  Demo.the_detector (Some "print40front92") None 0.15)).
  left.
  exists "print40front92", (Some [Demo.printed 0.40; Demo.front 0.92]),
    [Demo.printed 0.40; Demo.front 0.92], (Demo.printed 0.40).
  split; [reflexivity|]. split; [reflexivity|]. split; [reflexivity|].
  split; [reflexivity|]. split; [now left|].
  split; vm_compute; reflexivity.
Defined.

Lemma force_upload_changes_nothing_when_settled_witness :
  serve Demo.imdecode (Demo.running Demo.defaults [])
    (Demo.request (Some "front92") (Some "back88") 0.15 true)
    "2024-01-01T00:00:00"
  = serve Demo.imdecode (Demo.running Demo.defaults [])
      (Demo.request (Some "front92") (Some "back88") 0.15 false)
      "2024-01-01T00:00:00".
Proof.
  apply (force_upload_changes_nothing_when_settled Demo.imdecode
           (Demo.running Demo.defaults []) "u1" (Some "front92")
           (Some "back88") 0.15 "2024-01-01T00:00:00" Demo.the_detector).
  - reflexivity.
  - right. vm_compute. reflexivity.
Defined.

Lemma only_forced_uploads_are_reviewed_by_default_witness :
  manual_review_queue
    (snd (serve Demo.imdecode (Demo.running Demo.defaults [])
            (Demo.request (Some "front92") (Some "back08") 0.15 false)
            "2024-01-01T00:00:00")) = []
  /\
  reported_status
    (content
       (fst (serve Demo.imdecode (Demo.running Demo.defaults [])
               (Demo.request (Some "front92") (Some "back08") 0.15 false)
               "2024-01-01T00:00:00")))
  <> Some PENDING_REVIEW.
Proof.
  apply (only_forced_uploads_are_reviewed_by_default Demo.imdecode
           (Demo.running Demo.defaults [])
           (Demo.request (Some "front92") (Some "back08") 0.15 false)
           "2024-01-01T00:00:00").
  - reflexivity.
  - vm_compute. discriminate.
Defined.

End PolicyFacts.
